(** * Crypto-Scaper: the reconciliation loop of the conference scraper

    A shallow embedding of the Python sources
    - [web_scraper.py]   (ConferenceScraper: oracle client, batch runner,
                          result validator),
    - [csv_processor.py] and [sheets_processor.py] (the two record stores
                          and their completeness analyzer),
    - [scheduler.py]     (ConferenceScheduler: one reconciliation cycle and
                          the recurring loop),
    - [config.py]        (constants),
    followed by the properties of the specification that were checked
    against them. *)

From Stdlib Require Import ZArith List String Ascii Bool Lia DecimalString.
From stdpp Require Import base option list gmap strings.

Local Open Scope string_scope.
Local Open Scope Z_scope.

(** ** Python strings

    A Python [str] is modelled as a Rocq [string], one [ascii] per
    character: the model covers texts of ASCII characters. *)
Module PyStr.

(** The ASCII characters for which [str.isspace] holds, which are the ones
    removed by [str.strip()]: TAB, LF, VT, FF, CR, the separators FS, GS,
    RS, US and the space. *)
Definition is_space (c : ascii) : bool :=
  let n := nat_of_ascii c in
  ((9 <=? n)%nat && (n <=? 13)%nat) || ((28 <=? n)%nat && (n <=? 32)%nat).

(** [s.lstrip()] *)
Fixpoint lstrip (s : string) : string :=
  match s with
  | EmptyString => EmptyString
  | String c r => if is_space c then lstrip r else s
  end.

(** [s.rstrip()] *)
Fixpoint rstrip (s : string) : string :=
  match s with
  | EmptyString => EmptyString
  | String c r =>
      match rstrip r with
      | EmptyString => if is_space c then EmptyString else String c EmptyString
      | r' => String c r'
      end
  end.

(** [s.strip()] *)
Definition strip (s : string) : string := rstrip (lstrip s).

(** [c in s] for a one-character [c]. *)
Fixpoint contains_char (c : ascii) (s : string) : bool :=
  match s with
  | EmptyString => false
  | String d r => Ascii.eqb c d || contains_char c r
  end.

(** [len(s)] *)
Definition len (s : string) : Z := Z.of_nat (String.length s).

(** [s.lower()] on ASCII letters. *)
Definition lower_char (c : ascii) : ascii :=
  let n := nat_of_ascii c in
  if (65 <=? n)%nat && (n <=? 90)%nat then ascii_of_nat (n + 32) else c.

Fixpoint lower (s : string) : string :=
  match s with
  | EmptyString => EmptyString
  | String c r => String (lower_char c) (lower r)
  end.

(** [s.startswith(p)] *)
Definition startswith (p s : string) : bool := String.prefix p s.

(** [p in s] *)
Fixpoint contains (p s : string) : bool :=
  String.prefix p s ||
  match s with
  | EmptyString => false
  | String _ r => contains p r
  end.

(** [s.replace(p, t)] for a non-empty [p]: the occurrences of [p], found
    from left to right without overlap, are replaced by [t]. [skip] counts
    the characters of the current occurrence that are still to be dropped. *)
Fixpoint replace_from (p t : string) (skip : nat) (s : string) : string :=
  match s with
  | EmptyString => EmptyString
  | String c r =>
      match skip with
      | S k => replace_from p t k r
      | O =>
          if String.prefix p s
          then t +:+ replace_from p t (String.length p - 1) r
          else String c (replace_from p t O r)
      end
  end.

Definition replace (p t s : string) : string := replace_from p t O s.

End PyStr.

(** ** Python values

    The values that a cell of the table or a field of the oracle's JSON
    answer can hold. Whatever is not [None], a NaN, a bool, an int or a
    [str] (a float, a list, a nested object) is [POther r], where [r] is
    the text that [str()] gives for it: the code below only ever looks at
    such a value through [str()]. *)
Inductive pyval : Type :=
| PNone
| PNaN
| PBool (b : bool)
| PInt (z : Z)
| PStr (s : string)
| POther (r : string).

Global Instance pyval_eq_dec : EqDecision pyval.
Proof. solve_decision. Defined.

(** [str(v)] *)
Definition py_str (v : pyval) : string :=
  match v with
  | PNone => "None"
  | PNaN => "nan"
  | PBool true => "True"
  | PBool false => "False"
  | PInt z => DecimalString.NilZero.string_of_int (Z.to_int z)
  | PStr s => s
  | POther r => r
  end.

(** [pd.isna(v)] on a scalar. *)
Definition pd_isna (v : pyval) : bool :=
  match v with
  | PNone | PNaN => true
  | _ => false
  end.

(** ** config.py *)
Module Config.

Definition FIELDS_TO_SCRAPE : list string :=
  ["Start Date"; "End Date"; "Location"; "Speaker"; "Attendees"; "Status"].

Definition SCRAPING_INTERVAL_HOURS : Z := 12.

Definition OUTPUT_2026_CSV : string := "conferences_2026.csv".

End Config.

(** ** web_scraper.py: the result validator *)

(** The body of the loop over the two date fields of
    [validate_scraped_data]: [date_field] is copied, trimmed, when it
    has a slash and at most five characters. *)
Definition validate_date (data : gmap string pyval) (validated_data : gmap string pyval)
    (date_field : string) : gmap string pyval :=
  match data !! date_field with
  | Some v =>
      let date_value := PyStr.strip (py_str v) in
      if PyStr.contains_char "/" date_value && (PyStr.len date_value <=? 5)
      then <[date_field := PStr date_value]> validated_data
      else validated_data
  | None => validated_data
  end.

(** The block that [validate_scraped_data] repeats for [Location],
    [Speaker], [Attendees] and [Status]: the field is copied, trimmed, when
    something is left of it. *)
Definition validate_text (data : gmap string pyval) (validated_data : gmap string pyval)
    (field : string) : gmap string pyval :=
  match data !! field with
  | Some v =>
      let text := PyStr.strip (py_str v) in
      if 0 <? PyStr.len text
      then <[field := PStr text]> validated_data
      else validated_data
  | None => validated_data
  end.

(** [ConferenceScraper.validate_scraped_data] *)
Definition validate_scraped_data (data : gmap string pyval) : gmap string pyval :=
  let validated_data := ∅ in
  let validated_data := fold_left (validate_date data) ["Start Date"; "End Date"] validated_data in
  let validated_data := validate_text data validated_data "Location" in
  let validated_data := validate_text data validated_data "Speaker" in
  let validated_data := validate_text data validated_data "Attendees" in
  let validated_data := validate_text data validated_data "Status" in
  validated_data.

(** ** Exceptions

    [Raise msg] stands for a raised exception that is an instance of
    Python's [Exception] class, [msg] being its text; it is what an
    [except Exception] clause catches. *)
Inductive result (A : Type) : Type :=
| Ok (a : A)
| Raise (msg : string).
Arguments Ok {A} a.
Arguments Raise {A} msg.

(** ** The table: a pandas DataFrame

    A frame has its column labels and its rows; a row has its index label
    and one value per column, in the order of the columns. Frames are
    modelled with pairwise distinct column labels (a label is looked up at
    its first position). *)
Record DataFrame : Type := {
  columns : list string;
  rows : list (nat * list pyval)
}.

(** [pd.DataFrame()] *)
Definition empty_frame : DataFrame := {| columns := []; rows := [] |}.

(** [df.empty]: one of the two axes has length zero. *)
Definition df_empty (df : DataFrame) : bool :=
  match columns df, rows df with
  | [], _ | _, [] => true
  | _, _ => false
  end.

(** [field in df.columns] *)
Definition in_columns (field : string) (cols : list string) : bool :=
  existsb (String.eqb field) cols.

(** The position of a column label. *)
Fixpoint column_index (field : string) (cols : list string) : option nat :=
  match cols with
  | [] => None
  | c :: cols' =>
      if String.eqb field c then Some O
      else option_map S (column_index field cols')
  end.

(** [row[field]]: [None] is the [KeyError] of a label that is no column; a
    row shorter than the header was padded with NaN by pandas. *)
Definition row_getitem (cols : list string) (vals : list pyval) (field : string)
    : option pyval :=
  match column_index field cols with
  | Some i => Some (nth i vals PNaN)
  | None => None
  end.

(** [row.get(field, default)] *)
Definition row_get (cols : list string) (vals : list pyval) (field : string)
    (default : pyval) : pyval :=
  match row_getitem cols vals field with
  | Some v => v
  | None => default
  end.

(** [row.to_dict()] *)
Definition row_to_dict (cols : list string) (vals : list pyval) : list (string * pyval) :=
  map (fun c => (c, row_get cols vals c PNaN)) cols.

(** [pd.isna(v) or str(v).strip() == ""] *)
Definition is_blank (v : pyval) : bool :=
  pd_isna v || String.eqb (PyStr.strip (py_str v)) "".

(** ** The work item built by the completeness analyzer *)
Record WorkItem : Type := {
  index : nat;
  conference_name : pyval;
  category : pyval;
  region : pyval;
  missing_fields : list string;
  existing_data : list (string * pyval)
}.

(** ** csv_processor.py and sheets_processor.py: the completeness analyzer

    [get_incomplete_conferences] has the same text in [CSVProcessor] and
    in [GoogleSheetsProcessor]. The list of fields is
    [Config.FIELDS_TO_SCRAPE] in the source; it is a parameter of the
    loops here. *)
Module Analyzer.

(** The inner loop: the fields of [fields] that are columns of the frame
    and blank in the row, in the order of [fields]. *)
Definition missing_fields_of (fields cols : list string) (vals : list pyval)
    : list string :=
  fold_left
    (fun missing field =>
       if in_columns field cols
       then match row_getitem cols vals field with
            | Some v => if is_blank v then (missing ++ [field])%list else missing
            | None => missing
            end
       else missing)
    fields [].

(** The outer loop over [df.iterrows()], with the list built so far. *)
Fixpoint iterrows (fields cols : list string) (rs : list (nat * list pyval))
    (incomplete_conferences : list WorkItem) : result (list WorkItem) :=
  match rs with
  | [] => Ok incomplete_conferences
  | (idx, vals) :: rs' =>
      match missing_fields_of fields cols vals with
      | [] => iterrows fields cols rs' incomplete_conferences
      | missing =>
          match row_getitem cols vals "Conference Name" with
          | None => Raise "KeyError: 'Conference Name'"
          | Some name =>
              let conference_info :=
                {| index := idx;
                   conference_name := name;
                   category := row_get cols vals "Category" (PStr "");
                   region := row_get cols vals "Region" (PStr "");
                   missing_fields := missing;
                   existing_data := row_to_dict cols vals |} in
              iterrows fields cols rs' (incomplete_conferences ++ [conference_info])%list
          end
      end
  end.

Definition get_incomplete_conferences_for (fields : list string) (df : DataFrame)
    : result (list WorkItem) :=
  iterrows fields (columns df) (rows df) [].

End Analyzer.

(** [CSVProcessor.get_incomplete_conferences] and
    [GoogleSheetsProcessor.get_incomplete_conferences] *)
Definition get_incomplete_conferences (df : DataFrame) : result (list WorkItem) :=
  Analyzer.get_incomplete_conferences_for Config.FIELDS_TO_SCRAPE df.

(** ** sheets_processor.py: loading the 2026 sheet *)
Module Sheets.

(** [GoogleSheetsProcessor.load_2026_data] on the values that
    [sheet_2026.get_all_values()] returned: the first row is the header,
    the others get the index labels 0, 1, ...; the rows whose name is blank
    are dropped and the others keep their labels. *)
Definition load_2026_data (values : list (list string)) : result DataFrame :=
  match values with
  | [] => Ok empty_frame
  | header :: body =>
      let all_rows := imap (fun i r => (i, map PStr r)) body in
      if in_columns "Conference Name" header
      then Ok {| columns := header;
                 rows := filter
                   (fun r => negb (is_blank (row_get header r.2 "Conference Name" PNaN)) = true)
                   all_rows |}
      else Raise "KeyError: 'Conference Name'"
  end.

End Sheets.

(** ** Effects

    What the program does to the outside world is recorded as a trace of
    events: log records, blocking sleeps, and the writes sent to the hosted
    spreadsheet or to the CSV file. Only [SheetRowUpdate] (an update of
    the "Conferences 2026" worksheet) and [CsvSaved] write the table of
    conference records. *)
Inductive level : Type := DEBUG | INFO | WARNING | ERROR.

Inductive event : Type :=
| Log (lvl : level) (msg : string)
| Sleep (secs : Z)
| SpreadsheetCreated (name : string)
| WorksheetAdded (title : string)
| DashboardUpdate (range : string)
| DashboardFormat (range : string)
| SheetRowUpdate (sheet_row : nat) (row_data : list pyval)
| CsvSaved (filename : string) (df : DataFrame).

(** The attributes of a [ConferenceScheduler] that change after
    construction. *)
Record Scheduler : Type := {
  sheets_initialized : bool;
  last_run : option Z;
  total_conferences_processed : Z;
  total_updates_made : Z
}.

(** [ConferenceScheduler.__init__] *)
Definition new_scheduler : Scheduler :=
  {| sheets_initialized := false;
     last_run := None;
     total_conferences_processed := 0;
     total_updates_made := 0 |}.

(** The mutable state: the scheduler object, the clock that [time.time()]
    and [datetime.now()] read and that a sleep advances, and the trace. *)
Record State : Type := {
  sched : Scheduler;
  now : Z;
  trace : list event
}.

(** A computation reads and changes the state and returns or raises; the
    state reached when an exception is raised is kept. *)
Definition M (A : Type) : Type := State -> result A * State.

Definition ret {A : Type} (a : A) : M A := fun st => (Ok a, st).

Definition raise {A : Type} (msg : string) : M A := fun st => (Raise msg, st).

Definition bind {A B : Type} (c : M A) (k : A -> M B) : M B :=
  fun st =>
    match c st with
    | (Ok a, st') => k a st'
    | (Raise msg, st') => (Raise msg, st')
    end.

(** [try: c  except Exception as e: handler(str(e))] *)
Definition try_except {A : Type} (c : M A) (handler : string -> M A) : M A :=
  fun st =>
    match c st with
    | (Ok a, st') => (Ok a, st')
    | (Raise msg, st') => handler msg st'
    end.

Definition lift {A : Type} (r : result A) : M A := fun st => (r, st).

Declare Scope m_scope.
Delimit Scope m_scope with M.
Notation "x <- c ;; k" := (bind c (fun x => k))
  (at level 62, c at next level, right associativity) : m_scope.
Notation "c ;;; k" := (bind c (fun _ => k))
  (at level 62, right associativity) : m_scope.
Local Open Scope m_scope.

Definition emit (e : event) : M unit :=
  fun st => (Ok tt, {| sched := sched st; now := now st; trace := (trace st ++ [e])%list |}).

(** [self.logger.<lvl>(msg)] *)
Definition log (lvl : level) (msg : string) : M unit := emit (Log lvl msg).

(** [time.sleep(secs)] *)
Definition sleep (secs : Z) : M unit :=
  fun st => (Ok tt, {| sched := sched st; now := now st + secs;
                       trace := (trace st ++ [Sleep secs])%list |}).

(** [time.time()] and [datetime.now()] *)
Definition time : M Z := fun st => (Ok (now st), st).

Definition get_sched : M Scheduler := fun st => (Ok (sched st), st).

Definition set_sched (s : Scheduler) : M unit :=
  fun st => (Ok tt, {| sched := s; now := now st; trace := trace st |}).

(** [str(n)] for an integer. *)
Definition str_int (z : Z) : string := py_str (PInt z).

(** ** web_scraper.py: the oracle client *)

(** What [self.client.responses.create(...)] does: it raises, or it
    returns a response with its [output_text]. *)
Inductive api_reply : Type :=
| ApiRaises (msg : string)
| ApiText (output_text : string).

(** What [json.loads] returns: an object, as a dict, or any other
    document. *)
Inductive json_doc : Type :=
| JDict (d : gmap string pyval)
| JValue (v : pyval).

(** What [search_conference_info] returns: [False] or the dict of the
    fields found. *)
Inductive scraped : Type :=
| PyFalse
| Found (d : gmap string pyval).

(** One entry of the list returned by [scrape_batch]; [error] is the key
    that only the entries built by its exception handler have. *)
Record BatchResult : Type := {
  conference_info : WorkItem;
  scraped_data : scraped;
  timestamp : Z;
  error : option string
}.

Section Scraper.

(** [json.loads]: [None] stands for [json.JSONDecodeError]. *)
Variable json_loads : string -> option json_doc.

(** The request of [search_conference_info] is built from the work item by
    [create_search_prompt]; [oracle] gives the service's reply to the
    request made for a work item. *)
Variable oracle : WorkItem -> api_reply.

(** The filter of [search_conference_info]: the fields whose value is
    neither [None] nor blank once trimmed. *)
Definition filter_response (parsed_response : gmap string pyval) : gmap string pyval :=
  filter (fun kv => kv.2 <> PNone /\ PyStr.strip (py_str kv.2) <> "") parsed_response.

(** The inner [try] block of [search_conference_info], with the handler
    of [json.JSONDecodeError]. [.items()] of a document that is no dict
    raises an [AttributeError], which the inner handler lets through. *)
Definition parse_response (name : string) (response_text : string) : M scraped :=
  if String.eqb (PyStr.lower response_text) "false"
  then log INFO ("No information found for: " +:+ name) ;;; ret PyFalse
  else
    let response_text :=
      if PyStr.startswith "```json" response_text
      then PyStr.strip (PyStr.replace "```" "" (PyStr.replace "```json" "" response_text))
      else response_text in
    match json_loads response_text with
    | None =>
        log ERROR ("Failed to parse JSON response for " +:+ name) ;;;
        log DEBUG ("Response was: " +:+ response_text) ;;;
        ret PyFalse
    | Some (JValue _) => raise "AttributeError: object has no attribute 'items'"
    | Some (JDict parsed_response) =>
        let filtered_response := filter_response parsed_response in
        if bool_decide (filtered_response = ∅)
        then log INFO ("No valid information found for: " +:+ name) ;;; ret PyFalse
        else log INFO ("Found information for " +:+ name) ;;; ret (Found filtered_response)
    end.

(** [ConferenceScraper.search_conference_info] *)
Definition search_conference_info (conference_info : WorkItem) : M scraped :=
  let name := py_str (conference_name conference_info) in
  try_except
    (log INFO ("Searching for information about: " +:+ name) ;;;
     match oracle conference_info with
     | ApiRaises msg => raise msg
     | ApiText output_text => parse_response name (PyStr.strip output_text)
     end)
    (fun e => log ERROR ("Error searching for " +:+ name +:+ ": " +:+ e) ;;; ret PyFalse).

(** [ConferenceScraper.test_api_connection], on the reply to its request. *)
Definition test_api_connection (canary : api_reply) : M bool :=
  try_except
    (match canary with
     | ApiRaises msg => raise msg
     | ApiText output_text =>
         if PyStr.contains "successful" (PyStr.lower output_text)
         then log INFO "API connection test successful" ;;; ret true
         else log ERROR "API connection test failed - unexpected response" ;;; ret false
     end)
    (fun e => log ERROR ("API connection test failed: " +:+ e) ;;; ret false).

End Scraper.

(** ** web_scraper.py: the batch runner *)

(** [range(start, stop, step)]: a [ValueError] for a zero step, else the
    values from [start] by [step] that lie before [stop]. *)
Definition py_range (start stop step : Z) : result (list Z) :=
  if step =? 0 then Raise "ValueError: range() arg 3 must not be zero"
  else
    let count :=
      if 0 <? step then (stop - start + step - 1) / step
      else (start - stop - step - 1) / (- step) in
    Ok (map (fun k => start + Z.of_nat k * step) (seq 0 (Z.to_nat count))).

(** [l[a:b]] for indices that are not negative. *)
Definition py_slice {A : Type} (l : list A) (a b : Z) : list A :=
  take (Z.to_nat (b - a)) (drop (Z.to_nat a) l).

Section BatchRunner.

(** The method [self.search_conference_info] that the runner calls. *)
Variable search : WorkItem -> M scraped.

(** The body of the inner loop: the [try] block appends the result and
    sleeps, the handler appends an entry with [False] and the error. *)
Definition scrape_conference (results : list BatchResult) (conference : WorkItem)
    : M (list BatchResult) :=
  try_except
    (result <- search conference ;;
     t <- time ;;
     let results := (results ++ [{| conference_info := conference;
                                    scraped_data := result;
                                    timestamp := t;
                                    error := None |}])%list in
     sleep 2 ;;;
     ret results)
    (fun e =>
       log ERROR ("Error processing conference "
                  +:+ py_str (conference_name conference) +:+ ": " +:+ e) ;;;
       t <- time ;;
       ret (results ++ [{| conference_info := conference;
                           scraped_data := PyFalse;
                           timestamp := t;
                           error := Some e |}])%list).

(** The inner loop over one batch. *)
Fixpoint scrape_conferences (batch : list WorkItem) (results : list BatchResult)
    : M (list BatchResult) :=
  match batch with
  | [] => ret results
  | conference :: batch' =>
      results <- scrape_conference results conference ;;
      scrape_conferences batch' results
  end.

(** The outer loop over the start positions of the batches. *)
Fixpoint scrape_batches (conferences : list WorkItem) (batch_size : Z)
    (starts : list Z) (results : list BatchResult) : M (list BatchResult) :=
  match starts with
  | [] => ret results
  | i :: starts' =>
      let n := Z.of_nat (length conferences) in
      let batch := py_slice conferences i (i + batch_size) in
      log INFO ("Processing batch " +:+ str_int (i / batch_size + 1)
                +:+ " of " +:+ str_int (n / batch_size + 1)) ;;;
      results <- scrape_conferences batch results ;;
      (if i + batch_size <? n
       then log INFO "Waiting between batches..." ;;; sleep 10
       else ret tt) ;;;
      scrape_batches conferences batch_size starts' results
  end.

(** [ConferenceScraper.scrape_batch] *)
Definition scrape_batch (conferences : list WorkItem) (batch_size : Z)
    : M (list BatchResult) :=
  starts <- lift (py_range 0 (Z.of_nat (length conferences)) batch_size) ;;
  scrape_batches conferences batch_size starts [].

End BatchRunner.

(** ** csv_processor.py: the CSV record store *)
Module CSV.

(** [df.at[index, field] = value]: the cell of column [field] in the row
    labelled [index]. The labels given to it come from the frame itself,
    so that the row exists. *)
Definition set_at (df : DataFrame) (index : nat) (field : string) (value : pyval)
    : DataFrame :=
  match column_index field (columns df) with
  | Some j =>
      {| columns := columns df;
         rows := map (fun r : nat * list pyval =>
                        if Nat.eqb r.1 index then (r.1, <[j := value]> r.2) else r)
                     (rows df) |}
  | None => df
  end.

(** The loop of [update_conference_data] over [field_updates.items()];
    the fields of one dict are written to different columns. *)
Definition update_fields (str_values : bool) (df : DataFrame) (index : nat)
    (field_updates : gmap string pyval) : M DataFrame :=
  fold_left
    (fun (acc : M DataFrame) (kv : string * pyval) =>
       df <- acc ;;
       if in_columns kv.1 (columns df)
       then log INFO ("Updated " +:+ kv.1 +:+ " for conference at index "
                      +:+ str_int (Z.of_nat index)) ;;;
            ret (set_at df index kv.1 (if str_values then PStr (py_str kv.2) else kv.2))
       else ret df)
    (map_to_list field_updates) (ret df).

(** [CSVProcessor.update_conference_data] *)
Definition update_conference_data (df : DataFrame) (index : nat)
    (field_updates : gmap string pyval) : M DataFrame :=
  try_except
    (update_fields false df index field_updates)
    (fun e => log ERROR ("Error updating conference data: " +:+ e) ;;; raise e).

(** [CSVProcessor.save_csv] *)
Definition save_csv (df : DataFrame) (filename : string) : M unit :=
  emit (CsvSaved filename df) ;;;
  log INFO ("Saved " +:+ str_int (Z.of_nat (length (rows df))) +:+ " records to " +:+ filename).

End CSV.

(** ** sheets_processor.py: the hosted-spreadsheet record store *)
Module GoogleSheets.

(** What the service holds when the spreadsheet is opened: whether the
    spreadsheet and each worksheet are found, and the error, if any, that
    opening it raises. *)
Record Remote : Type := {
  open_error : option string;
  spreadsheet_found : bool;
  sheet_2025_found : bool;
  sheet_2026_found : bool;
  dashboard_found : bool
}.

(** [_format_dashboard] *)
Definition format_dashboard : M unit :=
  emit (DashboardFormat "A1:E1") ;;;
  fold_left
    (fun (acc : M unit) (row : Z) =>
       acc ;;; emit (DashboardFormat ("A" +:+ str_int row +:+ ":E" +:+ str_int row)))
    [3; 11; 17; 21; 27; 33; 39] (ret tt) ;;;
  emit (DashboardFormat "B6") ;;;
  log INFO "Dashboard formatted successfully".

(** [_setup_dashboard] *)
Definition setup_dashboard : M unit :=
  emit (DashboardUpdate "A1") ;;;
  format_dashboard ;;;
  log INFO "Dashboard set up successfully".

(** [_setup_worksheets] *)
Definition setup_worksheets (remote : Remote) : M unit :=
  (if sheet_2025_found remote then ret tt else emit (WorksheetAdded "Conferences 2025")) ;;;
  (if sheet_2026_found remote then ret tt else emit (WorksheetAdded "Conferences 2026")) ;;;
  (if dashboard_found remote then ret tt
   else emit (WorksheetAdded "Dashboard") ;;; setup_dashboard) ;;;
  log INFO "Worksheets set up successfully".

(** [create_or_open_spreadsheet] *)
Definition create_or_open_spreadsheet (remote : Remote) (spreadsheet_name : string)
    : M unit :=
  try_except
    (match open_error remote with
     | Some msg => raise msg
     | None =>
         (if spreadsheet_found remote
          then log INFO ("Opened existing spreadsheet: " +:+ spreadsheet_name)
          else emit (SpreadsheetCreated spreadsheet_name) ;;;
               log INFO ("Created new spreadsheet: " +:+ spreadsheet_name)) ;;;
         setup_worksheets remote
     end)
    (fun e => log ERROR ("Failed to create/open spreadsheet: " +:+ e) ;;; raise e).

(** [_sync_row_to_sheets]: the row at POSITION [index] of the frame is
    sent to sheet row [index + 2]; a position past the end of the frame is
    an [IndexError]. *)
Definition sync_row_to_sheets (df : DataFrame) (index : nat) : M unit :=
  try_except
    (match rows df !! index with
     | None => raise "IndexError: single positional indexer is out-of-bounds"
     | Some r =>
         emit (SheetRowUpdate (index + 2) r.2) ;;;
         log INFO ("Synced row " +:+ str_int (Z.of_nat index) +:+ " to Google Sheets")
     end)
    (fun e => log ERROR ("Failed to sync row to Google Sheets: " +:+ e) ;;; raise e).

(** [GoogleSheetsProcessor.update_conference_data] *)
Definition update_conference_data (df : DataFrame) (index : nat)
    (field_updates : gmap string pyval) : M DataFrame :=
  try_except
    (df <- CSV.update_fields true df index field_updates ;;
     sync_row_to_sheets df index ;;;
     ret df)
    (fun e => log ERROR ("Error updating conference data: " +:+ e) ;;; raise e).

(** [update_dashboard_timestamp] *)
Definition update_dashboard_timestamp : M unit :=
  emit (DashboardUpdate "B8") ;;;
  log INFO "Dashboard timestamp updated".

(** [update_system_status] *)
Definition update_system_status : M unit :=
  emit (DashboardUpdate "B34") ;;;
  emit (DashboardUpdate "B35") ;;;
  emit (DashboardUpdate "B36") ;;;
  log INFO "System status updated".

End GoogleSheets.

(** ** scheduler.py: one reconciliation cycle *)

(** What one cycle meets outside the program: the backend chosen by
    [Config.USE_GOOGLE_SHEETS], the state of the hosted spreadsheet, the
    reply to the connectivity request, what the processor's
    [load_2026_data] returns or raises, and the oracle's replies. The
    calls that write to the spreadsheet or to the CSV file are taken to
    return normally. *)
Record CycleEnv : Type := {
  use_google_sheets : bool;
  remote : GoogleSheets.Remote;
  canary : api_reply;
  load_2026_data : result DataFrame;
  oracle : WorkItem -> api_reply
}.

Section Job.

Variable json_loads : string -> option json_doc.

(** [Config.GOOGLE_SPREADSHEET_NAME], read from the environment. *)
Variable spreadsheet_name : string.

(** [ConferenceScheduler._ensure_sheets_initialized] *)
Definition ensure_sheets_initialized (env : CycleEnv) : M unit :=
  s <- get_sched ;;
  if use_google_sheets env && negb (sheets_initialized s)
  then
    try_except
      (GoogleSheets.create_or_open_spreadsheet (remote env) spreadsheet_name ;;;
       set_sched {| sheets_initialized := true;
                    last_run := last_run s;
                    total_conferences_processed := total_conferences_processed s;
                    total_updates_made := total_updates_made s |} ;;;
       log INFO "Google Sheets initialized successfully")
      (fun e => log ERROR ("Failed to initialize Google Sheets: " +:+ e) ;;; raise e)
  else ret tt.

(** [self.data_processor.update_conference_data] *)
Definition update_conference_data (env : CycleEnv) (df : DataFrame) (index : nat)
    (field_updates : gmap string pyval) : M DataFrame :=
  if use_google_sheets env
  then GoogleSheets.update_conference_data df index field_updates
  else CSV.update_conference_data df index field_updates.

(** Whether [result['scraped_data'] and result['scraped_data'] is not
    False] holds: the value is a dict that is not empty. *)
Definition truthy (d : scraped) : bool :=
  match d with
  | PyFalse => false
  | Found m => negb (bool_decide (m = ∅))
  end.

(** The loop of [run_scraping_job] over the scraping results, with the
    frame and the counter [updates_made]. *)
Fixpoint merge_results (env : CycleEnv) (scraping_results : list BatchResult)
    (df_2026 : DataFrame) (updates_made : Z) : M (DataFrame * Z) :=
  match scraping_results with
  | [] => ret (df_2026, updates_made)
  | result :: rest =>
      match scraped_data result with
      | Found m =>
          if truthy (Found m)
          then
            let validated_data := validate_scraped_data m in
            if bool_decide (validated_data = ∅)
            then merge_results env rest df_2026 updates_made
            else
              df_2026 <- update_conference_data env df_2026
                           (index (conference_info result)) validated_data ;;
              log INFO ("Updated " +:+ py_str (conference_name (conference_info result))
                        +:+ " with " +:+ str_int (Z.of_nat (size validated_data))
                        +:+ " fields") ;;;
              merge_results env rest df_2026 (updates_made + 1)
          else merge_results env rest df_2026 updates_made
      | PyFalse => merge_results env rest df_2026 updates_made
      end
  end.

(** The block "Save updated data" of [run_scraping_job]. *)
Definition save_updates (env : CycleEnv) (df_2026 : DataFrame) (updates_made : Z)
    : M unit :=
  if 0 <? updates_made
  then
    (if use_google_sheets env
     then GoogleSheets.update_dashboard_timestamp ;;; GoogleSheets.update_system_status
     else CSV.save_csv df_2026 Config.OUTPUT_2026_CSV) ;;;
    log INFO ("Saved " +:+ str_int updates_made +:+ " updates to data storage")
  else ret tt.

(** The block "Update statistics" of [run_scraping_job]. *)
Definition update_statistics (processed : Z) (updates_made : Z) : M unit :=
  s <- get_sched ;;
  t <- time ;;
  set_sched {| sheets_initialized := sheets_initialized s;
               last_run := Some t;
               total_conferences_processed := total_conferences_processed s + processed;
               total_updates_made := total_updates_made s + updates_made |}.

(** [ConferenceScheduler.run_scraping_job] *)
Definition run_scraping_job (env : CycleEnv) : M unit :=
  log INFO "Starting scheduled scraping job..." ;;;
  try_except
    (ensure_sheets_initialized env ;;;
     connected <- test_api_connection (canary env) ;;
     if negb connected
     then log ERROR "API connection test failed. Skipping scraping job."
     else
       df_2026 <- lift (load_2026_data env) ;;
       if df_empty df_2026
       then log ERROR "No 2026 data found. Please initialize data storage first."
       else
         incomplete_conferences <- lift (get_incomplete_conferences df_2026) ;;
         log INFO ("Found " +:+ str_int (Z.of_nat (length incomplete_conferences))
                   +:+ " conferences with missing information") ;;;
         match incomplete_conferences with
         | [] => log INFO "No conferences with missing information found."
         | _ =>
             log INFO ("Found " +:+ str_int (Z.of_nat (length incomplete_conferences))
                       +:+ " conferences with missing information") ;;;
             scraping_results <-
               scrape_batch (search_conference_info json_loads (oracle env))
                            incomplete_conferences 3 ;;
             merged <- merge_results env scraping_results df_2026 0 ;;
             save_updates env merged.1 merged.2 ;;;
             update_statistics (Z.of_nat (length incomplete_conferences)) merged.2 ;;;
             log INFO "Scraping job completed" ;;;
             log INFO ("Processed: " +:+ str_int (Z.of_nat (length incomplete_conferences))
                       +:+ " conferences, Updated: " +:+ str_int merged.2
                       +:+ " conferences")
         end)
    (fun e => log ERROR ("Error in scraping job: " +:+ e) ;;; raise e).

(** ** scheduler.py: the recurring loop *)

(** What one pass of the [while True] loop of [run_scheduler] meets in
    [schedule.run_pending()]: no job is due, or the job is due and runs in
    some environment, or the user interrupts the process
    ([KeyboardInterrupt]). *)
Inductive tick : Type :=
| Idle
| Pending (env : CycleEnv)
| Interrupt.

Inductive loop_status : Type :=
| Polling
| Stopped.

(** One pass of the loop body: its [try] block and its two handlers. *)
Definition loop_iteration (t : tick) : State -> loop_status * State :=
  fun st =>
    match t with
    | Interrupt =>
        (Stopped, (log INFO "Scheduler stopped by user" st).2)
    | Idle => (Polling, (sleep 60 st).2)
    | Pending env =>
        match run_scraping_job env st with
        | (Ok _, st') => (Polling, (sleep 60 st').2)
        | (Raise e, st') =>
            (Polling, ((log ERROR ("Error in scheduler: " +:+ e) ;;; sleep 300) st').2)
        end
    end.

(** The loop over the passes that the given ticks drive; it returns the
    number of passes made, and [Polling] when it is still in the loop after
    the last of them. *)
Fixpoint scheduler_loop (ticks : list tick) (passes : nat) (st : State)
    : loop_status * nat * State :=
  match ticks with
  | [] => (Polling, passes, st)
  | t :: ticks' =>
      match loop_iteration t st with
      | (Polling, st') => scheduler_loop ticks' (S passes) st'
      | (Stopped, st') => (Stopped, S passes, st')
      end
  end.

(** [ConferenceScheduler.run_scheduler]: the job is scheduled, run once,
    an exception of this first run leaving the method, and the loop
    starts. *)
Definition run_scheduler (first : CycleEnv) (ticks : list tick)
    : State -> result (loop_status * nat) * State :=
  fun st =>
    match (log INFO "Starting conference scraper scheduler..." ;;;
           log INFO ("Scheduled scraping job to run every "
                     +:+ str_int Config.SCRAPING_INTERVAL_HOURS +:+ " hours") ;;;
           log INFO "Running initial scraping job..." ;;;
           run_scraping_job first) st with
    | (Raise e, st') => (Raise e, st')
    | (Ok _, st') =>
        let r := scheduler_loop ticks 0 st' in (Ok (r.1.1, r.1.2), r.2)
    end.

End Job.

(** ** Predicates of the specification *)

(** "contains a '/' character and has length at most 5" *)
Definition date_shape (s : string) : Prop :=
  PyStr.contains_char "/" s = true /\ PyStr.len s <= 5.

(** The value that the validator keeps for a date field holding [v]. *)
Definition kept_date (v : pyval) : option pyval :=
  let s := PyStr.strip (py_str v) in
  if PyStr.contains_char "/" s && (PyStr.len s <=? 5) then Some (PStr s) else None.

(** The value that the validator keeps for a text field holding [v]. *)
Definition kept_text (v : pyval) : option pyval :=
  let s := PyStr.strip (py_str v) in
  if 0 <? PyStr.len s then Some (PStr s) else None.

Definition is_date_field (k : string) : bool :=
  bool_decide (k ∈ ["Start Date"; "End Date"]).

Definition is_text_field (k : string) : bool :=
  bool_decide (k ∈ ["Location"; "Speaker"; "Attendees"; "Status"]).

(** A required field is missing in a row, as the analyzer's code has it:
    the field is a column of the frame and its cell is NaN or blank once
    trimmed. *)
Definition missing_in (cols : list string) (vals : list pyval) (field : string) : bool :=
  in_columns field cols && is_blank (row_get cols vals field PNaN).

Definition incomplete_row (fields cols : list string) (r : nat * list pyval) : bool :=
  existsb (missing_in cols r.2) fields.

(** The work item of a row. *)
Definition work_item_of (fields cols : list string) (r : nat * list pyval) : WorkItem :=
  {| index := r.1;
     conference_name := row_get cols r.2 "Conference Name" PNaN;
     category := row_get cols r.2 "Category" (PStr "");
     region := row_get cols r.2 "Region" (PStr "");
     missing_fields := List.filter (missing_in cols r.2) fields;
     existing_data := row_to_dict cols r.2 |}.

(** The analyzer as the specification words it: a field is missing when
    it is absent from the row or blank once trimmed; a row is a work item
    when a required field is missing and its name is not blank. The result
    is given by the index labels of the rows, in the order of the table. *)
Module Spec.

Definition field_missing (cols : list string) (vals : list pyval) (field : string) : bool :=
  match row_getitem cols vals field with
  | None => true
  | Some v => is_blank v
  end.

Definition name_blank (cols : list string) (vals : list pyval) : bool :=
  field_missing cols vals "Conference Name".

Definition analyze (fields : list string) (df : DataFrame) : list nat :=
  map fst
    (List.filter
       (fun r => negb (name_blank (columns df) r.2)
                 && existsb (field_missing (columns df) r.2) fields)
       (rows df)).

End Spec.

(** A table whose third row has a blank name and no status. *)
Definition table_with_blank_name : DataFrame :=
  {| columns := ["Conference Name"; "Start Date"; "End Date"; "Location";
                 "Speaker"; "Attendees"; "Status"];
     rows := [(0%nat, [PStr "Consensus"; PStr "05/14"; PStr "05/16"; PStr "Toronto";
                       PStr "TBA"; PStr "15000"; PStr ""]);
              (1%nat, [PStr "Devcon"; PStr "11/17"; PStr "11/22"; PStr "Buenos Aires";
                       PStr "TBA"; PStr "12000"; PStr "Confirmed"]);
              (2%nat, [PStr "  "; PStr "01/02"; PStr "01/03"; PStr "Paris";
                       PStr "TBA"; PStr "100"; PNaN])] |}.

(** The text that [search_conference_info] hands to [json.loads]: the
    trimmed answer, without its code fence when it starts with one. *)
Definition unfenced (response_text : string) : string :=
  if PyStr.startswith "```json" response_text
  then PyStr.strip (PyStr.replace "```" "" (PyStr.replace "```json" "" response_text))
  else response_text.

(** A double quote, and a text between double quotes. *)
Definition dquote : string := String (ascii_of_nat 34) EmptyString.

Definition quoted (s : string) : string := dquote +:+ s +:+ dquote.

(** The JSON text of an object with the one field [Status]. *)
Definition status_confirmed_text : string :=
  "{" +:+ quoted "Status" +:+ ": " +:+ quoted "Confirmed" +:+ "}".

(** A JSON text cut short. *)
Definition truncated_text : string := "{" +:+ quoted "Status" +:+ ": ".

(** [json.loads] on the texts of the examples: the object above, the
    empty object and the empty array are parsed; the truncated text is a
    [JSONDecodeError], as is every text that is not listed. *)
Definition example_json_loads (text : string) : option json_doc :=
  if String.eqb text status_confirmed_text
  then Some (JDict {[ "Status" := PStr "Confirmed" ]})
  else if String.eqb text "{}" then Some (JDict ∅)
  else if String.eqb text "[]" then Some (JValue (POther "[]"))
  else None.

(** A work item that misses its status. *)
Definition example_item : WorkItem :=
  {| index := 0%nat;
     conference_name := PStr "Consensus";
     category := PStr "";
     region := PStr "";
     missing_fields := ["Status"];
     existing_data := [] |}.

Definition example_state : State :=
  {| sched := new_scheduler; now := 100; trace := [] |}.

(** An entry made by the exception handler carries [False]. *)
Definition marked (r : BatchResult) : Prop :=
  error r <> None -> scraped_data r = PyFalse.

(** The run statistics of the scheduler. *)
Definition stats (s : Scheduler) : option Z * Z * Z :=
  (last_run s, total_conferences_processed s, total_updates_made s).

(** The events that write the table of conference records. *)
Definition is_row_update (e : event) : bool :=
  match e with SheetRowUpdate _ _ => true | _ => false end.

Definition is_csv_save (e : event) : bool :=
  match e with CsvSaved _ _ => true | _ => false end.

Definition is_table_write (e : event) : bool := is_row_update e || is_csv_save e.

Definition no_table_write (e : event) : bool := negb (is_table_write e).

Definition is_log (e : event) : bool :=
  match e with Log _ _ => true | _ => false end.

Definition is_log_or_sleep (e : event) : bool :=
  match e with Log _ _ | Sleep _ => true | _ => false end.

Definition row_updates (l : list event) : nat := length (List.filter is_row_update l).

Definition csv_saves (l : list event) : nat := length (List.filter is_csv_save l).

(** From [st] to [st'] the statistics did not change, the spreadsheet,
    once initialized, stayed so, and the trace grew by events that all
    satisfy [P]. *)
Definition appends (P : event -> bool) (st st' : State) : Prop :=
  stats (sched st') = stats (sched st) /\
  (sheets_initialized (sched st) = true -> sheets_initialized (sched st') = true) /\
  exists new, trace st' = (trace st ++ new)%list /\ forallb P new = true.

(** The computation [c] keeps that relation to the state [st0]. *)
Definition inv (P : event -> bool) (st0 : State) {A : Type} (c : M A) : Prop :=
  forall st, appends P st0 st -> appends P st0 (c st).2.

(** From [st] to [st'] the statistics did not change and the trace grew
    by events among which [dr] update a row of the 2026 worksheet and
    [dc] save the CSV file. *)
Definition grows (dr dc : nat) (st st' : State) : Prop :=
  stats (sched st') = stats (sched st) /\
  exists new, trace st' = (trace st ++ new)%list /\
              row_updates new = dr /\ csv_saves new = dc.

(** A table in which no required field is missing. *)
Definition complete_table : DataFrame :=
  {| columns := ["Conference Name"; "Start Date"; "End Date"; "Location";
                 "Speaker"; "Attendees"; "Status"];
     rows := [(0%nat, [PStr "Consensus"; PStr "05/14"; PStr "05/16"; PStr "Toronto";
                       PStr "TBA"; PStr "15000"; PStr "Confirmed"]);
              (1%nat, [PStr "Devcon"; PStr "11/17"; PStr "11/22"; PStr "Buenos Aires";
                       PStr "TBA"; PStr "12000"; PStr "Confirmed"])] |}.

(** The table of the specification's scenario: three rows, two of which
    miss their status only. *)
Definition scenario_table : DataFrame :=
  {| columns := ["Conference Name"; "Start Date"; "End Date"; "Location";
                 "Speaker"; "Attendees"; "Status"];
     rows := [(0%nat, [PStr "Consensus"; PStr "05/14"; PStr "05/16"; PStr "Toronto";
                       PStr "TBA"; PStr "15000"; PStr ""]);
              (1%nat, [PStr "Devcon"; PStr "11/17"; PStr "11/22"; PStr "Buenos Aires";
                       PStr "TBA"; PStr "12000"; PStr "Confirmed"]);
              (2%nat, [PStr "Token2049"; PStr "04/29"; PStr "04/30"; PStr "Dubai";
                       PStr "TBA"; PStr "10000"; PNaN])] |}.

(** A spreadsheet that exists with its three worksheets. *)
Definition ready_remote : GoogleSheets.Remote :=
  {| GoogleSheets.open_error := None;
     GoogleSheets.spreadsheet_found := true;
     GoogleSheets.sheet_2025_found := true;
     GoogleSheets.sheet_2026_found := true;
     GoogleSheets.dashboard_found := true |}.

(** A cycle on [table], on either backend, in which the service answers
    the connectivity request with [canary_text] and every query with
    [answer]. *)
Definition example_env (sheets : bool) (canary_text : string) (table : DataFrame)
    (answer : string) : CycleEnv :=
  {| use_google_sheets := sheets;
     remote := ready_remote;
     canary := ApiText canary_text;
     load_2026_data := Ok table;
     oracle := fun _ => ApiText answer |}.

(** What a cycle that returns has written, by its count [u] of updates. *)
Definition cycle_writes (env : CycleEnv) (st st' : State) (u : Z) : Prop :=
  0 <= u /\
  total_updates_made (sched st') = total_updates_made (sched st) + u /\
  exists new,
    trace st' = (trace st ++ new)%list /\
    row_updates new = (if use_google_sheets env then Z.to_nat u else 0%nat) /\
    csv_saves new = (if use_google_sheets env then 0%nat
                     else if 0 <? u then 1%nat else 0%nat).

(** A search method that answers "not found" for the work items of even
    index and raises for the others. *)
Definition flaky_search (w : WorkItem) : M scraped :=
  if Nat.even (index w) then ret PyFalse else raise "503 Service Unavailable".

Definition numbered_item (n : nat) : WorkItem :=
  {| index := n;
     conference_name := PStr "Consensus";
     category := PStr "";
     region := PStr "";
     missing_fields := ["Status"];
     existing_data := [] |}.

(** A cycle in which loading the table raises. *)
Definition failing_env : CycleEnv :=
  {| use_google_sheets := false;
     remote := ready_remote;
     canary := ApiText "API test successful";
     load_2026_data := Raise "Error loading 2026 CSV";
     oracle := fun _ => ApiText "false" |}.

(** The ticks other than the user's interrupt. *)
Definition not_interrupt (t : tick) : bool :=
  match t with
  | Interrupt => false
  | _ => true
  end.

(** The state in which the handler of the recurring loop leaves the pass
    whose job raised [e] in state [st]: the error is logged and five
    minutes are slept. *)
Definition after_failed_tick (e : string) (st : State) : State :=
  {| sched := sched st;
     now := now st + 300;
     trace := (trace st ++ [Log ERROR ("Error in scheduler: " +:+ e); Sleep 300])%list |}.

(** The cell of column [field] in the row at position [pos] of a frame. *)
Definition cell (df : DataFrame) (pos : nat) (field : string) : option pyval :=
  rows df !! pos ≫= fun r => row_getitem (columns df) r.2 field.

(** ** Predicates of the further properties *)

(** Every row of the frame has one value per column, as a pandas frame
    has. *)
Definition rectangular (df : DataFrame) : Prop :=
  Forall (fun r : nat * list pyval => length r.2 = length (columns df)) (rows df).

(** The value that the update loop stores for [v]. *)
Definition stored_value (str_values : bool) (v : pyval) : pyval :=
  if str_values then PStr (py_str v) else v.

(** The frame that the update loop builds from the items of a dict. *)
Definition written (str_values : bool) (i : nat) (items : list (string * pyval))
    (df : DataFrame) : DataFrame :=
  fold_left
    (fun (d : DataFrame) (kv : string * pyval) =>
       if in_columns kv.1 (columns d)
       then CSV.set_at d i kv.1 (stored_value str_values kv.2)
       else d)
    items df.

(** The test that the spreadsheet loader makes on a row: its name is not
    blank. *)
Definition has_name (header : list string) (r : nat * list pyval) : Prop :=
  negb (is_blank (row_get header r.2 "Conference Name" PNaN)) = true.

Global Instance has_name_dec (header : list string) (r : nat * list pyval) :
  Decision (has_name header r).
Proof. unfold has_name. apply _. Defined.

(** Any event. *)
Definition any_event (e : event) : bool := true.

(** When [c] raises, it has kept the statistics (the relation [appends]
    to the state [st0], for any events). *)
Definition raises_clean (st0 : State) {A : Type} (c : M A) : Prop :=
  forall st, appends any_event st0 st ->
             forall e st', c st = (Raise e, st') -> appends any_event st0 st'.

(** A result of the batch runner comes from the search of its own work
    item: it carries what the search returned, or [False] and the text of
    what the search raised. *)
Definition from_search (search : WorkItem -> M scraped) (r : BatchResult) : Prop :=
  (exists s, (search (conference_info r) s).1 = Ok (scraped_data r) /\ error r = None) \/
  (exists s e, (search (conference_info r) s).1 = Raise e /\
               scraped_data r = PyFalse /\ error r = Some e).

(** ** csv_processor.py: the 2026 template *)
Module Template.

(** [df[field] = value]: every cell of an existing column. *)
Definition set_column (df : DataFrame) (field : string) (value : pyval) : DataFrame :=
  match column_index field (columns df) with
  | Some j =>
      {| columns := columns df;
         rows := map (fun r : nat * list pyval => (r.1, <[j := value]> r.2)) (rows df) |}
  | None => df
  end.

(** The loop of [create_2026_template] that clears the fields to scrape. *)
Definition clear_fields (fields_to_clear : list string) (df : DataFrame) : DataFrame :=
  fold_left
    (fun (t : DataFrame) (field : string) =>
       if in_columns field (columns t) then set_column t field (PStr "") else t)
    fields_to_clear df.

(** [CSVProcessor.create_2026_template]: a copy of the 2025 frame with
    the fields to scrape cleared; reading the column [Quarter] raises a
    [KeyError] when the frame has no such column. *)
Definition create_2026_template (df_2025 : DataFrame) : M DataFrame :=
  try_except
    (let df_2026_template := clear_fields Config.FIELDS_TO_SCRAPE df_2025 in
     if in_columns "Quarter" (columns df_2026_template)
     then
       log INFO ("Created 2026 template with "
                 +:+ str_int (Z.of_nat (length (rows df_2026_template)))
                 +:+ " conferences") ;;;
       ret df_2026_template
     else raise "KeyError: 'Quarter'")
    (fun e => log ERROR ("Error creating 2026 template: " +:+ e) ;;; raise e).

End Template.

(** ** scheduler.py: the operations on demand *)

(** [l[:limit]]: the first [limit] elements, and for a negative [limit]
    all but the last [- limit]. *)
Definition py_prefix {A : Type} (l : list A) (limit : Z) : list A :=
  if 0 <=? limit then take (Z.to_nat limit) l
  else take (Z.to_nat (Z.of_nat (length l) + limit)) l.

(** The dict that [run_single_scraping_job] returns. *)
Module SingleRun.
Record t : Type := {
  success : bool;
  duration_seconds : option Z;
  error : option string;
  timestamp : Z;
  message : string
}.
End SingleRun.

Section OnDemand.

Variable json_loads : string -> option json_doc.
Variable spreadsheet_name : string.

(** [ConferenceScheduler.run_single_scraping_job] *)
Definition run_single_scraping_job (env : CycleEnv) : M SingleRun.t :=
  log INFO "Running single scraping job manually..." ;;;
  start_time <- time ;;
  try_except
    (run_scraping_job json_loads spreadsheet_name env ;;;
     end_time <- time ;;
     ret {| SingleRun.success := true;
            SingleRun.duration_seconds := Some (end_time - start_time);
            SingleRun.error := None;
            SingleRun.timestamp := start_time;
            SingleRun.message := "Scraping job completed successfully" |})
    (fun e =>
       ret {| SingleRun.success := false;
              SingleRun.duration_seconds := None;
              SingleRun.error := Some e;
              SingleRun.timestamp := start_time;
              SingleRun.message := "Scraping job failed" |}).

(** [self.data_processor.get_incomplete_conferences], with the log record
    that the processor writes before it returns. *)
Definition processor_get_incomplete_conferences (df : DataFrame) : M (list WorkItem) :=
  incomplete_conferences <- lift (get_incomplete_conferences df) ;;
  log INFO ("Found " +:+ str_int (Z.of_nat (length incomplete_conferences))
            +:+ " conferences with missing information") ;;;
  ret incomplete_conferences.

(** [ConferenceScheduler.get_incomplete_conferences_count] *)
Definition get_incomplete_conferences_count (env : CycleEnv) : M Z :=
  try_except
    (ensure_sheets_initialized spreadsheet_name env ;;;
     df_2026 <- lift (load_2026_data env) ;;
     if df_empty df_2026 then ret 0
     else
       incomplete_conferences <- processor_get_incomplete_conferences df_2026 ;;
       ret (Z.of_nat (length incomplete_conferences)))
    (fun e => log ERROR ("Error getting incomplete conferences count: " +:+ e) ;;; ret 0).

(** [ConferenceScheduler.preview_next_scraping_batch] *)
Definition preview_next_scraping_batch (env : CycleEnv) (limit : Z) : M (list WorkItem) :=
  try_except
    (ensure_sheets_initialized spreadsheet_name env ;;;
     df_2026 <- lift (load_2026_data env) ;;
     if df_empty df_2026 then ret []
     else
       incomplete_conferences <- processor_get_incomplete_conferences df_2026 ;;
       ret (py_prefix incomplete_conferences limit))
    (fun e => log ERROR ("Error previewing next scraping batch: " +:+ e) ;;; ret []).

End OnDemand.

(** ** scheduler.py: the schedule

    The jobs that the [schedule] module holds: the scraping job every so
    many hours, or every day at a time of day. *)
Inductive scheduled_job : Type :=
| EveryHours (interval : Z)
| DailyAt (time_str : string).

Section Schedule.

(** Whether [schedule.every().day.at(time_str)] takes the text as a time
    of day; it raises a [ScheduleValueError] when it does not. *)
Variable valid_time : string -> bool.

(** [ConferenceScheduler.schedule_jobs]: the jobs after it, and its log
    record. *)
Definition schedule_jobs (jobs : list scheduled_job) : list scheduled_job * list event :=
  ((jobs ++ [EveryHours Config.SCRAPING_INTERVAL_HOURS])%list,
   [Log INFO ("Scheduled scraping job to run every "
              +:+ str_int Config.SCRAPING_INTERVAL_HOURS +:+ " hours")]).

(** [ConferenceScheduler.stop_scheduler] *)
Definition stop_scheduler (jobs : list scheduled_job) : list scheduled_job * list event :=
  ([], [Log INFO "Scheduler stopped and all jobs cleared"]).

(** The loop of [set_custom_schedule] over the times of day. *)
Fixpoint schedule_times (specific_times : list string) (jobs : list scheduled_job)
    (logs : list event) : result unit * list scheduled_job * list event :=
  match specific_times with
  | [] => (Ok tt, jobs, logs)
  | time_str :: rest =>
      if valid_time time_str
      then schedule_times rest (jobs ++ [DailyAt time_str])%list
             (logs ++ [Log INFO ("Set custom schedule: daily at " +:+ time_str)])%list
      else (Raise "ScheduleValueError: Invalid time format", jobs, logs)
  end.

(** The truth value that [if hours:] gives an optional integer and that
    [if specific_times:] gives an optional list. *)
Definition hours_given (hours : option Z) : bool :=
  match hours with
  | Some h => negb (h =? 0)
  | None => false
  end.

Definition times_given (specific_times : option (list string)) : bool :=
  match specific_times with
  | Some (_ :: _) => true
  | _ => false
  end.

(** [ConferenceScheduler.set_custom_schedule]: [hours] and
    [specific_times] are [None] when they are not given. The jobs that
    the schedule held are cleared first. *)
Definition set_custom_schedule (hours : option Z) (specific_times : option (list string))
    (jobs : list scheduled_job) : result unit * list scheduled_job * list event :=
  let jobs := @nil scheduled_job in
  let '(jobs, logs) :=
    if hours_given hours
    then ((jobs ++ [EveryHours (default 0 hours)])%list,
          [Log INFO ("Set custom schedule: every " +:+ str_int (default 0 hours)
                     +:+ " hours")])
    else (jobs, []) in
  match (if times_given specific_times
         then schedule_times (default [] specific_times) jobs logs
         else (Ok tt, jobs, logs)) with
  | (Raise e, jobs, logs) => (Raise e, jobs, logs)
  | (Ok _, jobs, logs) =>
      if negb (hours_given hours) && negb (times_given specific_times)
      then let '(jobs', logs') := schedule_jobs jobs in (Ok tt, jobs', (logs ++ logs')%list)
      else (Ok tt, jobs, logs)
  end.

End Schedule.

(** Every row of the frame is blank in column [g]. *)
Definition blank_column (df : DataFrame) (g : string) : Prop :=
  Forall (fun r : nat * list pyval => is_blank (row_get (columns df) r.2 g PNaN) = true)
         (rows df).

(** ** web_scraper.py: the request sent to the oracle *)

(** A line feed. *)
Definition newline : string := String (ascii_of_nat 10) EmptyString.

(** [sep.join(l)] *)
Fixpoint join (sep : string) (l : list string) : string :=
  match l with
  | [] => EmptyString
  | [s] => s
  | s :: rest => s +:+ sep +:+ join sep rest
  end.

(** [ConferenceScraper.create_search_prompt] *)
Definition create_search_prompt (conference_info : WorkItem) : string :=
  let name := py_str (conference_name conference_info) in
  let category_text := py_str (category conference_info) in
  let region_text := py_str (region conference_info) in
  let missing := missing_fields conference_info in
  "You are tasked with finding information about the conference " +:+ dquote +:+
  name +:+ dquote +:+ " for 2026." +:+ newline +:+ newline +:+
  "Conference Details:" +:+ newline +:+ "- Name: " +:+ name +:+ newline +:+
  "- Category: " +:+ category_text +:+ newline +:+ "- Region: " +:+ region_text +:+
  newline +:+ newline +:+
  "I need you to search the web and find the following missing information for this conference in 2026:" +:+
  newline +:+ join ", " missing +:+ newline +:+ newline +:+ "Please search for:" +:+
  newline +:+ "1. Start Date and End Date (in MM/DD format)" +:+ newline +:+
  "2. Venue/Location (specific venue name and city)" +:+ newline +:+
  "3. Key Speakers (notable speakers or keynote speakers)" +:+ newline +:+
  "4. Expected Attendees (approximate number if available)" +:+ newline +:+
  "5. Current Status (confirmed, tentative, cancelled, etc.)" +:+ newline +:+
  newline +:+
  "Return ONLY a JSON object with the found information. Use these exact field names:" +:+
  newline +:+ "- " +:+ dquote +:+ "Start Date" +:+ dquote +:+ ": " +:+ dquote +:+
  "MM/DD" +:+ dquote +:+ " format" +:+ newline +:+ "- " +:+ dquote +:+ "End Date" +:+
  dquote +:+ ": " +:+ dquote +:+ "MM/DD" +:+ dquote +:+ " format  " +:+ newline +:+
  "- " +:+ dquote +:+ "Location" +:+ dquote +:+ ": " +:+ dquote +:+
  "Venue Name, City" +:+ dquote +:+ newline +:+ "- " +:+ dquote +:+ "Speaker" +:+
  dquote +:+ ": " +:+ dquote +:+ "Key speaker names" +:+ dquote +:+ newline +:+
  "- " +:+ dquote +:+ "Attendees" +:+ dquote +:+ ": " +:+ dquote +:+
  "Number or description" +:+ dquote +:+ newline +:+ "- " +:+ dquote +:+ "Status" +:+
  dquote +:+ ": " +:+ dquote +:+ "Current status" +:+ dquote +:+ newline +:+
  newline +:+
  "If you cannot find information for a specific field, use null for that field." +:+
  newline +:+
  "If you cannot find ANY information about this conference for 2026, return false." +:+
  newline +:+ newline +:+ "Example response format:" +:+ newline +:+ "{" +:+
  newline +:+ "    " +:+ dquote +:+ "Start Date" +:+ dquote +:+ ": " +:+ dquote +:+
  "05/15" +:+ dquote +:+ "," +:+ newline +:+ "    " +:+ dquote +:+ "End Date" +:+
  dquote +:+ ": " +:+ dquote +:+ "05/17" +:+ dquote +:+ "," +:+ newline +:+ "    " +:+
  dquote +:+ "Location" +:+ dquote +:+ ": " +:+ dquote +:+
  "Convention Center, Miami" +:+ dquote +:+ "," +:+ newline +:+ "    " +:+ dquote +:+
  "Speaker" +:+ dquote +:+ ": " +:+ dquote +:+ "Vitalik Buterin, CZ" +:+ dquote +:+
  "," +:+ newline +:+ "    " +:+ dquote +:+ "Attendees" +:+ dquote +:+ ": " +:+
  dquote +:+ "5000+" +:+ dquote +:+ "," +:+ newline +:+ "    " +:+ dquote +:+
  "Status" +:+ dquote +:+ ": " +:+ dquote +:+ "Confirmed" +:+ dquote +:+ newline +:+
  "}" +:+ newline +:+ newline +:+
  "Search the web now and provide the information about " +:+ dquote +:+ name +:+
  dquote +:+ " for 2026.".

(** ** Predicates of the schedule and of the loop *)

(** The jobs that a call of [set_custom_schedule] asks for. *)
Definition requested_jobs (hours : option Z) (specific_times : option (list string))
    : list scheduled_job :=
  ((if hours_given hours then [EveryHours (default 0 hours)] else [])
   ++ map DailyAt (default [] specific_times))%list.

(** The state in which [run_scheduler] runs the job for the first time:
    it has logged its start, the schedule and the first run. *)
Definition scheduler_started (st : State) : State :=
  {| sched := sched st;
     now := now st;
     trace := (trace st
               ++ [Log INFO "Starting conference scraper scheduler...";
                   Log INFO ("Scheduled scraping job to run every "
                             +:+ str_int Config.SCRAPING_INTERVAL_HOURS +:+ " hours");
                   Log INFO "Running initial scraping job..."])%list |}.

(** The state in which the handler of [KeyboardInterrupt] leaves the
    loop. *)
Definition after_interrupt (st : State) : State :=
  {| sched := sched st;
     now := now st;
     trace := (trace st ++ [Log INFO "Scheduler stopped by user"])%list |}.

(** * Properties *)

(** ** Trimming *)
Section Strip.
Import PyStr.

Lemma lstrip_idem (s : string) : lstrip (lstrip s) = lstrip s.
Proof.
  induction s as [|c r IH]; simpl; [reflexivity|].
  destruct (is_space c) eqn:E; [exact IH|]. simpl. now rewrite E.
Qed.

Lemma rstrip_cons (c : ascii) (r : string) :
  rstrip (String c r) =
  match rstrip r with
  | EmptyString => if is_space c then EmptyString else String c EmptyString
  | r' => String c r'
  end.
Proof. reflexivity. Qed.

Lemma rstrip_idem (s : string) : rstrip (rstrip s) = rstrip s.
Proof.
  induction s as [|c r IH]; [reflexivity|].
  rewrite rstrip_cons. destruct (rstrip r) as [|d r'] eqn:E.
  - destruct (is_space c) eqn:Ec; [reflexivity|].
    rewrite rstrip_cons. simpl. now rewrite Ec.
  - rewrite rstrip_cons, IH. reflexivity.
Qed.

Lemma lstrip_rstrip (s : string) : lstrip (rstrip s) = rstrip (lstrip s).
Proof.
  induction s as [|c r IH]; simpl; [reflexivity|].
  destruct (is_space c) eqn:Ec.
  - rewrite <- IH. destruct (rstrip r) eqn:E; simpl; [reflexivity|].
    now rewrite Ec.
  - simpl. destruct (rstrip r) eqn:E; simpl; now rewrite Ec.
Qed.

Lemma strip_idem (s : string) : strip (strip s) = strip s.
Proof.
  unfold strip. rewrite lstrip_rstrip, rstrip_idem, lstrip_idem. reflexivity.
Qed.

End Strip.

(** ** The result validator *)
Section Validator.

Lemma validate_date_lookup (data acc : gmap string pyval) (f k : string) :
  validate_date data acc f !! k =
  if decide (f = k)
  then match data !! f ≫= kept_date with
       | Some w => Some w
       | None => acc !! k
       end
  else acc !! k.
Proof.
  unfold validate_date, kept_date.
  destruct (data !! f) as [v|] eqn:Hv; simpl.
  - destruct (PyStr.contains_char "/" (PyStr.strip (py_str v))
              && (PyStr.len (PyStr.strip (py_str v)) <=? 5)).
    + case_decide; [subst; apply lookup_insert_eq|by apply lookup_insert_ne].
    + by case_decide.
  - by case_decide.
Qed.

Lemma validate_text_lookup (data acc : gmap string pyval) (f k : string) :
  validate_text data acc f !! k =
  if decide (f = k)
  then match data !! f ≫= kept_text with
       | Some w => Some w
       | None => acc !! k
       end
  else acc !! k.
Proof.
  unfold validate_text, kept_text.
  destruct (data !! f) as [v|] eqn:Hv; simpl.
  - destruct (0 <? PyStr.len (PyStr.strip (py_str v))).
    + case_decide; [subst; apply lookup_insert_eq|by apply lookup_insert_ne].
    + by case_decide.
  - by case_decide.
Qed.

Lemma option_keep {A : Type} (o : option A) :
  match o with Some w => Some w | None => None end = o.
Proof. now destruct o. Qed.

Lemma not_date_field (k : string) :
  "Start Date" <> k -> "End Date" <> k -> is_date_field k = false.
Proof.
  intros H1 H2. apply bool_decide_eq_false_2. intros H.
  apply elem_of_cons in H as [->|H]; [congruence|].
  apply elem_of_cons in H as [->|H]; [congruence|].
  now apply elem_of_nil in H.
Qed.

Lemma not_text_field (k : string) :
  "Location" <> k -> "Speaker" <> k -> "Attendees" <> k -> "Status" <> k ->
  is_text_field k = false.
Proof.
  intros H1 H2 H3 H4. apply bool_decide_eq_false_2. intros H.
  repeat (apply elem_of_cons in H as [->|H]; [congruence|]).
  now apply elem_of_nil in H.
Qed.

(** What the validator's output holds under any key. *)
Lemma validate_lookup (data : gmap string pyval) (k : string) :
  validate_scraped_data data !! k =
  if is_date_field k then data !! k ≫= kept_date
  else if is_text_field k then data !! k ≫= kept_text
  else None.
Proof.
  unfold validate_scraped_data. cbn [fold_left].
  rewrite !validate_text_lookup, !validate_date_lookup, lookup_empty.
  destruct (decide ("Status" = k)) as [<-|H1]; [apply option_keep|].
  destruct (decide ("Attendees" = k)) as [<-|H2]; [apply option_keep|].
  destruct (decide ("Speaker" = k)) as [<-|H3]; [apply option_keep|].
  destruct (decide ("Location" = k)) as [<-|H4]; [apply option_keep|].
  destruct (decide ("End Date" = k)) as [<-|H5].
  { destruct (_ ≫= _); [reflexivity|]. destruct (decide _); [discriminate|reflexivity]. }
  destruct (decide ("Start Date" = k)) as [<-|H6]; [apply option_keep|].
  rewrite not_date_field, not_text_field by assumption. reflexivity.
Qed.

Lemma kept_date_shape (v w : pyval) :
  kept_date v = Some w ->
  exists s, w = PStr s /\ PyStr.strip s = s /\ date_shape s.
Proof.
  unfold kept_date. intros H.
  destruct (PyStr.contains_char "/" (PyStr.strip (py_str v))) eqn:Hc; simpl in H;
    [|discriminate].
  destruct (PyStr.len (PyStr.strip (py_str v)) <=? 5) eqn:Hl; [|discriminate].
  injection H as <-. eexists. split; [reflexivity|]. split.
  - apply strip_idem.
  - split; [exact Hc|]. lia.
Qed.

Lemma kept_date_fixed (v w : pyval) : kept_date v = Some w -> kept_date w = Some w.
Proof.
  intros H. destruct (kept_date_shape _ _ H) as (s & -> & Hs & Hc & Hl).
  unfold kept_date. simpl. rewrite Hs, Hc. simpl.
  destruct (PyStr.len s <=? 5) eqn:E; [reflexivity|lia].
Qed.

Lemma kept_text_fixed (v w : pyval) : kept_text v = Some w -> kept_text w = Some w.
Proof.
  unfold kept_text. intros H.
  destruct (0 <? PyStr.len (PyStr.strip (py_str v))) eqn:E; [|discriminate].
  injection H as <-. simpl. rewrite strip_idem, E. reflexivity.
Qed.

End Validator.

Section ValidatorClaims.

(** C3: a [Start Date] or [End Date] value that is present in the output of
    [validate_scraped_data] is a trimmed string that contains a slash and
    has at most five characters; when the input's value, once trimmed,
    is not of that shape, or the input has no such field, the field is
    absent from the output. *)
Theorem validated_dates_have_date_shape (data : gmap string pyval) (date_field : string) :
  date_field ∈ ["Start Date"; "End Date"] ->
  (forall w, validate_scraped_data data !! date_field = Some w ->
     exists s, w = PStr s /\ PyStr.strip s = s /\ date_shape (PyStr.strip s)) /\
  (forall v, data !! date_field = Some v ->
     ~ date_shape (PyStr.strip (py_str v)) ->
     validate_scraped_data data !! date_field = None) /\
  (data !! date_field = None -> validate_scraped_data data !! date_field = None).
Proof.
  intros Hf. rewrite validate_lookup.
  unfold is_date_field. rewrite (bool_decide_eq_true_2 _ Hf).
  split; [|split].
  - intros w Hw. destruct (data !! date_field) as [v|]; [|discriminate].
    simpl in Hw. destruct (kept_date_shape _ _ Hw) as (s & -> & Hs & Hd).
    exists s. rewrite Hs. auto.
  - intros v -> Hbad. simpl. unfold kept_date.
    destruct (PyStr.contains_char "/" (PyStr.strip (py_str v))) eqn:Hc; [|reflexivity].
    destruct (PyStr.len (PyStr.strip (py_str v)) <=? 5) eqn:Hl; [|reflexivity].
    exfalso. apply Hbad. split; [exact Hc|lia].
  - intros ->. reflexivity.
Qed.

(** C4: [validate_scraped_data] is idempotent, and every key of its output
    is a key of its input. *)
Theorem validate_idempotent_and_restricting (data : gmap string pyval) :
  validate_scraped_data (validate_scraped_data data) = validate_scraped_data data /\
  dom (validate_scraped_data data) ⊆ dom data.
Proof.
  split.
  - apply map_eq. intros k. rewrite (validate_lookup (validate_scraped_data data)).
    rewrite (validate_lookup data).
    destruct (is_date_field k).
    + destruct (data !! k) as [v|]; [|reflexivity]. simpl.
      destruct (kept_date v) as [w|] eqn:E; [|reflexivity].
      simpl. exact (kept_date_fixed _ _ E).
    + destruct (is_text_field k); [|reflexivity].
      destruct (data !! k) as [v|]; [|reflexivity]. simpl.
      destruct (kept_text v) as [w|] eqn:E; [|reflexivity].
      simpl. exact (kept_text_fixed _ _ E).
  - intros k Hk. apply elem_of_dom in Hk as [w Hw]. apply elem_of_dom.
    rewrite validate_lookup in Hw.
    destruct (data !! k) as [v|]; [eauto|].
    destruct (is_date_field k); [discriminate|].
    destruct (is_text_field k); discriminate.
Qed.

End ValidatorClaims.

(** ** The completeness analyzer *)
Section AnalyzerProofs.

Lemma in_columns_index (field : string) (cols : list string) :
  in_columns field cols = true <-> exists j, column_index field cols = Some j.
Proof.
  unfold in_columns. induction cols as [|c cols IH]; simpl.
  - split; [discriminate|intros [j Hj]; discriminate].
  - destruct (String.eqb field c); simpl.
    + split; eauto.
    + rewrite IH. split; intros [j Hj].
      * rewrite Hj. simpl. eauto.
      * destruct (column_index field cols); [eauto|discriminate].
Qed.

Lemma in_columns_getitem (field : string) (cols : list string) (vals : list pyval)
    (d : pyval) :
  in_columns field cols = true ->
  row_getitem cols vals field = Some (row_get cols vals field d).
Proof.
  intros H. apply in_columns_index in H as [j Hj].
  unfold row_get, row_getitem. rewrite Hj. reflexivity.
Qed.

Lemma missing_fields_fold (fields cols : list string) (vals : list pyval)
    (acc : list string) :
  fold_left
    (fun missing field =>
       if in_columns field cols
       then match row_getitem cols vals field with
            | Some v => if is_blank v then (missing ++ [field])%list else missing
            | None => missing
            end
       else missing)
    fields acc
  = (acc ++ List.filter (missing_in cols vals) fields)%list.
Proof.
  revert acc. induction fields as [|f fields IH]; intros acc; simpl.
  - now rewrite app_nil_r.
  - rewrite IH. unfold missing_in at 2.
    destruct (in_columns f cols) eqn:Hin; simpl; [|reflexivity].
    rewrite (in_columns_getitem f cols vals PNaN Hin).
    destruct (is_blank (row_get cols vals f PNaN)); [|reflexivity].
    now rewrite <- app_assoc.
Qed.

Lemma missing_fields_of_filter (fields cols : list string) (vals : list pyval) :
  Analyzer.missing_fields_of fields cols vals = List.filter (missing_in cols vals) fields.
Proof. unfold Analyzer.missing_fields_of. now rewrite missing_fields_fold. Qed.

Lemma filter_nil_existsb {A : Type} (p : A -> bool) (l : list A) :
  List.filter p l = [] <-> existsb p l = false.
Proof.
  induction l as [|a l IH]; simpl; [tauto|].
  destruct (p a); simpl; [split; discriminate|exact IH].
Qed.

Lemma iterrows_spec (fields cols : list string) (rs : list (nat * list pyval))
    (acc : list WorkItem) :
  in_columns "Conference Name" cols = true ->
  Analyzer.iterrows fields cols rs acc =
  Ok (acc ++ map (work_item_of fields cols) (List.filter (incomplete_row fields cols) rs))%list.
Proof.
  intros Hname. revert acc.
  induction rs as [|[idx vals] rs IH]; intros acc; simpl.
  - now rewrite app_nil_r.
  - rewrite missing_fields_of_filter.
    change (incomplete_row fields cols (idx, vals))
      with (existsb (missing_in cols vals) fields).
    destruct (List.filter (missing_in cols vals) fields) as [|m ms] eqn:Hm.
    + apply filter_nil_existsb in Hm. rewrite Hm. apply IH.
    + assert (existsb (missing_in cols vals) fields = true) as ->.
      { destruct (existsb (missing_in cols vals) fields) eqn:E; [reflexivity|].
        apply filter_nil_existsb in E. congruence. }
      rewrite (in_columns_getitem _ cols vals PNaN Hname). rewrite IH.
      simpl. rewrite <- app_assoc. simpl.
      unfold work_item_of at 2. simpl. rewrite Hm. reflexivity.
Qed.

(** C1, as amended: on a table that has the column [Conference Name], the
    analyzer returns the work items of exactly the rows in which a
    required field that is a column of the table is NaN or blank once
    trimmed, whatever the row's name is, in the order of the table's
    rows. *)
Theorem analyzer_returns_incomplete_rows (fields : list string) (df : DataFrame) :
  in_columns "Conference Name" (columns df) = true ->
  Analyzer.get_incomplete_conferences_for fields df =
    Ok (map (work_item_of fields (columns df))
            (List.filter (incomplete_row fields (columns df)) (rows df))) /\
  (forall items, get_incomplete_conferences df = Ok items ->
     map index items =
     map fst (List.filter (incomplete_row Config.FIELDS_TO_SCRAPE (columns df)) (rows df))).
Proof.
  intros Hname. split.
  - unfold Analyzer.get_incomplete_conferences_for. now rewrite iterrows_spec.
  - intros items. unfold get_incomplete_conferences, Analyzer.get_incomplete_conferences_for.
    rewrite iterrows_spec by exact Hname. simpl. intros [= <-].
    rewrite map_map. reflexivity.
Qed.

Lemma analyzer_returns_incomplete_rows_witness :
  get_incomplete_conferences table_with_blank_name =
    Ok (map (work_item_of Config.FIELDS_TO_SCRAPE (columns table_with_blank_name))
            (List.filter (incomplete_row Config.FIELDS_TO_SCRAPE (columns table_with_blank_name))
                         (rows table_with_blank_name))).
Proof.
  apply (analyzer_returns_incomplete_rows Config.FIELDS_TO_SCRAPE table_with_blank_name).
  reflexivity.
Defined.

(** C1, as the specification states it, fails: the row of label 2 has a
    blank name and is returned, where the specification excludes it. *)
Lemma analyzer_keeps_blank_name_rows :
  (exists items, get_incomplete_conferences table_with_blank_name = Ok items /\
                 map index items = [0; 2]%nat) /\
  Spec.analyze Config.FIELDS_TO_SCRAPE table_with_blank_name = [0%nat].
Proof.
  split; [eexists; split|]; vm_compute; reflexivity.
Qed.

(** The spreadsheet loader hands the analyzer no row with a blank name. *)
Lemma sheets_loader_drops_blank_names (values : list (list string)) (df : DataFrame) :
  Sheets.load_2026_data values = Ok df ->
  Forall (fun r => is_blank (row_get (columns df) r.2 "Conference Name" PNaN) = false)
         (rows df).
Proof.
  unfold Sheets.load_2026_data. destruct values as [|header body].
  - intros [= <-]. constructor.
  - destruct (in_columns "Conference Name" header); [|discriminate].
    intros [= <-]. cbn [rows columns]. apply Forall_forall. intros r Hr.
    apply list_elem_of_filter in Hr as [Hr _]. now apply negb_true_iff in Hr.
Qed.

End AnalyzerProofs.

(** ** The oracle client *)
Section OracleProofs.

Variable json_loads : string -> option json_doc.
Variable oracle : WorkItem -> api_reply.

Lemma filter_response_lookup (d : gmap string pyval) (k : string) (v : pyval) :
  filter_response d !! k = Some v <->
  d !! k = Some v /\ v <> PNone /\ PyStr.strip (py_str v) <> "".
Proof. unfold filter_response. rewrite map_lookup_filter_Some. simpl. tauto. Qed.

(** C5, as amended: an answer that is [false] in any letter case gives
    [False] (not found); otherwise the answer, without its code fence, is
    parsed as JSON, the fields that are [None] or blank once trimmed are
    dropped, and an empty remainder gives [False]; malformed JSON gives
    the same [False], is logged as an error, and nothing is raised. *)
Theorem search_response_handling (item : WorkItem) (text : string) (st : State) :
  oracle item = ApiText text ->
  let t := PyStr.strip text in
  let out := search_conference_info json_loads oracle item st in
  (PyStr.lower t = "false" -> out.1 = Ok PyFalse) /\
  (PyStr.lower t <> "false" ->
     match json_loads (unfenced t) with
     | Some (JDict d) =>
         out.1 = Ok (if bool_decide (filter_response d = ∅) then PyFalse
                     else Found (filter_response d))
     | Some (JValue _) => out.1 = Ok PyFalse
     | None =>
         out.1 = Ok PyFalse /\
         Log ERROR ("Failed to parse JSON response for " +:+ py_str (conference_name item))
           ∈ trace out.2
     end).
Proof.
  intros Horacle t out. subst out.
  unfold search_conference_info, try_except, bind, log, emit. simpl.
  rewrite Horacle. fold t. unfold parse_response.
  split.
  - intros Hfalse. rewrite Hfalse. simpl. reflexivity.
  - intros Hnot. apply String.eqb_neq in Hnot. rewrite Hnot.
    fold (unfenced t).
    destruct (json_loads (unfenced t)) as [[d|v]|]; simpl.
    + destruct (bool_decide (filter_response d = ∅)); reflexivity.
    + reflexivity.
    + split; [reflexivity|].
      rewrite !elem_of_app. left. right. apply list_elem_of_here.
Qed.

End OracleProofs.

Lemma search_response_handling_witness :
  (search_conference_info example_json_loads (fun _ => ApiText status_confirmed_text)
     example_item example_state).1
  = Ok (Found {[ "Status" := PStr "Confirmed" ]}).
Proof.
  pose proof (search_response_handling example_json_loads
                (fun _ => ApiText status_confirmed_text)
                example_item status_confirmed_text example_state eq_refl) as [_ H].
  exact (H ltac:(vm_compute; discriminate)).
Defined.

(** C5, as the specification states it, fails: an answer that is malformed
    JSON gives the very value that "not found" gives, [False]. *)
Lemma malformed_json_is_not_distinct :
  example_json_loads (unfenced (PyStr.strip truncated_text)) = None /\
  (search_conference_info example_json_loads (fun _ => ApiText truncated_text)
     example_item example_state).1
  = (search_conference_info example_json_loads (fun _ => ApiText "false")
       example_item example_state).1.
Proof. split; vm_compute; reflexivity. Qed.

(** ** The batch runner *)
Section BatchProofs.

Variable search : WorkItem -> M scraped.

Lemma scrape_conference_appends (results : list BatchResult) (c : WorkItem) (st : State) :
  exists r st',
    scrape_conference search results c st = (Ok (results ++ [r])%list, st') /\
    conference_info r = c /\ marked r /\
    match (search c st).1 with
    | Ok d => scraped_data r = d /\ error r = None
    | Raise e => scraped_data r = PyFalse /\ error r = Some e
    end.
Proof.
  unfold scrape_conference, try_except, bind, time, sleep, log, emit, ret.
  destruct (search c st) as [[d|e] st1]; simpl.
  - eexists _, _. split; [reflexivity|]. simpl. unfold marked. simpl.
    repeat split; congruence.
  - eexists _, _. split; [reflexivity|]. simpl. unfold marked. simpl.
    repeat split; congruence.
Qed.

Lemma scrape_conferences_appends (batch : list WorkItem) (results : list BatchResult)
    (st : State) :
  exists rs st',
    scrape_conferences search batch results st = (Ok (results ++ rs)%list, st') /\
    map conference_info rs = batch /\ Forall marked rs.
Proof.
  revert results st. induction batch as [|c batch IH]; intros results st; simpl.
  - exists [], st. rewrite app_nil_r. unfold ret. auto.
  - destruct (scrape_conference_appends results c st) as (r & st1 & Hr & Hc & Hm & _).
    unfold bind at 1. rewrite Hr.
    destruct (IH (results ++ [r])%list st1) as (rs & st2 & Hrs & Hmap & Hall).
    exists (r :: rs), st2. rewrite Hrs, <- app_assoc. simpl.
    split; [reflexivity|]. split; [congruence|]. constructor; assumption.
Qed.

Lemma scrape_batches_appends (conferences : list WorkItem) (batch_size : Z)
    (starts : list Z) (results : list BatchResult) (st : State) :
  exists rs st',
    scrape_batches search conferences batch_size starts results st
      = (Ok (results ++ rs)%list, st') /\
    map conference_info rs
      = concat (map (fun i => py_slice conferences i (i + batch_size)) starts) /\
    Forall marked rs.
Proof.
  revert results st. induction starts as [|i starts IH]; intros results st.
  - exists [], st. simpl. rewrite app_nil_r. unfold ret. auto.
  - cbn [scrape_batches map concat].
    unfold bind at 1. unfold log at 1, emit at 1. cbv beta iota.
    unfold bind at 1.
    match goal with |- context [scrape_conferences search ?b results ?s] =>
      destruct (scrape_conferences_appends b results s) as (rs1 & st1 & H1 & Hmap1 & Hall1)
    end.
    rewrite H1. unfold bind at 1.
    match goal with |- context [(if ?c then ?a else ?b) st1] =>
      assert (exists st2, (if c then a else b) st1 = (Ok tt, st2)) as [st2 ->]
        by (destruct c; unfold bind, log, emit, sleep, ret; simpl; eauto)
    end.
    destruct (IH (results ++ rs1)%list st2) as (rs2 & st3 & H2 & Hmap2 & Hall2).
    exists (rs1 ++ rs2)%list, st3. rewrite H2, <- app_assoc.
    split; [reflexivity|]. split.
    + rewrite map_app. congruence.
    + apply Forall_app. auto.
Qed.

End BatchProofs.

(** The batches of a positive size cover the list, in order. *)
Lemma chunks_concat {A : Type} (size : nat) (count : nat) (l : list A) :
  (length l <= count * size)%nat ->
  concat (map (fun k => take size (drop (k * size) l)) (seq 0 count)) = l.
Proof.
  revert l. induction count as [|count IH]; intros l Hlen.
  - destruct l; [reflexivity|simpl in Hlen; lia].
  - cbn [seq map concat]. rewrite <- seq_shift, map_map.
    rewrite (map_ext _ (fun k => take size (drop (k * size) (drop size l)))).
    + rewrite IH; [apply take_drop|]. rewrite length_drop. lia.
    + intros k. rewrite drop_drop. do 2 f_equal; lia.
Qed.

Lemma py_range_slices {A : Type} (l : list A) (batch_size : Z) :
  0 < batch_size ->
  exists starts,
    py_range 0 (Z.of_nat (length l)) batch_size = Ok starts /\
    concat (map (fun i => py_slice l i (i + batch_size)) starts) = l.
Proof.
  intros Hpos. unfold py_range.
  destruct (batch_size =? 0) eqn:E0; [lia|].
  destruct (0 <? batch_size) eqn:E1; [|lia].
  eexists. split; [reflexivity|].
  rewrite map_map.
  set (count := Z.to_nat ((Z.of_nat (length l) - 0 + batch_size - 1) / batch_size)).
  rewrite (map_ext _ (fun k => take (Z.to_nat batch_size) (drop (k * Z.to_nat batch_size) l))).
  - apply chunks_concat. subst count.
    pose proof (Z.div_mod (Z.of_nat (length l) - 0 + batch_size - 1) batch_size
                  ltac:(lia)) as Hdm.
    pose proof (Z.mod_pos_bound (Z.of_nat (length l) - 0 + batch_size - 1) batch_size
                  Hpos) as Hmod.
    set (q := (Z.of_nat (length l) - 0 + batch_size - 1) / batch_size) in *.
    assert (0 <= q) by (subst q; apply Z.div_pos; lia).
    apply Nat2Z.inj_le. rewrite Nat2Z.inj_mul, !Z2Nat.id by lia. nia.
  - intros k. unfold py_slice. f_equal; [f_equal; lia|].
    f_equal. rewrite Z2Nat.inj_add, Z2Nat.inj_mul, Nat2Z.id by lia. simpl. lia.
Qed.

(** C2, as amended: for a batch size that is at least 1, [scrape_batch]
    returns, and its list has one result per work item, in the order of
    the input; when the search of an item raises, the item's result is
    appended with [False] and the error, and the run goes on. *)
Theorem scrape_batch_one_result_per_item (search : WorkItem -> M scraped)
    (conferences : list WorkItem) (batch_size : Z) (st : State) :
  0 < batch_size ->
  (exists rs st',
     scrape_batch search conferences batch_size st = (Ok rs, st') /\
     map conference_info rs = conferences /\
     Forall marked rs) /\
  (forall results c st0 e,
     (search c st0).1 = Raise e ->
     exists t st1,
       scrape_conference search results c st0
       = (Ok (results ++ [{| conference_info := c; scraped_data := PyFalse;
                             timestamp := t; error := Some e |}])%list, st1)).
Proof.
  intros Hpos. split.
  - unfold scrape_batch, bind, lift.
    destruct (py_range_slices conferences batch_size Hpos) as (starts & -> & Hcat).
    destruct (scrape_batches_appends search conferences batch_size starts [] st)
      as (rs & st' & Hrun & Hmap & Hall).
    exists rs, st'. rewrite Hrun. simpl. split; [reflexivity|].
    split; [congruence|assumption].
  - intros results c st0 e He.
    unfold scrape_conference, try_except, bind, time, sleep, log, emit, ret.
    destruct (search c st0) as [[d|e'] st1]; simpl in *; [discriminate|].
    injection He as ->. eauto.
Qed.

(** ** Frame rules for the effects *)
Section Frame.

Variable P : event -> bool.
Variable st0 : State.

Lemma appends_refl (st : State) : appends P st st.
Proof. split; [reflexivity|]. split; [auto|]. exists []. now rewrite app_nil_r. Qed.

Lemma appends_trans (st1 st2 st3 : State) :
  appends P st1 st2 -> appends P st2 st3 -> appends P st1 st3.
Proof.
  intros (Hs1 & Hf1 & n1 & Ht1 & Hp1) (Hs2 & Hf2 & n2 & Ht2 & Hp2).
  split; [congruence|]. split; [auto|].
  exists (n1 ++ n2)%list. rewrite Ht2, Ht1, <- app_assoc. split; [reflexivity|].
  rewrite forallb_app, Hp1, Hp2. reflexivity.
Qed.

Lemma inv_ret {A : Type} (a : A) : inv P st0 (ret a).
Proof. intros st H. exact H. Qed.

Lemma inv_raise {A : Type} (msg : string) : inv P st0 (@raise A msg).
Proof. intros st H. exact H. Qed.

Lemma inv_lift {A : Type} (r : result A) : inv P st0 (lift r).
Proof. intros st H. exact H. Qed.

Lemma inv_time : inv P st0 time.
Proof. intros st H. exact H. Qed.

Lemma inv_emit (e : event) : P e = true -> inv P st0 (emit e).
Proof.
  intros He st (Hs & Hf & new & Ht & Hp). split; [exact Hs|]. split; [exact Hf|].
  exists (new ++ [e])%list. simpl. rewrite Ht, <- app_assoc. split; [reflexivity|].
  rewrite forallb_app, Hp. simpl. now rewrite He.
Qed.

Lemma inv_sleep (secs : Z) : P (Sleep secs) = true -> inv P st0 (sleep secs).
Proof.
  intros He st (Hs & Hf & new & Ht & Hp). split; [exact Hs|]. split; [exact Hf|].
  exists (new ++ [Sleep secs])%list. simpl. rewrite Ht, <- app_assoc.
  split; [reflexivity|]. rewrite forallb_app, Hp. simpl. now rewrite He.
Qed.

Lemma inv_bind {A B : Type} (c : M A) (k : A -> M B) :
  inv P st0 c -> (forall a, inv P st0 (k a)) -> inv P st0 (bind c k).
Proof.
  intros Hc Hk st H. unfold bind. specialize (Hc st H).
  destruct (c st) as [[a|msg] st1]; simpl in *; [apply Hk|]; assumption.
Qed.

(** The rule for a computation whose value is known. *)
Lemma inv_bind_known {A B : Type} (c : M A) (k : A -> M B) (a0 : A) :
  (forall st, (c st).1 = Ok a0) ->
  inv P st0 c -> inv P st0 (k a0) -> inv P st0 (bind c k).
Proof.
  intros Hval Hc Hk st H. unfold bind. specialize (Hc st H). specialize (Hval st).
  destruct (c st) as [[a|msg] st1]; simpl in *; [|discriminate].
  injection Hval as ->. apply Hk. assumption.
Qed.

Lemma inv_try_except {A : Type} (c : M A) (handler : string -> M A) :
  inv P st0 c -> (forall e, inv P st0 (handler e)) -> inv P st0 (try_except c handler).
Proof.
  intros Hc Hh st H. unfold try_except. specialize (Hc st H).
  destruct (c st) as [[a|msg] st1]; simpl in *; [|apply Hh]; assumption.
Qed.

Lemma inv_get_sched {B : Type} (k : Scheduler -> M B) :
  (forall s, stats s = stats (sched st0) ->
             (sheets_initialized (sched st0) = true -> sheets_initialized s = true) ->
             inv P st0 (k s)) ->
  inv P st0 (bind get_sched k).
Proof.
  intros Hk st H. unfold bind, get_sched. apply Hk; [apply H|apply H|exact H].
Qed.

Lemma inv_set_sched (s : Scheduler) :
  stats s = stats (sched st0) ->
  (sheets_initialized (sched st0) = true -> sheets_initialized s = true) ->
  inv P st0 (set_sched s).
Proof. intros Hs Hf st (_ & _ & Hnew). split; [exact Hs|]. split; [exact Hf|exact Hnew]. Qed.

Lemma inv_fold_left {A B : Type} (f : M A -> B -> M A) (l : list B) (acc : M A) :
  (forall c x, inv P st0 c -> inv P st0 (f c x)) ->
  inv P st0 acc -> inv P st0 (fold_left f l acc).
Proof.
  intros Hf. revert acc. induction l as [|x l IH]; intros acc Hacc; simpl; auto.
Qed.

End Frame.

Ltac inv_step :=
  lazymatch goal with
  | |- inv _ _ (ret _) => apply inv_ret
  | |- inv _ _ (raise _) => apply inv_raise
  | |- inv _ _ (lift _) => apply inv_lift
  | |- inv _ _ time => apply inv_time
  | |- inv _ _ (log _ _) => apply inv_emit; solve [auto]
  | |- inv _ _ (emit _) => apply inv_emit; solve [auto]
  | |- inv _ _ (sleep _) => apply inv_sleep; solve [auto]
  | |- inv _ _ (bind _ _) => apply inv_bind; [|intros ?]
  | |- inv _ _ (try_except _ _) => apply inv_try_except; [|intros ?]
  | |- inv _ _ (if ?b then _ else _) => destruct b
  | |- inv _ _ (match ?x with _ => _ end) => destruct x
  end.

Ltac inv_auto := repeat inv_step.

Section QuietParts.

Variable P : event -> bool.
Variable st0 : State.
Hypothesis P_log : forall lvl msg, P (Log lvl msg) = true.

Lemma inv_log (lvl : level) (msg : string) : inv P st0 (log lvl msg).
Proof. apply inv_emit, P_log. Qed.

Lemma inv_test_api_connection (canary : api_reply) :
  inv P st0 (test_api_connection canary).
Proof. unfold test_api_connection. inv_auto. Qed.

Lemma inv_search (json_loads : string -> option json_doc) (oracle : WorkItem -> api_reply)
    (item : WorkItem) :
  inv P st0 (search_conference_info json_loads oracle item).
Proof.
  unfold search_conference_info, parse_response. inv_auto.
Qed.

Lemma inv_update_fields (b : bool) (df : DataFrame) (i : nat) (m : gmap string pyval) :
  inv P st0 (CSV.update_fields b df i m).
Proof.
  unfold CSV.update_fields. apply inv_fold_left; [|apply inv_ret].
  intros c x Hc. apply inv_bind; [exact Hc|intros df']. inv_auto.
Qed.

Lemma inv_csv_update (df : DataFrame) (i : nat) (m : gmap string pyval) :
  inv P st0 (CSV.update_conference_data df i m).
Proof.
  unfold CSV.update_conference_data.
  apply inv_try_except; [apply inv_update_fields|intros e; inv_auto].
Qed.

End QuietParts.

Section QuietBatch.

Variable P : event -> bool.
Variable st0 : State.
Hypothesis P_log : forall lvl msg, P (Log lvl msg) = true.
Hypothesis P_sleep : forall secs, P (Sleep secs) = true.
Variable search : WorkItem -> M scraped.
Hypothesis search_inv : forall c, inv P st0 (search c).

Lemma inv_scrape_conference (results : list BatchResult) (c : WorkItem) :
  inv P st0 (scrape_conference search results c).
Proof.
  unfold scrape_conference.
  apply inv_try_except.
  - apply inv_bind; [apply search_inv|intros d]. inv_auto.
  - intros e. inv_auto.
Qed.

Lemma inv_scrape_conferences (batch : list WorkItem) (results : list BatchResult) :
  inv P st0 (scrape_conferences search batch results).
Proof.
  revert results. induction batch as [|c batch IH]; intros results; simpl.
  - apply inv_ret.
  - apply inv_bind; [apply inv_scrape_conference|intros rs; apply IH].
Qed.

Lemma inv_scrape_batches (conferences : list WorkItem) (batch_size : Z)
    (starts : list Z) (results : list BatchResult) :
  inv P st0 (scrape_batches search conferences batch_size starts results).
Proof.
  revert results. induction starts as [|i starts IH]; intros results.
  - apply inv_ret.
  - cbn [scrape_batches].
    apply inv_bind; [apply inv_log, P_log|intros _].
    apply inv_bind; [apply inv_scrape_conferences|intros rs].
    apply inv_bind; [|intros _; apply IH].
    destruct (_ <? _); [|apply inv_ret].
    apply inv_bind; [apply inv_log, P_log|intros _; apply inv_sleep, P_sleep].
Qed.

Lemma inv_scrape_batch (conferences : list WorkItem) (batch_size : Z) :
  inv P st0 (scrape_batch search conferences batch_size).
Proof.
  unfold scrape_batch. apply inv_bind; [apply inv_lift|intros starts].
  apply inv_scrape_batches.
Qed.

End QuietBatch.

(** ** One reconciliation cycle *)
Section JobProofs.

Variable json_loads : string -> option json_doc.
Variable spreadsheet_name : string.

Lemma no_table_write_log (lvl : level) (msg : string) : no_table_write (Log lvl msg) = true.
Proof. reflexivity. Qed.

Lemma is_log_log (lvl : level) (msg : string) : is_log (Log lvl msg) = true.
Proof. reflexivity. Qed.

Lemma inv_format_dashboard (st0 : State) : inv no_table_write st0 GoogleSheets.format_dashboard.
Proof.
  unfold GoogleSheets.format_dashboard.
  apply inv_bind; [now apply inv_emit|intros _].
  apply inv_bind; [|intros _; apply inv_bind; [now apply inv_emit|intros _; now apply inv_emit]].
  apply inv_fold_left; [|apply inv_ret].
  intros c row Hc. apply inv_bind; [exact Hc|intros _; now apply inv_emit].
Qed.

(** Opening the spreadsheet may create it, add worksheets and fill the
    dashboard; it writes no conference record. *)
Lemma inv_create_or_open (st0 : State) (remote : GoogleSheets.Remote) :
  inv no_table_write st0 (GoogleSheets.create_or_open_spreadsheet remote spreadsheet_name).
Proof.
  assert (inv no_table_write st0 GoogleSheets.setup_dashboard) as Hdash.
  { unfold GoogleSheets.setup_dashboard.
    apply inv_bind; [now apply inv_emit|intros _].
    apply inv_bind; [apply inv_format_dashboard|intros _; now apply inv_emit]. }
  unfold GoogleSheets.create_or_open_spreadsheet, GoogleSheets.setup_worksheets.
  apply inv_try_except; [|intros e; inv_auto].
  destruct (GoogleSheets.open_error remote); [apply inv_raise|].
  apply inv_bind; [destruct (GoogleSheets.spreadsheet_found remote); inv_auto|intros _].
  apply inv_bind; [destruct (GoogleSheets.sheet_2025_found remote); inv_auto|intros _].
  apply inv_bind; [destruct (GoogleSheets.sheet_2026_found remote); inv_auto|intros _].
  apply inv_bind; [|intros _; inv_auto].
  destruct (GoogleSheets.dashboard_found remote); [apply inv_ret|].
  apply inv_bind; [now apply inv_emit|intros _; exact Hdash].
Qed.

Lemma inv_ensure_sheets (st0 : State) (env : CycleEnv) :
  inv no_table_write st0 (ensure_sheets_initialized spreadsheet_name env).
Proof.
  unfold ensure_sheets_initialized. apply inv_get_sched. intros s Hs Hf.
  destruct (_ && _); [|apply inv_ret].
  apply inv_try_except.
  - apply inv_bind; [apply inv_create_or_open|intros _].
    apply inv_bind; [apply inv_set_sched; [exact Hs|reflexivity]|intros _].
    apply inv_log, no_table_write_log.
  - intros e. inv_auto.
Qed.

(** When the storage is the CSV file, or the spreadsheet is initialized
    already, nothing but the flag is looked at. *)
Lemma inv_ensure_sheets_ready (st0 : State) (env : CycleEnv) :
  use_google_sheets env = false \/ sheets_initialized (sched st0) = true ->
  inv is_log st0 (ensure_sheets_initialized spreadsheet_name env).
Proof.
  intros Hready. unfold ensure_sheets_initialized. apply inv_get_sched. intros s Hs Hf.
  destruct Hready as [-> | Hinit]; [apply inv_ret|].
  rewrite (Hf Hinit), andb_false_r. apply inv_ret.
Qed.

Lemma test_api_connection_value (canary : api_reply) (st st' : State) :
  (test_api_connection canary st).1 = (test_api_connection canary st').1.
Proof.
  unfold test_api_connection, try_except, bind, log, emit, ret, raise.
  destruct canary as [msg|text]; simpl; [reflexivity|].
  destruct (PyStr.contains "successful" (PyStr.lower text)); reflexivity.
Qed.

(** The cycle, when the connectivity check gives [false]. *)
Lemma inv_job_not_connected (P : event -> bool) (st0 : State) (env : CycleEnv) :
  (forall lvl msg, P (Log lvl msg) = true) ->
  inv P st0 (ensure_sheets_initialized spreadsheet_name env) ->
  (test_api_connection (canary env) st0).1 = Ok false ->
  inv P st0 (run_scraping_job json_loads spreadsheet_name env).
Proof.
  intros P_log Hensure Hfail. unfold run_scraping_job.
  apply inv_bind; [apply inv_log, P_log|intros _].
  apply inv_try_except.
  - apply inv_bind; [exact Hensure|intros _].
    apply (inv_bind_known _ _ _ _ false).
    + intros st. now rewrite (test_api_connection_value _ st st0).
    + apply inv_test_api_connection, P_log.
    + simpl. apply inv_log, P_log.
  - intros e. apply inv_bind; [apply inv_log, P_log|intros _; apply inv_raise].
Qed.

(** C6: when the connectivity check fails, the cycle changes none of
    [last_run], [total_conferences_processed], [total_updates_made], and
    none of the events it adds to the trace writes the table of
    conference records; when the storage is the CSV file or the
    spreadsheet is initialized already, the cycle returns and all it adds
    are log records. *)
Theorem failed_connectivity_changes_nothing (env : CycleEnv) (st : State) :
  (test_api_connection (canary env) st).1 = Ok false ->
  let out := run_scraping_job json_loads spreadsheet_name env st in
  last_run (sched out.2) = last_run (sched st) /\
  total_conferences_processed (sched out.2) = total_conferences_processed (sched st) /\
  total_updates_made (sched out.2) = total_updates_made (sched st) /\
  (exists new, trace out.2 = (trace st ++ new)%list /\
               forallb no_table_write new = true) /\
  (use_google_sheets env = false \/ sheets_initialized (sched st) = true ->
   out.1 = Ok tt /\
   exists new, trace out.2 = (trace st ++ new)%list /\ forallb is_log new = true).
Proof.
  intros Hfail out.
  pose proof (inv_job_not_connected no_table_write st env no_table_write_log
                (inv_ensure_sheets st env) Hfail st (appends_refl _ st))
    as (Hstats & _ & Hnew).
  fold out in Hstats, Hnew. unfold stats in Hstats. injection Hstats as H1 H2 H3.
  repeat (split; [assumption|]).
  intros Hready.
  pose proof (inv_job_not_connected is_log st env is_log_log
                (inv_ensure_sheets_ready st env Hready) Hfail st (appends_refl _ st))
    as (_ & _ & Hlogs).
  split; [|exact Hlogs].
  subst out. unfold run_scraping_job, ensure_sheets_initialized.
  unfold bind at 1. unfold log at 1, emit at 1. cbv beta iota.
  unfold try_except, bind, get_sched. cbn [sched].
  assert (use_google_sheets env && negb (sheets_initialized (sched st)) = false) as ->.
  { destruct Hready as [-> | ->]; [reflexivity|apply andb_false_r]. }
  unfold ret at 1. cbv beta iota.
  match goal with |- context [test_api_connection (canary env) ?s] =>
    pose proof (test_api_connection_value (canary env) s st) as Hv;
    destruct (test_api_connection (canary env) s) as [[b|e] st2]
  end; simpl in Hv; rewrite Hfail in Hv; [|discriminate].
  injection Hv as ->. reflexivity.
Qed.

End JobProofs.

(** ** Running a computation step by step *)
Section Runs.

Lemma bind_Ok {A B : Type} (c : M A) (k : A -> M B) (st st' : State) (b : B) :
  bind c k st = (Ok b, st') ->
  exists a st1, c st = (Ok a, st1) /\ k a st1 = (Ok b, st').
Proof.
  unfold bind. destruct (c st) as [[a|msg] st1]; intros H; [eauto|discriminate].
Qed.

(** A handler that logs and raises again lets no result through. *)
Lemma try_reraise_Ok {A : Type} (c : M A) (text : string -> string) (st st' : State)
    (a : A) :
  try_except c (fun e => log ERROR (text e) ;;; raise e) st = (Ok a, st') ->
  c st = (Ok a, st').
Proof.
  unfold try_except. destruct (c st) as [[a1|msg] st1]; intros H; [exact H|].
  discriminate.
Qed.

Lemma inv_run {A : Type} (P : event -> bool) (c : M A) (st0 st st' : State)
    (r : result A) :
  inv P st0 c -> appends P st0 st -> c st = (r, st') -> appends P st0 st'.
Proof. intros Hc Hst Hrun. specialize (Hc st Hst). now rewrite Hrun in Hc. Qed.

Lemma counts_of_quiet (new : list event) :
  forallb no_table_write new = true -> row_updates new = 0%nat /\ csv_saves new = 0%nat.
Proof.
  unfold row_updates, csv_saves.
  induction new as [|e new IH]; simpl; [auto|].
  intros H. apply andb_prop in H as [He Hnew]. destruct (IH Hnew) as [IH1 IH2].
  unfold no_table_write, is_table_write in He.
  destruct (is_row_update e), (is_csv_save e); simpl in *; try discriminate; auto.
Qed.

Lemma grows_of_appends (st st' : State) :
  appends no_table_write st st' -> grows 0 0 st st'.
Proof.
  intros (Hs & _ & new & Ht & Hq). split; [exact Hs|].
  exists new. split; [exact Ht|]. now apply counts_of_quiet.
Qed.

Lemma grows_trans (a b c d : nat) (st1 st2 st3 : State) :
  grows a b st1 st2 -> grows c d st2 st3 -> grows (a + c) (b + d) st1 st3.
Proof.
  intros (Hs1 & n1 & Ht1 & Hr1 & Hc1) (Hs2 & n2 & Ht2 & Hr2 & Hc2).
  split; [congruence|]. exists (n1 ++ n2)%list.
  rewrite Ht2, Ht1, <- app_assoc. split; [reflexivity|].
  unfold row_updates, csv_saves in *. rewrite !List.filter_app, !length_app. lia.
Qed.

Lemma grows_quiet_l (a b : nat) (st1 st2 st3 : State) :
  appends no_table_write st1 st2 -> grows a b st2 st3 -> grows a b st1 st3.
Proof. intros H1 H2. exact (grows_trans 0 0 a b _ _ _ (grows_of_appends _ _ H1) H2). Qed.

Lemma grows_quiet_r (a b : nat) (st1 st2 st3 : State) :
  grows a b st1 st2 -> appends no_table_write st2 st3 -> grows a b st1 st3.
Proof.
  intros H1 H2.
  pose proof (grows_trans a b 0 0 _ _ _ H1 (grows_of_appends _ _ H2)) as H.
  now rewrite !Nat.add_0_r in H.
Qed.

End Runs.

(** ** The record stores *)
Section StoreProofs.

(** An update through the spreadsheet backend that returns has sent
    exactly one row to the 2026 worksheet. *)
Lemma sheets_update_grows (df df' : DataFrame) (i : nat) (m : gmap string pyval)
    (st st' : State) :
  GoogleSheets.update_conference_data df i m st = (Ok df', st') ->
  grows 1 0 st st'.
Proof.
  unfold GoogleSheets.update_conference_data. intros H.
  apply try_reraise_Ok in H.
  apply bind_Ok in H as (df2 & s1 & Hfields & H).
  apply bind_Ok in H as ([] & s2 & Hsync & H).
  unfold ret in H. injection H as _ <-.
  apply (grows_quiet_l 1 0 st s1).
  { eapply inv_run; [apply inv_update_fields, no_table_write_log|apply appends_refl|exact Hfields]. }
  unfold GoogleSheets.sync_row_to_sheets in Hsync. apply try_reraise_Ok in Hsync.
  destruct (rows df2 !! i) as [r|]; [|discriminate].
  unfold bind, emit, log, emit in Hsync. simpl in Hsync. injection Hsync as <-.
  split; [reflexivity|]. simpl. eexists. rewrite <- app_assoc. split; [reflexivity|].
  split; reflexivity.
Qed.

(** An update through the CSV backend writes nothing. *)
Lemma csv_update_quiet (df : DataFrame) (i : nat) (m : gmap string pyval)
    (r : result DataFrame) (st st' : State) :
  CSV.update_conference_data df i m st = (r, st') ->
  appends no_table_write st st'.
Proof.
  intros H. eapply inv_run; [apply inv_csv_update, no_table_write_log|apply appends_refl|exact H].
Qed.

End StoreProofs.

Section CycleProofs.

Variable json_loads : string -> option json_doc.
Variable spreadsheet_name : string.

Lemma lift_value {A : Type} (r : result A) (a : A) :
  r = Ok a -> forall st, (lift r st).1 = Ok a.
Proof. intros -> st. reflexivity. Qed.

(** The cycle, when the check passes and the analyzer finds nothing. *)
Lemma inv_job_no_items (st0 : State) (env : CycleEnv) (df : DataFrame) :
  (test_api_connection (canary env) st0).1 = Ok true ->
  load_2026_data env = Ok df ->
  get_incomplete_conferences df = Ok [] ->
  inv no_table_write st0 (run_scraping_job json_loads spreadsheet_name env).
Proof.
  intros Hconn Hload Hnone. unfold run_scraping_job.
  apply inv_bind; [inv_step|intros _].
  apply inv_try_except; [|intros e; inv_auto].
  apply inv_bind; [apply inv_ensure_sheets|intros _].
  apply (inv_bind_known _ _ _ _ true).
  { intros st. now rewrite (test_api_connection_value _ st st0). }
  { apply inv_test_api_connection, no_table_write_log. }
  cbn [negb].
  apply (inv_bind_known _ _ _ _ df); [now apply lift_value|apply inv_lift|].
  destruct (df_empty df); [inv_step|].
  apply (inv_bind_known _ _ _ _ []); [now apply lift_value|apply inv_lift|].
  apply inv_bind; [inv_step|intros _]. inv_step.
Qed.

(** C7, as amended: a cycle in which the connectivity check passes and
    the analyzer finds no work item leaves [last_run],
    [total_conferences_processed] and [total_updates_made] as they were,
    and writes no conference record. *)
Theorem no_work_items_changes_nothing (env : CycleEnv) (df : DataFrame) (st : State) :
  (test_api_connection (canary env) st).1 = Ok true ->
  load_2026_data env = Ok df ->
  get_incomplete_conferences df = Ok [] ->
  let out := run_scraping_job json_loads spreadsheet_name env st in
  last_run (sched out.2) = last_run (sched st) /\
  total_conferences_processed (sched out.2) = total_conferences_processed (sched st) /\
  total_updates_made (sched out.2) = total_updates_made (sched st) /\
  exists new, trace out.2 = (trace st ++ new)%list /\
              forallb no_table_write new = true.
Proof.
  intros Hconn Hload Hnone out.
  pose proof (inv_job_no_items st env df Hconn Hload Hnone st (appends_refl _ st))
    as (Hstats & _ & Hnew).
  fold out in Hstats, Hnew. unfold stats in Hstats. injection Hstats as H1 H2 H3.
  auto.
Qed.

End CycleProofs.

Lemma no_work_items_changes_nothing_witness :
  last_run (sched (run_scraping_job example_json_loads "Crypto Conferences 2026"
                     (example_env false "API test successful" complete_table "false")
                     example_state).2)
  = last_run (sched example_state).
Proof.
  apply (no_work_items_changes_nothing example_json_loads "Crypto Conferences 2026"
           (example_env false "API test successful" complete_table "false")
           complete_table example_state);
    vm_compute; reflexivity.
Defined.

(** C7, as the specification states it, fails: the check passes, the
    table misses nothing, the cycle returns, and [last_run] is still
    unset instead of holding the current time. *)
Lemma no_work_items_keeps_last_run :
  let out := run_scraping_job example_json_loads "Crypto Conferences 2026"
               (example_env false "API test successful" complete_table "false")
               example_state in
  get_incomplete_conferences complete_table = Ok [] /\
  out.1 = Ok tt /\
  last_run (sched out.2) = None /\
  last_run (sched out.2) <> Some (now out.2).
Proof. vm_compute. repeat split; discriminate. Qed.

Section PersistProofs.

Variable json_loads : string -> option json_doc.
Variable spreadsheet_name : string.

Lemma grows_refl (st : State) : grows 0 0 st st.
Proof. apply grows_of_appends, appends_refl. Qed.

Lemma log_quiet (lvl : level) (msg : string) (st st' : State) (r : result unit) :
  log lvl msg st = (r, st') -> appends no_table_write st st'.
Proof.
  intros H. eapply inv_run; [apply inv_log, no_table_write_log|apply appends_refl|exact H].
Qed.

(** The merging loop, when it returns: on the spreadsheet backend each
    update it counts has sent one row; on the CSV backend nothing is
    written. *)
Lemma merge_results_grows (env : CycleEnv) (results : list BatchResult) :
  forall (df : DataFrame) (u : Z) (st : State) (df' : DataFrame) (u' : Z) (st' : State),
    merge_results env results df u st = (Ok (df', u'), st') ->
    u <= u' /\
    grows (if use_google_sheets env then Z.to_nat (u' - u) else 0%nat) 0 st st'.
Proof.
  induction results as [|r results IH]; intros df u st df' u' st' H.
  - unfold merge_results, ret in H. injection H as _ <- <-.
    split; [lia|]. rewrite Z.sub_diag. destruct (use_google_sheets env); apply grows_refl.
  - cbn [merge_results] in H.
    destruct (scraped_data r) as [|m]; [exact (IH _ _ _ _ _ _ H)|].
    destruct (truthy (Found m)); [|exact (IH _ _ _ _ _ _ H)].
    destruct (bool_decide (validate_scraped_data m = ∅)); [exact (IH _ _ _ _ _ _ H)|].
    apply bind_Ok in H as (df2 & s1 & Hupd & H).
    apply bind_Ok in H as ([] & s2 & Hlog & H).
    apply IH in H as [Hle Hrest]. split; [lia|].
    apply log_quiet in Hlog.
    unfold update_conference_data in Hupd.
    destruct (use_google_sheets env).
    + apply sheets_update_grows in Hupd.
      replace (Z.to_nat (u' - u)) with (1 + Z.to_nat (u' - (u + 1)))%nat by lia.
      change 0%nat with (0 + 0)%nat at 2.
      exact (grows_trans _ _ _ _ _ _ _ (grows_quiet_r _ _ _ _ _ Hupd Hlog) Hrest).
    + apply csv_update_quiet in Hupd.
      exact (grows_quiet_l _ _ _ _ _ (appends_trans _ _ _ _ Hupd Hlog) Hrest).
Qed.

(** The block that saves: the CSV file is saved once when an update was
    made, and never otherwise; the spreadsheet backend writes to the
    dashboard only. *)
Lemma save_updates_grows (env : CycleEnv) (df : DataFrame) (u : Z) (st st' : State)
    (r : result unit) :
  save_updates env df u st = (r, st') ->
  r = Ok tt /\
  grows 0 (if use_google_sheets env then 0%nat else if 0 <? u then 1%nat else 0%nat) st st'.
Proof.
  unfold save_updates. destruct (0 <? u).
  - unfold GoogleSheets.update_dashboard_timestamp, GoogleSheets.update_system_status,
      CSV.save_csv, bind, log, emit, ret.
    destruct (use_google_sheets env); simpl; intros [= <- <-];
      (split; [reflexivity|]); (split; [reflexivity|]); simpl;
      eexists; repeat rewrite <- app_assoc; (split; [reflexivity|]);
      split; reflexivity.
  - unfold ret. intros [= <- <-]. split; [reflexivity|].
    destruct (use_google_sheets env); apply grows_refl.
Qed.

End PersistProofs.

Section CycleWrites.

Variable json_loads : string -> option json_doc.
Variable spreadsheet_name : string.

Lemma quiet_cycle_writes (env : CycleEnv) (st st' : State) :
  appends no_table_write st st' -> cycle_writes env st st' 0.
Proof.
  intros (Hs & _ & new & Ht & Hq). unfold stats in Hs. injection Hs as _ _ Hu.
  split; [lia|]. split; [lia|]. exists new. split; [exact Ht|].
  destruct (counts_of_quiet new Hq) as [-> ->].
  destruct (use_google_sheets env); auto.
Qed.

Lemma lift_run {A : Type} (r : result A) (a : A) (st st' : State) :
  lift r st = (Ok a, st') -> r = Ok a /\ st' = st.
Proof. unfold lift. intros [= -> ->]. auto. Qed.

Lemma job_cycle_writes (env : CycleEnv) (st st' : State) :
  run_scraping_job json_loads spreadsheet_name env st = (Ok tt, st') ->
  exists u, cycle_writes env st st' u.
Proof.
  unfold run_scraping_job. intros H.
  apply bind_Ok in H as ([] & s1 & Hlog0 & H). apply log_quiet in Hlog0.
  apply try_reraise_Ok in H.
  apply bind_Ok in H as ([] & s2 & Hens & H).
  assert (appends no_table_write st s2) as A2
    by (eapply inv_run; [apply inv_ensure_sheets|exact Hlog0|exact Hens]).
  apply bind_Ok in H as (connected & s3 & Htest & H).
  assert (appends no_table_write st s3) as A3
    by (eapply inv_run;
        [apply inv_test_api_connection, no_table_write_log|exact A2|exact Htest]).
  destruct connected; cbn [negb] in H.
  2: { exists 0. apply quiet_cycle_writes.
       exact (appends_trans _ _ _ _ A3 (log_quiet _ _ _ _ _ H)). }
  apply bind_Ok in H as (df & s4 & Hload & H).
  apply lift_run in Hload as [Hload ->].
  destruct (df_empty df).
  { exists 0. apply quiet_cycle_writes.
    exact (appends_trans _ _ _ _ A3 (log_quiet _ _ _ _ _ H)). }
  apply bind_Ok in H as (items & s5 & Hitems & H).
  apply lift_run in Hitems as [Hitems ->].
  apply bind_Ok in H as ([] & s6 & Hlog1 & H).
  assert (appends no_table_write st s6) as A6
    by exact (appends_trans _ _ _ _ A3 (log_quiet _ _ _ _ _ Hlog1)).
  destruct items as [|c items].
  { exists 0. apply quiet_cycle_writes.
    exact (appends_trans _ _ _ _ A6 (log_quiet _ _ _ _ _ H)). }
  apply bind_Ok in H as ([] & s7 & Hlog2 & H).
  assert (appends no_table_write st s7) as A7
    by exact (appends_trans _ _ _ _ A6 (log_quiet _ _ _ _ _ Hlog2)).
  apply bind_Ok in H as (results & s8 & Hbatch & H).
  assert (appends no_table_write st s8) as A8.
  { eapply inv_run; [|exact A7|exact Hbatch].
    apply inv_scrape_batch; [apply no_table_write_log|reflexivity|].
    intros w. apply inv_search, no_table_write_log. }
  apply bind_Ok in H as ([df' u] & s9 & Hmerge & H).
  apply merge_results_grows in Hmerge as [Hu Hmerge]. rewrite Z.sub_0_r in Hmerge.
  apply bind_Ok in H as ([] & s10 & Hsave & H). cbn [fst snd] in Hsave, H.
  apply save_updates_grows in Hsave as [_ Hsave].
  pose proof (grows_trans _ _ _ _ _ _ _ (grows_quiet_l _ _ _ _ _ A8 Hmerge) Hsave)
    as (Hs & new & Ht & Hr & Hc).
  apply bind_Ok in H as ([] & s11 & Hstat & H).
  unfold update_statistics, bind, get_sched, time, set_sched in Hstat.
  injection Hstat as <-.
  unfold bind, log, emit in H. simpl in H. injection H as <-.
  unfold stats in Hs. injection Hs as _ _ Hs.
  exists u. split; [exact Hu|]. simpl. split; [lia|].
  exists (new ++ [Log INFO "Scraping job completed";
                  Log INFO ("Processed: " +:+ str_int (Z.of_nat (length (c :: items)))
                            +:+ " conferences, Updated: " +:+ str_int u
                            +:+ " conferences")])%list.
  rewrite Ht, <- !app_assoc. split; [reflexivity|].
  unfold row_updates, csv_saves in *. rewrite !List.filter_app, !length_app.
  simpl. rewrite Hr, Hc. destruct (use_google_sheets env); lia.
Qed.

End CycleWrites.

Section PersistClaim.

Variable json_loads : string -> option json_doc.
Variable spreadsheet_name : string.

(** C8, as amended: in a cycle that returns, with [u] the number of
    updates it made, the CSV backend saves the table once when [u > 0]
    and not at all when [u = 0], and the spreadsheet backend never saves
    the table as a whole: it sends each updated row to the 2026 worksheet
    by a write of its own, [u] writes in all. *)
Theorem cycle_store_writes (env : CycleEnv) (st st' : State) :
  run_scraping_job json_loads spreadsheet_name env st = (Ok tt, st') ->
  let u := total_updates_made (sched st') - total_updates_made (sched st) in
  0 <= u /\
  exists new,
    trace st' = (trace st ++ new)%list /\
    (use_google_sheets env = false ->
       row_updates new = 0%nat /\
       csv_saves new = (if 0 <? u then 1%nat else 0%nat)) /\
    (use_google_sheets env = true ->
       Z.of_nat (row_updates new) = u /\ csv_saves new = 0%nat).
Proof.
  intros H u.
  destruct (job_cycle_writes json_loads spreadsheet_name env st st' H)
    as (u0 & Hu0 & Htot & new & Ht & Hr & Hc).
  assert (u = u0) as -> by (subst u; lia).
  split; [exact Hu0|]. exists new. split; [exact Ht|].
  split; intros Hb; rewrite Hb in Hr, Hc; split; try assumption. lia.
Qed.

End PersistClaim.

Lemma cycle_store_writes_witness :
  let env := example_env false "API test successful" scenario_table status_confirmed_text in
  let out := run_scraping_job example_json_loads "Crypto Conferences 2026" env example_state in
  let u := total_updates_made (sched out.2) - total_updates_made (sched example_state) in
  0 <= u /\
  exists new,
    trace out.2 = (trace example_state ++ new)%list /\
    (use_google_sheets env = false ->
       row_updates new = 0%nat /\
       csv_saves new = (if 0 <? u then 1%nat else 0%nat)) /\
    (use_google_sheets env = true ->
       Z.of_nat (row_updates new) = u /\ csv_saves new = 0%nat).
Proof.
  intros env out.
  apply (cycle_store_writes example_json_loads "Crypto Conferences 2026" env
           example_state out.2).
  vm_compute. reflexivity.
Defined.

(** C8, as the specification states it, fails on the spreadsheet backend:
    in the scenario of two rows that miss their status, the cycle
    returns with two updates made and has written the 2026 worksheet
    twice, once per row. *)
Lemma sheets_cycle_writes_each_row :
  let env := example_env true "API test successful" scenario_table status_confirmed_text in
  let out := run_scraping_job example_json_loads "Crypto Conferences 2026" env example_state in
  out.1 = Ok tt /\
  total_updates_made (sched out.2) = 2 /\
  List.filter is_table_write (trace out.2)
  = [SheetRowUpdate 2 [PStr "Consensus"; PStr "05/14"; PStr "05/16"; PStr "Toronto";
                       PStr "TBA"; PStr "15000"; PStr "Confirmed"];
     SheetRowUpdate 4 [PStr "Token2049"; PStr "04/29"; PStr "04/30"; PStr "Dubai";
                       PStr "TBA"; PStr "10000"; PStr "Confirmed"]] /\
  length (List.filter is_table_write (trace out.2)) <> 1%nat.
Proof. vm_compute. repeat split; discriminate. Qed.

(** ** Witnesses of the validator and batch-runner properties *)

Lemma validated_dates_have_date_shape_witness :
  exists s, PStr "05/15" = PStr s /\ PyStr.strip s = s /\ date_shape (PyStr.strip s).
Proof.
  apply (validated_dates_have_date_shape {[ "Start Date" := PStr " 05/15 " ]} "Start Date").
  - apply list_elem_of_here.
  - vm_compute. reflexivity.
Defined.

Lemma scrape_batch_one_result_per_item_witness :
  exists rs st',
    scrape_batch flaky_search [numbered_item 0; numbered_item 1; numbered_item 2] 2
      example_state = (Ok rs, st') /\
    map conference_info rs = [numbered_item 0; numbered_item 1; numbered_item 2] /\
    Forall marked rs.
Proof.
  apply (scrape_batch_one_result_per_item flaky_search
           [numbered_item 0; numbered_item 1; numbered_item 2] 2 example_state).
  lia.
Defined.

(** C2, as the specification states it, fails for the batch sizes that
    are not positive: with a negative size the runner returns no result
    for a work item, and with size 0 it raises. *)
Lemma scrape_batch_needs_positive_size :
  (scrape_batch flaky_search [numbered_item 0] (-1) example_state).1 = Ok [] /\
  (scrape_batch flaky_search [numbered_item 0] 0 example_state).1
  = Raise "ValueError: range() arg 3 must not be zero".
Proof. split; vm_compute; reflexivity. Qed.

Lemma failed_connectivity_changes_nothing_witness :
  let out := run_scraping_job example_json_loads "Crypto Conferences 2026"
               (example_env true "Service unavailable" scenario_table status_confirmed_text)
               example_state in
  total_updates_made (sched out.2) = total_updates_made (sched example_state).
Proof.
  intros out.
  apply (failed_connectivity_changes_nothing example_json_loads "Crypto Conferences 2026"
           (example_env true "Service unavailable" scenario_table status_confirmed_text)
           example_state).
  vm_compute. reflexivity.
Defined.

(** ** The recurring loop *)
Section LoopProofs.

Variable json_loads : string -> option json_doc.
Variable spreadsheet_name : string.

Lemma loop_iteration_polls (t : tick) (st : State) :
  not_interrupt t = true ->
  (loop_iteration json_loads spreadsheet_name t st).1 = Polling.
Proof.
  destruct t as [|env|]; simpl; intros H; [reflexivity| |discriminate].
  destruct (run_scraping_job json_loads spreadsheet_name env st) as [[[]|e] st1];
    reflexivity.
Qed.

Lemma scheduler_loop_polls (ticks : list tick) (passes : nat) (st : State) :
  forallb not_interrupt ticks = true ->
  let r := scheduler_loop json_loads spreadsheet_name ticks passes st in
  r.1.1 = Polling /\ r.1.2 = (passes + length ticks)%nat.
Proof.
  revert passes st. induction ticks as [|t ticks IH]; intros passes st H; simpl.
  - split; [reflexivity|lia].
  - simpl in H. apply andb_prop in H as [Ht Hticks].
    pose proof (loop_iteration_polls t st Ht) as Hpoll.
    destruct (loop_iteration json_loads spreadsheet_name t st) as [status st1].
    simpl in Hpoll. subst status.
    destruct (IH (S passes) st1 Hticks) as [H1 H2]. split; [exact H1|].
    rewrite H2. lia.
Qed.

(** C9: when the job that a pass of the recurring loop runs raises, the
    loop logs the error, sleeps 300 seconds and goes on with the next
    pass; and whatever the jobs do, the loop is still polling after any
    number of passes in which the user did not interrupt it. *)
Theorem scheduler_loop_survives_exceptions (env : CycleEnv) (e : string)
    (st st1 : State) (ticks : list tick) (passes : nat) :
  (run_scraping_job json_loads spreadsheet_name env st = (Raise e, st1) ->
   loop_iteration json_loads spreadsheet_name (Pending env) st
     = (Polling, after_failed_tick e st1) /\
   scheduler_loop json_loads spreadsheet_name (Pending env :: ticks) passes st
     = scheduler_loop json_loads spreadsheet_name ticks (S passes)
         (after_failed_tick e st1)) /\
  (forallb not_interrupt ticks = true ->
   let r := scheduler_loop json_loads spreadsheet_name ticks passes st in
   r.1.1 = Polling /\ r.1.2 = (passes + length ticks)%nat).
Proof.
  split.
  - intros Hraise.
    assert (loop_iteration json_loads spreadsheet_name (Pending env) st
            = (Polling, after_failed_tick e st1)) as Hiter.
    { unfold loop_iteration. rewrite Hraise.
      unfold after_failed_tick, bind, log, emit, sleep. simpl.
      now rewrite <- app_assoc. }
    split; [exact Hiter|]. cbn [scheduler_loop]. rewrite Hiter. reflexivity.
  - apply scheduler_loop_polls.
Qed.

End LoopProofs.

Lemma scheduler_loop_survives_exceptions_witness :
  let st1 := (run_scraping_job example_json_loads "Crypto Conferences 2026"
                failing_env example_state).2 in
  loop_iteration example_json_loads "Crypto Conferences 2026" (Pending failing_env)
    example_state
  = (Polling, after_failed_tick "Error loading 2026 CSV" st1) /\
  let r := scheduler_loop example_json_loads "Crypto Conferences 2026"
             [Pending failing_env; Idle; Pending failing_env] 0 example_state in
  r.1.1 = Polling /\ r.1.2 = 3%nat.
Proof.
  intros st1.
  destruct (scheduler_loop_survives_exceptions example_json_loads
              "Crypto Conferences 2026" failing_env "Error loading 2026 CSV"
              example_state st1 [Pending failing_env; Idle; Pending failing_env] 0)
    as [Hfail Hpoll].
  split.
  - apply Hfail. vm_compute. reflexivity.
  - apply Hpoll. reflexivity.
Defined.

(** ** The keys that reach the store *)
Section StoreFrame.

Lemma column_index_lookup (f : string) (cols : list string) (j : nat) :
  column_index f cols = Some j -> cols !! j = Some f.
Proof.
  revert j. induction cols as [|c cols IH]; intros j; simpl; [discriminate|].
  destruct (String.eqb f c) eqn:E.
  - intros [= <-]. apply String.eqb_eq in E. now subst.
  - destruct (column_index f cols) as [j'|]; [|discriminate].
    intros [= <-]. simpl. now apply IH.
Qed.

Lemma set_at_columns (df : DataFrame) (i : nat) (f : string) (v : pyval) :
  columns (CSV.set_at df i f v) = columns df.
Proof. unfold CSV.set_at. now destruct (column_index f (columns df)). Qed.

(** Writing a cell of one column leaves the other columns as they were. *)
Lemma set_at_cell_other (df : DataFrame) (i : nat) (f g : string) (v : pyval) (pos : nat) :
  g <> f -> cell (CSV.set_at df i f v) pos g = cell df pos g.
Proof.
  intros Hne. unfold cell. rewrite set_at_columns. unfold CSV.set_at.
  destruct (column_index f (columns df)) as [j|] eqn:Hj; [|reflexivity].
  cbn [rows]. rewrite list_lookup_fmap.
  destruct (rows df !! pos) as [[l vals]|]; [|reflexivity]. simpl.
  destruct (Nat.eqb l i); [|reflexivity]. simpl.
  unfold row_getitem. destruct (column_index g (columns df)) as [j'|] eqn:Hg; [|reflexivity].
  f_equal. rewrite !nth_lookup, list_lookup_insert_ne; [reflexivity|].
  intros ->. apply column_index_lookup in Hj, Hg. congruence.
Qed.

(** The loop over the items of the dict returns, keeps the columns of the
    frame, and leaves every column whose label is no key of the dict as it
    was. *)
Lemma update_fields_frame (b : bool) (df : DataFrame) (i : nat)
    (field_updates : gmap string pyval) (st : State) :
  exists df' st',
    CSV.update_fields b df i field_updates st = (Ok df', st') /\
    columns df' = columns df /\
    forall g, field_updates !! g = None -> forall pos, cell df' pos g = cell df pos g.
Proof.
  unfold CSV.update_fields.
  assert (forall kv, kv ∈ map_to_list field_updates -> is_Some (field_updates !! kv.1))
    as Hkeys.
  { intros [k v] Hkv. apply elem_of_map_to_list in Hkv. simpl. eauto. }
  set (good := fun d : DataFrame =>
         columns d = columns df /\
         forall g, field_updates !! g = None -> forall pos, cell d pos g = cell df pos g).
  assert (forall (l : list (string * pyval)) (acc : M DataFrame),
             (forall kv, kv ∈ l -> is_Some (field_updates !! kv.1)) ->
             (forall s, exists d s', acc s = (Ok d, s') /\ good d) ->
             forall s, exists d s',
               fold_left
                 (fun (acc : M DataFrame) (kv : string * pyval) =>
                    bind acc (fun df0 =>
                      if in_columns kv.1 (columns df0)
                      then bind (log INFO ("Updated " +:+ kv.1 +:+ " for conference at index "
                                           +:+ str_int (Z.of_nat i)))
                             (fun _ => ret (CSV.set_at df0 i kv.1
                                              (if b then PStr (py_str kv.2) else kv.2)))
                      else ret df0))
                 l acc s = (Ok d, s') /\ good d) as Hfold.
  { induction l as [|kv l IH]; intros acc Hl Hacc s; [apply Hacc|].
    cbn [fold_left]. apply IH.
    - intros kv' Hin. apply Hl. now apply list_elem_of_further.
    - intros s0. destruct (Hacc s0) as (d & s1 & Hrun & Hcols & Hcells).
      unfold bind at 1. rewrite Hrun.
      destruct (in_columns kv.1 (columns d)).
      + unfold bind, log, emit, ret. simpl. eexists _, _. split; [reflexivity|].
        split; [now rewrite set_at_columns|].
        intros g Hg pos. rewrite set_at_cell_other; [now apply Hcells|].
        intros ->. destruct (Hl kv (list_elem_of_here _ _)) as [w Hw]. congruence.
      + unfold ret. eexists _, _. split; [reflexivity|]. split; assumption. }
  destruct (Hfold (map_to_list field_updates) (ret df) Hkeys) with (s := st)
    as (d & s' & Hrun & Hgood).
  - intros s. exists df, s. unfold ret. split; [reflexivity|]. split; auto.
  - exists d, s'. split; [exact Hrun|exact Hgood].
Qed.

End StoreFrame.

(** C10: every key of the output of [validate_scraped_data] is one of the
    six required field names; a key of the input that is none of them is
    absent from the output; and the loop by which either store takes the
    validated fields into the table leaves every column that is none of
    the six as it was. *)
Theorem validated_keys_are_required_fields (data : gmap string pyval) :
  dom (validate_scraped_data data) ⊆ list_to_set Config.FIELDS_TO_SCRAPE /\
  (forall k, k ∉ Config.FIELDS_TO_SCRAPE -> validate_scraped_data data !! k = None) /\
  (forall (str_values : bool) (df : DataFrame) (i : nat) (st : State),
     exists df' st',
       CSV.update_fields str_values df i (validate_scraped_data data) st = (Ok df', st') /\
       columns df' = columns df /\
       forall g, g ∉ Config.FIELDS_TO_SCRAPE ->
                 forall pos, cell df' pos g = cell df pos g).
Proof.
  assert (forall k w, validate_scraped_data data !! k = Some w ->
                      k ∈ Config.FIELDS_TO_SCRAPE) as Hkeys.
  { intros k w. rewrite validate_lookup. unfold is_date_field, is_text_field.
    unfold Config.FIELDS_TO_SCRAPE.
    case_bool_decide as Hd.
    - intros _. apply elem_of_cons in Hd as [->|Hd]; [apply list_elem_of_here|].
      apply elem_of_cons in Hd as [->|Hd]; [|now apply elem_of_nil in Hd].
      apply list_elem_of_further, list_elem_of_here.
    - case_bool_decide as Ht; [|discriminate].
      intros _. do 2 apply list_elem_of_further. exact Ht. }
  assert (forall k, k ∉ Config.FIELDS_TO_SCRAPE -> validate_scraped_data data !! k = None)
    as Hout.
  { intros k Hk. destruct (validate_scraped_data data !! k) as [w|] eqn:E; [|reflexivity].
    exfalso. eauto. }
  split; [|split; [exact Hout|]].
  - intros k Hk. apply elem_of_dom in Hk as [w Hw].
    apply elem_of_list_to_set. eauto.
  - intros str_values df i st.
    destruct (update_fields_frame str_values df i (validate_scraped_data data) st)
      as (df' & st' & Hrun & Hcols & Hcells).
    exists df', st'. split; [exact Hrun|]. split; [exact Hcols|].
    intros g Hg. apply Hcells, Hout, Hg.
Qed.

Lemma validated_keys_are_required_fields_witness :
  validate_scraped_data {[ "Venue" := PStr "Hall 1" ]} !! "Venue" = None.
Proof.
  apply (validated_keys_are_required_fields {[ "Venue" := PStr "Hall 1" ]}).
  vm_compute. intros H. repeat (apply elem_of_cons in H as [H|H]; [discriminate H|]).
  now apply elem_of_nil in H.
Defined.

(** * Further properties of the code *)

(** ** The oracle client, whatever the service does *)
Section OracleTotal.

Variable json_loads : string -> option json_doc.
Variable oracle : WorkItem -> api_reply.

Lemma search_total (item : WorkItem) (st : State) :
  let out := search_conference_info json_loads oracle item st in
  (exists d, out.1 = Ok d) /\
  sched out.2 = sched st /\ now out.2 = now st /\
  (exists new, trace out.2 = (trace st ++ new)%list /\ forallb is_log new = true) /\
  (forall msg, oracle item = ApiRaises msg -> out.1 = Ok PyFalse).
Proof.
  unfold search_conference_info, try_except, bind, log, emit, raise. simpl.
  destruct (oracle item) as [msg|text]; simpl.
  - split; [eauto|]. split; [reflexivity|]. split; [reflexivity|].
    split; [|reflexivity]. eexists. rewrite <- app_assoc. split; reflexivity.
  - unfold parse_response, bind, log, emit, ret, raise.
    destruct (String.eqb _ "false"); simpl.
    { split; [eauto|]. split; [reflexivity|]. split; [reflexivity|].
      split; [|discriminate]. eexists. rewrite <- app_assoc. split; reflexivity. }
    destruct (json_loads _) as [[d|v]|]; simpl.
    + destruct (bool_decide (filter_response d = ∅)); simpl;
        (split; [eauto|]); (split; [reflexivity|]); (split; [reflexivity|]);
        (split; [|discriminate]); eexists; rewrite <- app_assoc; split; reflexivity.
    + split; [eauto|]. split; [reflexivity|]. split; [reflexivity|].
      split; [|discriminate]. eexists. rewrite <- app_assoc. split; reflexivity.
    + split; [eauto|]. split; [reflexivity|]. split; [reflexivity|].
      split; [|discriminate]. eexists. rewrite <- !app_assoc. split; reflexivity.
Qed.

(** [search_conference_info] never raises: whatever the service replies
    (an exception, a text that is no JSON, a JSON document that is no
    object), it returns; it leaves the scheduler and the clock alone and
    adds log records only; and when the request itself raises, it returns
    [False]. *)
Theorem search_never_raises (item : WorkItem) (st : State) :
  let out := search_conference_info json_loads oracle item st in
  (exists d, out.1 = Ok d) /\
  sched out.2 = sched st /\ now out.2 = now st /\
  (exists new, trace out.2 = (trace st ++ new)%list /\ forallb is_log new = true) /\
  (forall msg, oracle item = ApiRaises msg -> out.1 = Ok PyFalse).
Proof. exact (search_total item st). Qed.

(** A dict returned by [search_conference_info] is never empty, holds no
    [None] and no value that is blank once trimmed, and each of its
    fields is a field of the JSON object that the service sent. *)
Theorem found_fields_are_filled (item : WorkItem) (st : State) (d : gmap string pyval) :
  (search_conference_info json_loads oracle item st).1 = Ok (Found d) ->
  d <> ∅ /\
  (forall k v, d !! k = Some v -> v <> PNone /\ PyStr.strip (py_str v) <> "") /\
  exists text parsed,
    oracle item = ApiText text /\
    json_loads (unfenced (PyStr.strip text)) = Some (JDict parsed) /\
    d ⊆ parsed.
Proof.
  unfold search_conference_info, try_except, bind, log, emit, raise. simpl.
  destruct (oracle item) as [msg|text]; simpl; [discriminate|].
  unfold parse_response, bind, log, emit, ret, raise.
  destruct (String.eqb _ "false"); simpl; [discriminate|].
  fold (unfenced (PyStr.strip text)).
  destruct (json_loads (unfenced (PyStr.strip text))) as [[parsed|v]|] eqn:Hparse;
    simpl; try discriminate.
  case_bool_decide as Hempty; simpl; [discriminate|].
  intros [= <-]. split; [exact Hempty|]. split.
  - intros k v Hk. apply (filter_response_lookup json_loads) in Hk.
    destruct Hk as (_ & H1 & H2). split; assumption.
  - exists text, parsed. split; [reflexivity|]. split; [exact Hparse|].
    apply map_filter_subseteq.
Qed.

End OracleTotal.

Lemma found_fields_are_filled_witness :
  {[ "Status" := PStr "Confirmed" ]} <> (∅ : gmap string pyval).
Proof.
  apply (found_fields_are_filled example_json_loads
           (fun _ => ApiText status_confirmed_text) example_item example_state
           {[ "Status" := PStr "Confirmed" ]}).
  vm_compute. reflexivity.
Defined.

(** ** The analyzer on a table that has no name column *)

Lemma not_in_columns_getitem (field : string) (cols : list string) (vals : list pyval) :
  in_columns field cols = false -> row_getitem cols vals field = None.
Proof.
  intros H. unfold row_getitem.
  destruct (column_index field cols) as [j|] eqn:Hj; [|reflexivity].
  assert (in_columns field cols = true) by (apply in_columns_index; eauto). congruence.
Qed.

Lemma iterrows_without_name (fields cols : list string) (rs : list (nat * list pyval))
    (acc : list WorkItem) :
  in_columns "Conference Name" cols = false ->
  Analyzer.iterrows fields cols rs acc =
  if existsb (incomplete_row fields cols) rs
  then Raise "KeyError: 'Conference Name'" else Ok acc.
Proof.
  intros Hname. revert acc. induction rs as [|[idx vals] rs IH]; intros acc; simpl.
  - reflexivity.
  - rewrite missing_fields_of_filter.
    change (incomplete_row fields cols (idx, vals))
      with (existsb (missing_in cols vals) fields).
    destruct (List.filter (missing_in cols vals) fields) as [|m ms] eqn:Hm.
    + apply filter_nil_existsb in Hm. rewrite Hm. simpl. apply IH.
    + assert (existsb (missing_in cols vals) fields = true) as ->.
      { destruct (existsb (missing_in cols vals) fields) eqn:E; [reflexivity|].
        apply filter_nil_existsb in E. congruence. }
      rewrite (not_in_columns_getitem _ cols vals Hname). reflexivity.
Qed.

(** On a table without the column [Conference Name], the analyzer raises
    a [KeyError] as soon as one row misses a required field, and returns
    the empty list when no row does. *)
Theorem analyzer_without_name_column (fields : list string) (df : DataFrame) :
  in_columns "Conference Name" (columns df) = false ->
  Analyzer.get_incomplete_conferences_for fields df =
  if existsb (incomplete_row fields (columns df)) (rows df)
  then Raise "KeyError: 'Conference Name'" else Ok [].
Proof.
  intros Hname. unfold Analyzer.get_incomplete_conferences_for.
  now apply iterrows_without_name.
Qed.

Lemma analyzer_without_name_column_witness :
  Analyzer.get_incomplete_conferences_for Config.FIELDS_TO_SCRAPE
    {| columns := ["Name"; "Status"]; rows := [(0%nat, [PStr "Devcon"; PStr ""])] |}
  = Raise "KeyError: 'Conference Name'".
Proof.
  apply (analyzer_without_name_column Config.FIELDS_TO_SCRAPE
           {| columns := ["Name"; "Status"]; rows := [(0%nat, [PStr "Devcon"; PStr ""])] |}).
  reflexivity.
Defined.

(** ** What the update loop writes *)
Section UpdateWrites.

Variable str_values : bool.
Variable i : nat.

Lemma update_fields_written (df : DataFrame) (m : gmap string pyval) (st : State) :
  exists st',
    CSV.update_fields str_values df i m st
    = (Ok (written str_values i (map_to_list m) df), st').
Proof.
  unfold CSV.update_fields, written.
  assert (forall (l : list (string * pyval)) (acc : M DataFrame) (d : DataFrame),
             (forall s, exists s', acc s = (Ok d, s')) ->
             forall s, exists s',
               fold_left
                 (fun (acc : M DataFrame) (kv : string * pyval) =>
                    bind acc (fun df0 =>
                      if in_columns kv.1 (columns df0)
                      then bind (log INFO ("Updated " +:+ kv.1 +:+ " for conference at index "
                                           +:+ str_int (Z.of_nat i)))
                             (fun _ => ret (CSV.set_at df0 i kv.1
                                              (if str_values then PStr (py_str kv.2) else kv.2)))
                      else ret df0))
                 l acc s
               = (Ok (fold_left
                        (fun (d : DataFrame) (kv : string * pyval) =>
                           if in_columns kv.1 (columns d)
                           then CSV.set_at d i kv.1 (stored_value str_values kv.2)
                           else d) l d), s')) as Hfold.
  { induction l as [|kv l IH]; intros acc d Hacc s; [apply Hacc|].
    cbn [fold_left]. apply IH. intros s0. destruct (Hacc s0) as (s1 & Hrun).
    unfold bind at 1. rewrite Hrun.
    destruct (in_columns kv.1 (columns d)).
    - unfold bind, log, emit, ret. simpl. eauto.
    - unfold ret. eauto. }
  apply Hfold. intros s. exists s. reflexivity.
Qed.

Lemma written_columns (l : list (string * pyval)) (d : DataFrame) :
  columns (written str_values i l d) = columns d.
Proof.
  unfold written. revert d. induction l as [|kv l IH]; intros d; simpl; [reflexivity|].
  rewrite IH. destruct (in_columns kv.1 (columns d)); [apply set_at_columns|reflexivity].
Qed.

Lemma set_at_row (d : DataFrame) (f : string) (v : pyval) (pos l0 : nat)
    (vals : list pyval) :
  rows d !! pos = Some (l0, vals) ->
  exists vals',
    rows (CSV.set_at d i f v) !! pos = Some (l0, vals') /\
    length vals' = length vals /\
    (l0 <> i -> vals' = vals).
Proof.
  intros Hrow. unfold CSV.set_at.
  destruct (column_index f (columns d)) as [j|]; [|exists vals; auto].
  cbn [rows]. rewrite list_lookup_fmap, Hrow. simpl.
  destruct (Nat.eqb l0 i) eqn:E.
  - eexists. split; [reflexivity|]. split; [apply length_insert|].
    apply Nat.eqb_eq in E. congruence.
  - exists vals. auto.
Qed.

Lemma written_row (l : list (string * pyval)) (d : DataFrame) (pos l0 : nat)
    (vals : list pyval) :
  rows d !! pos = Some (l0, vals) ->
  exists vals',
    rows (written str_values i l d) !! pos = Some (l0, vals') /\
    length vals' = length vals /\
    (l0 <> i -> vals' = vals).
Proof.
  unfold written. revert d vals. induction l as [|kv l IH]; intros d vals Hrow; simpl.
  - exists vals. auto.
  - destruct (in_columns kv.1 (columns d)); [|now apply IH].
    destruct (set_at_row d kv.1 (stored_value str_values kv.2) pos l0 vals Hrow)
      as (v1 & H1 & Hlen1 & Hsame1).
    destruct (IH _ _ H1) as (v2 & H2 & Hlen2 & Hsame2).
    exists v2. split; [exact H2|]. split; [congruence|].
    intros Hne. rewrite Hsame2, Hsame1 by assumption. reflexivity.
Qed.

Lemma written_cell_frame (l : list (string * pyval)) (d : DataFrame) (pos : nat)
    (g : string) :
  g ∉ l.*1 -> cell (written str_values i l d) pos g = cell d pos g.
Proof.
  unfold written. revert d. induction l as [|kv l IH]; intros d Hg; simpl; [reflexivity|].
  simpl in Hg. apply not_elem_of_cons in Hg as [Hne Hg].
  rewrite IH by exact Hg.
  destruct (in_columns kv.1 (columns d)); [|reflexivity].
  now apply set_at_cell_other.
Qed.

Lemma set_at_cell_same (d : DataFrame) (f : string) (v : pyval) (pos : nat)
    (vals : list pyval) :
  rows d !! pos = Some (i, vals) ->
  length vals = length (columns d) ->
  in_columns f (columns d) = true ->
  cell (CSV.set_at d i f v) pos f = Some v.
Proof.
  intros Hrow Hlen Hin. apply in_columns_index in Hin as [j Hj].
  unfold cell. rewrite set_at_columns. unfold CSV.set_at. rewrite Hj.
  cbn [rows]. rewrite list_lookup_fmap, Hrow. simpl. rewrite Nat.eqb_refl. simpl.
  unfold row_getitem. rewrite Hj. f_equal.
  rewrite nth_lookup, list_lookup_insert_eq; [reflexivity|].
  apply column_index_lookup, lookup_lt_Some in Hj. lia.
Qed.

Lemma written_cell_set (l : list (string * pyval)) (d : DataFrame) (pos : nat)
    (vals : list pyval) (f : string) (v : pyval) :
  NoDup l.*1 -> (f, v) ∈ l ->
  rows d !! pos = Some (i, vals) ->
  length vals = length (columns d) ->
  in_columns f (columns d) = true ->
  cell (written str_values i l d) pos f = Some (stored_value str_values v).
Proof.
  revert d vals. induction l as [|kv l IH]; intros d vals Hnd Hin Hrow Hlen Hcol.
  - now apply elem_of_nil in Hin.
  - simpl in Hnd. apply NoDup_cons in Hnd as [Hfresh Hnd].
    apply elem_of_cons in Hin as [<-|Hin].
    + change (written str_values i ((f, v) :: l) d)
        with (written str_values i l
                (if in_columns f (columns d)
                 then CSV.set_at d i f (stored_value str_values v) else d)).
      rewrite Hcol, written_cell_frame by exact Hfresh.
      now apply (set_at_cell_same d f _ pos vals).
    + change (written str_values i (kv :: l) d)
        with (written str_values i l
                (if in_columns kv.1 (columns d)
                 then CSV.set_at d i kv.1 (stored_value str_values kv.2) else d)).
      destruct (in_columns kv.1 (columns d)); [|now apply (IH d vals)].
      destruct (set_at_row d kv.1 (stored_value str_values kv.2) pos i vals Hrow)
        as (v1 & H1 & Hlen1 & _).
      apply (IH _ v1); try assumption.
      * rewrite set_at_columns. congruence.
      * now rewrite set_at_columns.
Qed.

Lemma update_fields_row (df : DataFrame) (m : gmap string pyval) (st : State)
    (pos : nat) (vals : list pyval) :
  rows df !! pos = Some (i, vals) ->
  length vals = length (columns df) ->
  exists df' st',
    CSV.update_fields str_values df i m st = (Ok df', st') /\
    columns df' = columns df /\
    (forall f v, m !! f = Some v -> in_columns f (columns df) = true ->
                 cell df' pos f = Some (stored_value str_values v)) /\
    (forall pos' l0 vals0, rows df !! pos' = Some (l0, vals0) -> l0 <> i ->
                           rows df' !! pos' = Some (l0, vals0)).
Proof.
  intros Hrow Hlen. destruct (update_fields_written df m st) as (st' & Hrun).
  exists (written str_values i (map_to_list m) df), st'.
  split; [exact Hrun|]. split; [apply written_columns|]. split.
  - intros f v Hf Hcol. apply (written_cell_set _ df pos vals); try assumption.
    + apply NoDup_fst_map_to_list.
    + now apply elem_of_map_to_list.
  - intros pos' l0 vals0 Hrow' Hne.
    destruct (written_row (map_to_list m) df pos' l0 vals0 Hrow') as (v' & H' & _ & Hsame).
    now rewrite H', Hsame.
Qed.

(** The update loop of both stores, on a row of label [i] that has one
    value per column: it returns; every field of the dict that is a
    column of the table is then read back from that row, as given on the
    CSV backend and as its [str()] on the spreadsheet backend; the table
    keeps its columns; and the rows of another label keep their values. *)
Theorem update_writes_the_row (df : DataFrame) (m : gmap string pyval) (st : State)
    (pos : nat) (vals : list pyval) :
  rows df !! pos = Some (i, vals) ->
  length vals = length (columns df) ->
  exists df' st',
    CSV.update_fields str_values df i m st = (Ok df', st') /\
    columns df' = columns df /\
    (forall f v, m !! f = Some v -> in_columns f (columns df) = true ->
                 cell df' pos f = Some (stored_value str_values v)) /\
    (forall pos' l0 vals0, rows df !! pos' = Some (l0, vals0) -> l0 <> i ->
                           rows df' !! pos' = Some (l0, vals0)).
Proof. exact (update_fields_row df m st pos vals). Qed.

End UpdateWrites.

Lemma update_writes_the_row_witness :
  exists df' st',
    CSV.update_fields true scenario_table 2 {[ "Status" := PStr "Confirmed" ]} example_state
    = (Ok df', st') /\
    cell df' 2 "Status" = Some (PStr "Confirmed").
Proof.
  destruct (update_writes_the_row true 2 scenario_table {[ "Status" := PStr "Confirmed" ]}
              example_state 2
              [PStr "Token2049"; PStr "04/29"; PStr "04/30"; PStr "Dubai";
               PStr "TBA"; PStr "10000"; PNaN] eq_refl eq_refl)
    as (df' & st' & Hrun & _ & Hcells & _).
  exists df', st'. split; [exact Hrun|].
  apply (Hcells "Status" (PStr "Confirmed")); reflexivity.
Defined.

(** ** Merging makes progress *)

Lemma kept_not_blank (str_values : bool) (data : gmap string pyval) (f : string) (w : pyval) :
  validate_scraped_data data !! f = Some w ->
  is_blank (stored_value str_values w) = false.
Proof.
  rewrite validate_lookup. intros H.
  assert (exists s, w = PStr s /\ PyStr.strip s = s /\ s <> "") as (s & -> & Hs & Hne).
  { destruct (is_date_field f).
    - destruct (data !! f) as [v|]; [|discriminate]. simpl in H.
      destruct (kept_date_shape _ _ H) as (s & -> & Hs & Hc & _).
      exists s. split; [reflexivity|]. split; [exact Hs|].
      intros ->. discriminate.
    - destruct (is_text_field f); [|discriminate].
      destruct (data !! f) as [v|]; [|discriminate]. simpl in H.
      unfold kept_text in H.
      destruct (0 <? PyStr.len (PyStr.strip (py_str v))) eqn:E; [|discriminate].
      injection H as <-. eexists. split; [reflexivity|]. split; [apply strip_idem|].
      intros Hempty. rewrite Hempty in E. discriminate. }
  assert (stored_value str_values (PStr s) = PStr s) as -> by now destruct str_values.
  unfold is_blank. simpl. rewrite Hs. now apply String.eqb_neq.
Qed.

(** After the validated fields of an answer are merged into the row of a
    conference, none of them is among the missing fields that the analyzer
    finds for that row. *)
Theorem merged_fields_are_no_longer_missing (str_values : bool) (i : nat)
    (df : DataFrame) (data : gmap string pyval) (st : State) (pos : nat)
    (vals : list pyval) (fields : list string) :
  rows df !! pos = Some (i, vals) ->
  length vals = length (columns df) ->
  exists df' st' vals',
    CSV.update_fields str_values df i (validate_scraped_data data) st = (Ok df', st') /\
    rows df' !! pos = Some (i, vals') /\
    forall f, f ∈ dom (validate_scraped_data data) ->
              f ∉ missing_fields (work_item_of fields (columns df') (i, vals')).
Proof.
  intros Hrow Hlen.
  destruct (update_fields_row str_values i df (validate_scraped_data data) st pos vals
              Hrow Hlen) as (df' & st' & Hrun & Hcols & Hcells & _).
  destruct (update_fields_written str_values i df (validate_scraped_data data) st)
    as (st2 & Hrun2).
  rewrite Hrun in Hrun2. injection Hrun2 as -> _.
  destruct (written_row str_values i (map_to_list (validate_scraped_data data)) df pos i
              vals Hrow) as (vals' & Hrow' & _ & _).
  eexists _, st', vals'. split; [exact Hrun|]. split; [exact Hrow'|].
  intros f Hf Hmiss. apply elem_of_dom in Hf as [w Hw].
  cbn [missing_fields work_item_of fst snd] in Hmiss.
  apply list_elem_of_In, filter_In in Hmiss as [_ Hmiss].
  unfold missing_in in Hmiss. apply andb_prop in Hmiss as [Hcol Hblank].
  rewrite Hcols in Hcol. specialize (Hcells f w Hw Hcol).
  unfold cell in Hcells. rewrite Hrow' in Hcells. simpl in Hcells.
  unfold row_get in Hblank. rewrite Hcells in Hblank.
  rewrite (kept_not_blank str_values data f w Hw) in Hblank. discriminate.
Qed.

Lemma merged_fields_are_no_longer_missing_witness :
  exists df' st' vals',
    CSV.update_fields false scenario_table 0
      (validate_scraped_data {[ "Status" := PStr " Confirmed " ]}) example_state
    = (Ok df', st') /\
    rows df' !! 0%nat = Some (0%nat, vals') /\
    forall f, f ∈ dom (validate_scraped_data {[ "Status" := PStr " Confirmed " ]}) ->
              f ∉ missing_fields (work_item_of Config.FIELDS_TO_SCRAPE (columns df')
                                    (0%nat, vals')).
Proof.
  apply (merged_fields_are_no_longer_missing false 0 scenario_table
           {[ "Status" := PStr " Confirmed " ]} example_state 0
           [PStr "Consensus"; PStr "05/14"; PStr "05/16"; PStr "Toronto";
            PStr "TBA"; PStr "15000"; PStr ""]); reflexivity.
Defined.

(** ** The row that the spreadsheet backend sends *)
Section SheetsSync.

Lemma set_at_rows_length (d : DataFrame) (i : nat) (f : string) (v : pyval) :
  length (rows (CSV.set_at d i f v)) = length (rows d).
Proof.
  unfold CSV.set_at. destruct (column_index f (columns d)); [|reflexivity].
  cbn [rows]. apply length_map.
Qed.

Lemma written_rows_length (b : bool) (i : nat) (l : list (string * pyval)) (d : DataFrame) :
  length (rows (written b i l d)) = length (rows d).
Proof.
  unfold written. revert d. induction l as [|kv l IH]; intros d; simpl; [reflexivity|].
  rewrite IH. destruct (in_columns kv.1 (columns d)); [apply set_at_rows_length|reflexivity].
Qed.

Lemma sheets_update_positional (df : DataFrame) (i : nat)
    (m : gmap string pyval) (st : State) :
  let out := GoogleSheets.update_conference_data df i m st in
  (rows df !! i = None ->
   out.1 = Raise "IndexError: single positional indexer is out-of-bounds") /\
  (forall l vals, rows df !! i = Some (l, vals) ->
     exists df' vals',
       out.1 = Ok df' /\
       rows df' !! i = Some (l, vals') /\
       (l <> i -> vals' = vals) /\
       SheetRowUpdate (i + 2) vals' ∈ trace out.2).
Proof.
  intros out. remember out as o eqn:Ho. subst out.
  unfold GoogleSheets.update_conference_data, try_except in Ho.
  destruct (update_fields_written true i df m st) as (s1 & Hrun).
  unfold bind at 1 in Ho. rewrite Hrun in Ho.
  unfold GoogleSheets.sync_row_to_sheets, try_except, bind, log, emit, raise, ret in Ho.
  destruct (rows (written true i (map_to_list m) df) !! i) as [r|] eqn:E;
    simpl in Ho; subst o; simpl.
  - split.
    + intros Hnone. apply lookup_ge_None in Hnone.
      apply lookup_lt_Some in E. rewrite written_rows_length in E. lia.
    + intros l vals Hrow.
      destruct (written_row true i (map_to_list m) df i l vals Hrow)
        as (vals' & Hrow' & _ & Hsame).
      rewrite Hrow' in E. injection E as <-.
      exists (written true i (map_to_list m) df), vals'.
      split; [reflexivity|]. split; [exact Hrow'|]. split; [exact Hsame|].
      simpl. rewrite !elem_of_app. left. right. apply list_elem_of_here.
  - split; [reflexivity|].
    intros l vals Hrow.
    destruct (written_row true i (map_to_list m) df i l vals Hrow)
      as (vals' & Hrow' & _ & _). congruence.
Qed.


End SheetsSync.


(** ** The spreadsheet loader and the labels of its rows *)
Section Loader.

Variable header : list string.

Lemma loaded_rows (body : list (list string)) (df : DataFrame) :
  Sheets.load_2026_data (header :: body) = Ok df ->
  columns df = header /\
  rows df = filter (has_name header) (imap (fun j ss => (j, map PStr ss)) body).
Proof.
  unfold Sheets.load_2026_data.
  destruct (in_columns "Conference Name" header); [|discriminate].
  intros [= <-]. split; reflexivity.
Qed.

(** The labels of the rows that are kept are their positions in the
    sheet: a row is never found before the position of its label. *)
Lemma kept_position_le (body : list (list string)) (k p l : nat) (v : list pyval) :
  filter (has_name header) (imap (fun j ss => ((k + j)%nat, map PStr ss)) body) !! p
    = Some (l, v) ->
  (k + p <= l)%nat.
Proof.
  revert k p. induction body as [|ss body IH]; intros k p H; [discriminate|].
  cbn [imap] in H.
  rewrite (imap_ext _ (fun j ss => ((S k + j)%nat, map PStr ss))) in H
    by (intros j x _; simpl; f_equal; lia).
  rewrite filter_cons in H. destruct (decide (has_name header _)).
  - destruct p as [|p]; simpl in H.
    + injection H as <- _. lia.
    + apply (IH (S k)) in H. lia.
  - apply (IH (S k)) in H. lia.
Qed.

(** A row that was dropped above moves the rows below it up. *)
Lemma kept_position_lt (body : list (list string)) (k p l : nat) (v : list pyval) :
  filter (has_name header) (imap (fun j ss => ((k + j)%nat, map PStr ss)) body) !! p
    = Some (l, v) ->
  (exists q ss, body !! q = Some ss /\ (k + q < l)%nat /\
                ~ has_name header ((k + q)%nat, map PStr ss)) ->
  (k + p < l)%nat.
Proof.
  revert k p. induction body as [|ss body IH]; intros k p H (q & ss' & Hq & Hlt & Hdrop);
    [discriminate|].
  cbn [imap] in H.
  rewrite (imap_ext _ (fun j ss => ((S k + j)%nat, map PStr ss))) in H
    by (intros j x _; simpl; f_equal; lia).
  rewrite filter_cons in H. destruct (decide (has_name header _)) as [Hkeep|Hno].
  - destruct q as [|q]; simpl in Hq.
    + injection Hq as <-. exfalso. apply Hdrop.
      replace (k + 0)%nat with k in * by lia. exact Hkeep.
    + destruct p as [|p]; simpl in H.
      * injection H as <- _. lia.
      * assert (S k + p < l)%nat; [|lia]. apply (IH (S k)); [exact H|].
        exists q, ss'. split; [exact Hq|]. split; [lia|].
        replace (S k + q)%nat with (k + S q)%nat by lia. exact Hdrop.
  - apply (kept_position_le body (S k)) in H. lia.
Qed.

(** What the spreadsheet loader returns: the empty frame for an empty
    sheet, a [KeyError] for a header without [Conference Name], and
    otherwise the rows of the sheet whose name is not blank, each under
    the label that is its position below the header. *)
Theorem sheets_loader_keeps_named_rows (body : list (list string)) :
  Sheets.load_2026_data [] = Ok empty_frame /\
  (in_columns "Conference Name" header = false ->
   Sheets.load_2026_data (header :: body) = Raise "KeyError: 'Conference Name'") /\
  (forall df, Sheets.load_2026_data (header :: body) = Ok df ->
     columns df = header /\
     forall l vals,
       (l, vals) ∈ rows df <->
       exists ss, body !! l = Some ss /\ vals = map PStr ss /\
                  is_blank (row_get header vals "Conference Name" PNaN) = false).
Proof.
  split; [reflexivity|]. split.
  - intros Hno. unfold Sheets.load_2026_data. now rewrite Hno.
  - intros df Hload. apply loaded_rows in Hload as [Hcols Hrows].
    split; [exact Hcols|]. intros l vals. rewrite Hrows, list_elem_of_filter.
    unfold has_name. cbn [snd]. rewrite negb_true_iff, elem_of_lookup_imap. split.
    + intros [Hname (j & ss & [= -> ->] & Hj)]. eauto.
    + intros (ss & Hl & -> & Hname). split; [exact Hname|]. eauto.
Qed.

Lemma loaded_rows_offset (body : list (list string)) (df : DataFrame) :
  Sheets.load_2026_data (header :: body) = Ok df ->
  rows df
  = filter (has_name header) (imap (fun j ss => ((0 + j)%nat, map PStr ss)) body).
Proof. intros H. apply loaded_rows in H as [_ ->]. reflexivity. Qed.

(** When the sheet has a row without a name above the conference of label
    [l], the frame holds that conference before position [l]; an update
    of the conference through the spreadsheet backend then raises an
    [IndexError], or sends to the conference's sheet row the unchanged
    values of another conference, of a greater label. *)
Theorem sheets_update_after_dropped_row (body : list (list string)) (df : DataFrame)
    (p l q : nat) (vals : list pyval) (ss : list string)
    (m : gmap string pyval) (st : State) :
  Sheets.load_2026_data (header :: body) = Ok df ->
  rows df !! p = Some (l, vals) ->
  body !! q = Some ss -> (q < l)%nat ->
  is_blank (row_get header (map PStr ss) "Conference Name" PNaN) = true ->
  let out := GoogleSheets.update_conference_data df l m st in
  (p < l)%nat /\
  (out.1 = Raise "IndexError: single positional indexer is out-of-bounds" \/
   exists l' vals' df',
     (l < l')%nat /\ rows df !! l = Some (l', vals') /\
     out.1 = Ok df' /\ SheetRowUpdate (l + 2) vals' ∈ trace out.2).
Proof.
  intros Hload Hrow Hq Hlt Hblank out.
  pose proof (loaded_rows_offset body df Hload) as Hrows.
  assert (forall p' l' v', rows df !! p' = Some (l', v') -> (q < l')%nat ->
                           (p' < l')%nat) as Hshift.
  { intros p' l' v' H' Hq'. rewrite Hrows in H'.
    apply (kept_position_lt body 0 p' l' v' H').
    exists q, ss. split; [exact Hq|]. split; [lia|].
    unfold has_name. cbn [snd]. rewrite Hblank. discriminate. }
  split; [exact (Hshift p l vals Hrow Hlt)|].
  destruct (sheets_update_positional df l m st) as [Hnone Hsome].
  fold out in Hnone, Hsome.
  destruct (rows df !! l) as [[l' vals']|] eqn:El; [right|left; now apply Hnone].
  assert (l <= l')%nat as Hle.
  { rewrite Hrows in El. exact (kept_position_le body 0 l l' vals' El). }
  assert (l < l')%nat as Hlt' by (apply (Hshift l l' vals' El); lia).
  destruct (Hsome l' vals' eq_refl) as (df' & vals2 & Hok & _ & Hsame & Hsent).
  rewrite Hsame in Hsent by lia.
  exists l', vals', df'. auto.
Qed.

End Loader.

Lemma sheets_loader_keeps_named_rows_witness :
  Sheets.load_2026_data (["Name"; "Status"] :: [["Devcon"; ""]])
  = Raise "KeyError: 'Conference Name'".
Proof.
  apply (sheets_loader_keeps_named_rows ["Name"; "Status"] [["Devcon"; ""]]).
  reflexivity.
Defined.

Lemma sheets_update_after_dropped_row_witness :
  let df := {| columns := ["Conference Name"; "Status"];
               rows := [(1%nat, [PStr "Devcon"; PStr ""]);
                        (2%nat, [PStr "Token2049"; PStr "Confirmed"])] |} in
  let out := GoogleSheets.update_conference_data df 1 {[ "Status" := PStr "Confirmed" ]}
               example_state in
  (0 < 1)%nat /\
  (out.1 = Raise "IndexError: single positional indexer is out-of-bounds" \/
   exists l' vals' df',
     (1 < l')%nat /\ rows df !! 1%nat = Some (l', vals') /\
     out.1 = Ok df' /\ SheetRowUpdate (1 + 2) vals' ∈ trace out.2).
Proof.
  intros df.
  apply (sheets_update_after_dropped_row ["Conference Name"; "Status"]
           [[" "; ""]; ["Devcon"; ""]; ["Token2049"; "Confirmed"]] df
           0 1 0 [PStr "Devcon"; PStr ""] [" "; ""]
           {[ "Status" := PStr "Confirmed" ]} example_state);
    try reflexivity.
  lia.
Defined.

(** ** A cycle that raises *)
Section CycleRaises.

Variable json_loads : string -> option json_doc.
Variable spreadsheet_name : string.
Variable st0 : State.

Lemma any_log (lvl : level) (msg : string) : any_event (Log lvl msg) = true.
Proof. reflexivity. Qed.

Lemma inv_any_emit (e : event) : inv any_event st0 (emit e).
Proof. now apply inv_emit. Qed.

Lemma inv_any_format : inv any_event st0 GoogleSheets.format_dashboard.
Proof.
  unfold GoogleSheets.format_dashboard.
  apply inv_bind; [apply inv_any_emit|intros _].
  apply inv_bind;
    [|intros _; apply inv_bind; [apply inv_any_emit|intros _; apply inv_any_emit]].
  apply inv_fold_left; [|apply inv_ret].
  intros c row Hc. apply inv_bind; [exact Hc|intros _; apply inv_any_emit].
Qed.

Lemma inv_any_create_or_open (remote : GoogleSheets.Remote) :
  inv any_event st0 (GoogleSheets.create_or_open_spreadsheet remote spreadsheet_name).
Proof.
  assert (inv any_event st0 GoogleSheets.setup_dashboard) as Hdash.
  { unfold GoogleSheets.setup_dashboard.
    apply inv_bind; [apply inv_any_emit|intros _].
    apply inv_bind; [apply inv_any_format|intros _; apply inv_any_emit]. }
  unfold GoogleSheets.create_or_open_spreadsheet, GoogleSheets.setup_worksheets.
  apply inv_try_except; [|intros e; inv_auto].
  destruct (GoogleSheets.open_error remote); [apply inv_raise|].
  apply inv_bind; [destruct (GoogleSheets.spreadsheet_found remote); inv_auto|intros _].
  apply inv_bind; [destruct (GoogleSheets.sheet_2025_found remote); inv_auto|intros _].
  apply inv_bind; [destruct (GoogleSheets.sheet_2026_found remote); inv_auto|intros _].
  apply inv_bind; [|intros _; inv_auto].
  destruct (GoogleSheets.dashboard_found remote); [apply inv_ret|].
  apply inv_bind; [apply inv_any_emit|intros _; exact Hdash].
Qed.

Lemma inv_any_ensure (env : CycleEnv) :
  inv any_event st0 (ensure_sheets_initialized spreadsheet_name env).
Proof.
  unfold ensure_sheets_initialized. apply inv_get_sched. intros s Hs Hf.
  destruct (_ && _); [|apply inv_ret].
  apply inv_try_except; [|intros e; inv_auto].
  apply inv_bind; [apply inv_any_create_or_open|intros _].
  apply inv_bind; [apply inv_set_sched; [exact Hs|reflexivity]|intros _]. inv_auto.
Qed.

Lemma inv_any_update (env : CycleEnv) (df : DataFrame) (i : nat) (m : gmap string pyval) :
  inv any_event st0 (update_conference_data env df i m).
Proof.
  unfold update_conference_data. destruct (use_google_sheets env).
  - unfold GoogleSheets.update_conference_data, GoogleSheets.sync_row_to_sheets.
    apply inv_try_except; [|intros e; inv_auto].
    apply inv_bind; [apply inv_update_fields, any_log|intros d].
    apply inv_bind; [|intros _; apply inv_ret].
    apply inv_try_except; [|intros e; inv_auto].
    destruct (rows d !! i); inv_auto.
  - apply inv_csv_update, any_log.
Qed.

Lemma inv_any_merge (env : CycleEnv) (results : list BatchResult) :
  forall (df : DataFrame) (u : Z), inv any_event st0 (merge_results env results df u).
Proof.
  induction results as [|r results IH]; intros df u; cbn [merge_results].
  - apply inv_ret.
  - destruct (scraped_data r) as [|m]; [apply IH|].
    destruct (truthy (Found m)); [|apply IH].
    destruct (bool_decide (validate_scraped_data m = ∅)); [apply IH|].
    apply inv_bind; [apply inv_any_update|intros d].
    apply inv_bind; [inv_auto|intros _; apply IH].
Qed.

Lemma inv_any_save (env : CycleEnv) (df : DataFrame) (u : Z) :
  inv any_event st0 (save_updates env df u).
Proof.
  unfold save_updates, GoogleSheets.update_dashboard_timestamp,
    GoogleSheets.update_system_status, CSV.save_csv.
  destruct (0 <? u); [|apply inv_ret].
  apply inv_bind; [destruct (use_google_sheets env); inv_auto|intros _; inv_auto].
Qed.

Lemma raises_clean_inv {A : Type} (c : M A) : inv any_event st0 c -> raises_clean st0 c.
Proof. intros Hc st Hst e st' Hrun. specialize (Hc st Hst). now rewrite Hrun in Hc. Qed.

Lemma raises_clean_bind {A B : Type} (c : M A) (k : A -> M B) :
  inv any_event st0 c -> (forall a, raises_clean st0 (k a)) ->
  raises_clean st0 (bind c k).
Proof.
  intros Hc Hk st Hst e st'. unfold bind. specialize (Hc st Hst).
  destruct (c st) as [[a|msg] s1]; simpl in Hc.
  - apply Hk. exact Hc.
  - intros [= <- <-]. exact Hc.
Qed.

Lemma raises_clean_if {A : Type} (b : bool) (c1 c2 : M A) :
  raises_clean st0 c1 -> raises_clean st0 c2 ->
  raises_clean st0 (if b then c1 else c2).
Proof. now destruct b. Qed.

(** The last block of the job (statistics and summary) cannot raise. *)
Lemma raises_clean_statistics (processed u : Z) (msg1 msg2 : string) :
  raises_clean st0 (update_statistics processed u ;;; log INFO msg1 ;;; log INFO msg2).
Proof.
  intros st _ e st'. unfold update_statistics, bind, get_sched, time, set_sched, log, emit.
  discriminate.
Qed.

(** The body of the [try] block of the job. *)
Lemma raises_clean_job_body (env : CycleEnv) :
  raises_clean st0
    (ensure_sheets_initialized spreadsheet_name env ;;;
     connected <- test_api_connection (canary env) ;;
     if negb connected
     then log ERROR "API connection test failed. Skipping scraping job."
     else
       df_2026 <- lift (load_2026_data env) ;;
       if df_empty df_2026
       then log ERROR "No 2026 data found. Please initialize data storage first."
       else
         incomplete_conferences <- lift (get_incomplete_conferences df_2026) ;;
         log INFO ("Found " +:+ str_int (Z.of_nat (length incomplete_conferences))
                   +:+ " conferences with missing information") ;;;
         match incomplete_conferences with
         | [] => log INFO "No conferences with missing information found."
         | _ =>
             log INFO ("Found " +:+ str_int (Z.of_nat (length incomplete_conferences))
                       +:+ " conferences with missing information") ;;;
             scraping_results <-
               scrape_batch (search_conference_info json_loads (oracle env))
                            incomplete_conferences 3 ;;
             merged <- merge_results env scraping_results df_2026 0 ;;
             save_updates env merged.1 merged.2 ;;;
             update_statistics (Z.of_nat (length incomplete_conferences)) merged.2 ;;;
             log INFO "Scraping job completed" ;;;
             log INFO ("Processed: " +:+ str_int (Z.of_nat (length incomplete_conferences))
                       +:+ " conferences, Updated: " +:+ str_int merged.2
                       +:+ " conferences")
         end).
Proof.
  apply raises_clean_bind; [apply inv_any_ensure|intros _].
  apply raises_clean_bind; [apply inv_test_api_connection, any_log|intros connected].
  apply raises_clean_if; [apply raises_clean_inv; inv_auto|].
  apply raises_clean_bind; [apply inv_lift|intros df].
  apply raises_clean_if; [apply raises_clean_inv; inv_auto|].
  apply raises_clean_bind; [apply inv_lift|intros items].
  apply raises_clean_bind; [inv_auto|intros _].
  destruct items as [|c items]; [apply raises_clean_inv; inv_auto|].
  apply raises_clean_bind; [inv_auto|intros _].
  apply raises_clean_bind.
  { apply inv_scrape_batch; [apply any_log|reflexivity|].
    intros w. apply inv_search, any_log. }
  intros results.
  apply raises_clean_bind; [apply inv_any_merge|intros merged].
  apply raises_clean_bind; [apply inv_any_save|intros _].
  apply raises_clean_statistics.
Qed.

Lemma raising_cycle_stats (env : CycleEnv) (e : string) (st' : State) :
  run_scraping_job json_loads spreadsheet_name env st0 = (Raise e, st') ->
  last_run (sched st') = last_run (sched st0) /\
  total_conferences_processed (sched st') = total_conferences_processed (sched st0) /\
  total_updates_made (sched st') = total_updates_made (sched st0) /\
  exists new,
    trace st' = (trace st0 ++ new ++ [Log ERROR ("Error in scraping job: " +:+ e)])%list.
Proof.
  unfold run_scraping_job. intros H.
  unfold bind at 1 in H. unfold log at 1, emit at 1 in H. cbv beta iota in H.
  unfold try_except in H.
  match type of H with
  | context [match ?body ?s with _ => _ end] =>
      pose proof (raises_clean_job_body env s) as Hclean;
      destruct (body s) as [[[]|msg] s2] eqn:Hbody
  end; [discriminate|].
  unfold bind, log, emit, raise in H. simpl in H. injection H as <- <-.
  assert (appends any_event st0 s2) as (Hs & _ & new & Ht & _).
  { apply (Hclean (appends_trans _ _ _ _ (appends_refl _ st0)
                     (inv_any_emit (Log INFO "Starting scheduled scraping job...") st0
                        (appends_refl _ st0))) msg s2 eq_refl). }
  unfold stats in Hs. injection Hs as H1 H2 H3. simpl.
  repeat (split; [assumption|]).
  exists new. rewrite Ht, <- !app_assoc. reflexivity.
Qed.

(** When a cycle raises, [last_run], [total_conferences_processed] and
    [total_updates_made] are as they were before it, and the last record of
    the trace is the error log of the job, with the text of the
    exception. *)
Theorem raising_cycle_keeps_statistics (env : CycleEnv) (e : string) (st' : State) :
  run_scraping_job json_loads spreadsheet_name env st0 = (Raise e, st') ->
  last_run (sched st') = last_run (sched st0) /\
  total_conferences_processed (sched st') = total_conferences_processed (sched st0) /\
  total_updates_made (sched st') = total_updates_made (sched st0) /\
  exists new,
    trace st' = (trace st0 ++ new ++ [Log ERROR ("Error in scraping job: " +:+ e)])%list.
Proof. exact (raising_cycle_stats env e st'). Qed.

End CycleRaises.

Lemma raising_cycle_keeps_statistics_witness :
  total_updates_made
    (sched (run_scraping_job example_json_loads "Crypto Conferences 2026" failing_env
              example_state).2)
  = total_updates_made (sched example_state).
Proof.
  apply (raising_cycle_keeps_statistics example_json_loads "Crypto Conferences 2026"
           example_state failing_env "Error loading 2026 CSV"
           (run_scraping_job example_json_loads "Crypto Conferences 2026" failing_env
              example_state).2).
  vm_compute. reflexivity.
Defined.

(** ** Where the results of a batch come from *)
Section BatchProvenance.

Variable search : WorkItem -> M scraped.

Lemma scrape_conference_from_search (results : list BatchResult) (c : WorkItem)
    (st : State) :
  exists r st',
    scrape_conference search results c st = (Ok (results ++ [r])%list, st') /\
    from_search search r.
Proof.
  destruct (scrape_conference_appends search results c st)
    as (r & st' & Hrun & Hc & _ & Hval).
  exists r, st'. split; [exact Hrun|]. unfold from_search. rewrite Hc.
  destruct ((search c st).1) as [d|e] eqn:E.
  - left. exists st. destruct Hval as [-> ->]. auto.
  - right. exists st, e. destruct Hval as [-> ->]. auto.
Qed.

Lemma scrape_conferences_from_search (batch : list WorkItem) (results : list BatchResult)
    (st : State) :
  exists rs st',
    scrape_conferences search batch results st = (Ok (results ++ rs)%list, st') /\
    Forall (from_search search) rs.
Proof.
  revert results st. induction batch as [|c batch IH]; intros results st; simpl.
  - exists [], st. rewrite app_nil_r. unfold ret. auto.
  - destruct (scrape_conference_from_search results c st) as (r & st1 & Hr & Hfrom).
    unfold bind at 1. rewrite Hr.
    destruct (IH (results ++ [r])%list st1) as (rs & st2 & Hrs & Hall).
    exists (r :: rs), st2. rewrite Hrs, <- app_assoc. simpl.
    split; [reflexivity|]. constructor; assumption.
Qed.

Lemma scrape_batches_from_search (conferences : list WorkItem) (batch_size : Z)
    (starts : list Z) (results : list BatchResult) (st : State) :
  exists rs st',
    scrape_batches search conferences batch_size starts results st
      = (Ok (results ++ rs)%list, st') /\
    Forall (from_search search) rs.
Proof.
  revert results st. induction starts as [|i starts IH]; intros results st.
  - exists [], st. simpl. rewrite app_nil_r. unfold ret. auto.
  - cbn [scrape_batches].
    unfold bind at 1. unfold log at 1, emit at 1. cbv beta iota.
    unfold bind at 1.
    match goal with |- context [scrape_conferences search ?b results ?s] =>
      destruct (scrape_conferences_from_search b results s) as (rs1 & st1 & H1 & Hall1)
    end.
    rewrite H1. unfold bind at 1.
    match goal with |- context [(if ?c then ?a else ?b) st1] =>
      assert (exists st2, (if c then a else b) st1 = (Ok tt, st2)) as [st2 ->]
        by (destruct c; unfold bind, log, emit, sleep, ret; simpl; eauto)
    end.
    destruct (IH (results ++ rs1)%list st2) as (rs2 & st3 & H2 & Hall2).
    exists (rs1 ++ rs2)%list, st3. rewrite H2, <- app_assoc.
    split; [reflexivity|]. apply Forall_app. auto.
Qed.

Lemma scrape_batch_from_search (conferences : list WorkItem) (batch_size : Z)
    (st st' : State) (rs : list BatchResult) :
  scrape_batch search conferences batch_size st = (Ok rs, st') ->
  Forall (from_search search) rs.
Proof.
  unfold scrape_batch, bind, lift.
  destruct (py_range 0 (Z.of_nat (length conferences)) batch_size) as [starts|e];
    [|discriminate].
  destruct (scrape_batches_from_search conferences batch_size starts [] st)
    as (rs' & st2 & Hrun & Hall).
  rewrite Hrun. simpl. intros [= <- _]. exact Hall.
Qed.

(** Whatever the batch size, every result that [scrape_batch] returns comes
    from the search of its own work item: no result is made up, and none
    carries the answer of another item. *)
Theorem batch_results_come_from_search (conferences : list WorkItem) (batch_size : Z)
    (st st' : State) (rs : list BatchResult) :
  scrape_batch search conferences batch_size st = (Ok rs, st') ->
  Forall (from_search search) rs.
Proof. exact (scrape_batch_from_search conferences batch_size st st' rs). Qed.

End BatchProvenance.

Lemma batch_results_come_from_search_witness :
  Forall (from_search flaky_search)
    (match (scrape_batch flaky_search [numbered_item 0; numbered_item 1] 1
              example_state).1 with
     | Ok rs => rs
     | Raise _ => []
     end).
Proof.
  apply (batch_results_come_from_search flaky_search [numbered_item 0; numbered_item 1] 1
           example_state
           (scrape_batch flaky_search [numbered_item 0; numbered_item 1] 1
              example_state).2).
  vm_compute. reflexivity.
Defined.

(** ** Two facts about the runner and the client, for the cycle *)

Lemma scrape_batch_covers (search : WorkItem -> M scraped) (conferences : list WorkItem)
    (batch_size : Z) (st st' : State) (rs : list BatchResult) :
  0 < batch_size ->
  scrape_batch search conferences batch_size st = (Ok rs, st') ->
  map conference_info rs = conferences.
Proof.
  intros Hpos. unfold scrape_batch, bind, lift.
  destruct (py_range_slices conferences batch_size Hpos) as (starts & -> & Hcat).
  destruct (scrape_batches_appends search conferences batch_size starts [] st)
    as (rs' & st2 & Hrun & Hmap & _).
  rewrite Hrun. simpl. intros [= <- _]. congruence.
Qed.

Lemma search_false_answer (json_loads : string -> option json_doc)
    (oracle : WorkItem -> api_reply) (item : WorkItem) (text : string) (st : State) :
  oracle item = ApiText text ->
  PyStr.lower (PyStr.strip text) = "false" ->
  (search_conference_info json_loads oracle item st).1 = Ok PyFalse.
Proof.
  intros Horacle Hfalse.
  unfold search_conference_info, try_except, bind, log, emit. simpl.
  rewrite Horacle. unfold parse_response. rewrite Hfalse. reflexivity.
Qed.

(** ** A cycle that goes through *)
Section FullCycle.

Variable json_loads : string -> option json_doc.
Variable spreadsheet_name : string.

Lemma merge_results_bound (env : CycleEnv) (results : list BatchResult) :
  forall (df : DataFrame) (u : Z) (st : State) (df' : DataFrame) (u' : Z) (st' : State),
    merge_results env results df u st = (Ok (df', u'), st') ->
    u' <= u + Z.of_nat (length results).
Proof.
  induction results as [|r results IH]; intros df u st df' u' st' H.
  - unfold merge_results, ret in H. injection H as _ <- _. simpl. lia.
  - cbn [merge_results] in H. cbn [length]. rewrite Nat2Z.inj_succ.
    destruct (scraped_data r) as [|m]; [apply IH in H; lia|].
    destruct (truthy (Found m)); [|apply IH in H; lia].
    destruct (bool_decide (validate_scraped_data m = ∅)); [apply IH in H; lia|].
    apply bind_Ok in H as (df2 & s1 & _ & H).
    apply bind_Ok in H as ([] & s2 & _ & H).
    apply IH in H. lia.
Qed.

Lemma merge_results_all_false (env : CycleEnv) (results : list BatchResult)
    (df : DataFrame) (u : Z) (st : State) :
  Forall (fun r => scraped_data r = PyFalse) results ->
  merge_results env results df u st = (Ok (df, u), st).
Proof.
  induction 1 as [|r results Hr _ IH]; cbn [merge_results]; [reflexivity|].
  rewrite Hr. exact IH.
Qed.

(** The steps of a cycle that finds work and returns. *)
Lemma full_cycle_run (env : CycleEnv) (df : DataFrame) (items : list WorkItem)
    (st st' : State) :
  (test_api_connection (canary env) st).1 = Ok true ->
  load_2026_data env = Ok df ->
  df_empty df = false ->
  get_incomplete_conferences df = Ok items ->
  items <> [] ->
  run_scraping_job json_loads spreadsheet_name env st = (Ok tt, st') ->
  exists s1 results s2 df' u s3,
    scrape_batch (search_conference_info json_loads (oracle env)) items 3 s1
      = (Ok results, s2) /\
    merge_results env results df 0 s2 = (Ok (df', u), s3) /\
    total_conferences_processed (sched st')
      = total_conferences_processed (sched st) + Z.of_nat (length items) /\
    total_updates_made (sched st') = total_updates_made (sched st) + u /\
    last_run (sched st') = Some (now st').
Proof.
  intros Hconn Hload Hempty Hitems Hne. unfold run_scraping_job. intros H.
  apply bind_Ok in H as ([] & s1 & Hlog0 & H). apply log_quiet in Hlog0.
  apply try_reraise_Ok in H.
  apply bind_Ok in H as ([] & s2 & Hens & H).
  assert (appends no_table_write st s2) as A2
    by (eapply inv_run; [apply inv_ensure_sheets|exact Hlog0|exact Hens]).
  apply bind_Ok in H as (connected & s3 & Htest & H).
  assert (appends no_table_write st s3) as A3
    by (eapply inv_run;
        [apply inv_test_api_connection, no_table_write_log|exact A2|exact Htest]).
  assert (connected = true) as ->.
  { pose proof (test_api_connection_value (canary env) s2 st) as Hv.
    rewrite Htest, Hconn in Hv. simpl in Hv. congruence. }
  cbn [negb] in H.
  apply bind_Ok in H as (df0 & s4 & Hload' & H).
  apply lift_run in Hload' as [Hload' ->].
  assert (df0 = df) as -> by congruence.
  rewrite Hempty in H.
  apply bind_Ok in H as (items0 & s5 & Hitems' & H).
  apply lift_run in Hitems' as [Hitems' ->].
  assert (items0 = items) as -> by congruence.
  apply bind_Ok in H as ([] & s6 & Hlog1 & H).
  assert (appends no_table_write st s6) as A6
    by exact (appends_trans _ _ _ _ A3 (log_quiet _ _ _ _ _ Hlog1)).
  destruct items as [|c items]; [congruence|].
  apply bind_Ok in H as ([] & s7 & Hlog2 & H).
  assert (appends no_table_write st s7) as A7
    by exact (appends_trans _ _ _ _ A6 (log_quiet _ _ _ _ _ Hlog2)).
  apply bind_Ok in H as (results & s8 & Hbatch & H).
  assert (appends no_table_write st s8) as A8.
  { eapply inv_run; [|exact A7|exact Hbatch].
    apply inv_scrape_batch; [apply no_table_write_log|reflexivity|].
    intros w. apply inv_search, no_table_write_log. }
  apply bind_Ok in H as ([df' u] & s9 & Hmerge & H).
  pose proof (merge_results_grows env results _ _ _ _ _ _ Hmerge) as [_ Hgrow].
  apply bind_Ok in H as ([] & s10 & Hsave & H). cbn [fst snd] in Hsave, H.
  apply save_updates_grows in Hsave as [_ Hsave].
  pose proof (grows_trans _ _ _ _ _ _ _ (grows_quiet_l _ _ _ _ _ A8 Hgrow) Hsave)
    as (Hs & _).
  apply bind_Ok in H as ([] & s11 & Hstat & H).
  unfold update_statistics, bind, get_sched, time, set_sched in Hstat.
  injection Hstat as <-.
  unfold bind, log, emit in H. simpl in H. injection H as <-.
  unfold stats in Hs. injection Hs as _ Hp Hu.
  exists s7, results, s8, df', u, s9.
  split; [exact Hbatch|]. split; [exact Hmerge|]. simpl.
  split; [congruence|]. split; [congruence|]. reflexivity.
Qed.

(** A cycle that finds work and returns adds the number of work items to
    [total_conferences_processed], sets [last_run] to the time at its end,
    and adds to [total_updates_made] a number between 0 and the number
    of work items. *)
Theorem full_cycle_statistics (env : CycleEnv) (df : DataFrame) (items : list WorkItem)
    (st st' : State) :
  (test_api_connection (canary env) st).1 = Ok true ->
  load_2026_data env = Ok df ->
  df_empty df = false ->
  get_incomplete_conferences df = Ok items ->
  items <> [] ->
  run_scraping_job json_loads spreadsheet_name env st = (Ok tt, st') ->
  total_conferences_processed (sched st')
    = total_conferences_processed (sched st) + Z.of_nat (length items) /\
  last_run (sched st') = Some (now st') /\
  total_updates_made (sched st) <= total_updates_made (sched st')
    <= total_updates_made (sched st) + Z.of_nat (length items).
Proof.
  intros Hconn Hload Hempty Hitems Hne Hrun.
  destruct (full_cycle_run env df items st st' Hconn Hload Hempty Hitems Hne Hrun)
    as (s1 & results & s2 & df' & u & s3 & Hbatch & Hmerge & Hp & Hu & Hlast).
  split; [exact Hp|]. split; [exact Hlast|].
  pose proof (merge_results_grows env results _ _ _ _ _ _ Hmerge) as [Hpos _].
  pose proof (merge_results_bound env results _ _ _ _ _ _ Hmerge) as Hbound.
  pose proof (scrape_batch_covers _ items 3 s1 s2 results ltac:(lia) Hbatch) as Hmap.
  assert (length results = length items) as Hlen by (rewrite <- Hmap; now rewrite length_map).
  lia.
Qed.

(** A cycle in which the service answers [false] for every work item, and
    which returns, counts the work items as processed, makes no update and
    writes no conference record. *)
Theorem not_found_cycle_updates_nothing (env : CycleEnv) (df : DataFrame)
    (items : list WorkItem) (st st' : State) :
  (test_api_connection (canary env) st).1 = Ok true ->
  load_2026_data env = Ok df ->
  df_empty df = false ->
  get_incomplete_conferences df = Ok items ->
  items <> [] ->
  (forall w, exists text, oracle env w = ApiText text /\
                          PyStr.lower (PyStr.strip text) = "false") ->
  run_scraping_job json_loads spreadsheet_name env st = (Ok tt, st') ->
  total_updates_made (sched st') = total_updates_made (sched st) /\
  total_conferences_processed (sched st')
    = total_conferences_processed (sched st) + Z.of_nat (length items) /\
  exists new, trace st' = (trace st ++ new)%list /\
              row_updates new = 0%nat /\ csv_saves new = 0%nat.
Proof.
  intros Hconn Hload Hempty Hitems Hne Hfalse Hrun.
  destruct (full_cycle_run env df items st st' Hconn Hload Hempty Hitems Hne Hrun)
    as (s1 & results & s2 & df' & u & s3 & Hbatch & Hmerge & Hp & Hu & _).
  assert (Forall (fun r => scraped_data r = PyFalse) results) as Hall.
  { pose proof (scrape_batch_from_search _ _ _ _ _ _ Hbatch) as Hfrom.
    eapply Forall_impl; [exact Hfrom|]. intros r [(s & Hs & _)|(s & e & _ & Hr & _)];
      [|exact Hr].
    destruct (Hfalse (conference_info r)) as (text & Horacle & Hlow).
    rewrite (search_false_answer json_loads (oracle env) (conference_info r) text s
               Horacle Hlow) in Hs. congruence. }
  rewrite (merge_results_all_false env results df 0 s2 Hall) in Hmerge.
  injection Hmerge as _ <- _.
  split; [lia|]. split; [exact Hp|].
  destruct (job_cycle_writes json_loads spreadsheet_name env st st' Hrun)
    as (u0 & _ & Hu0 & new & Ht & Hr & Hc).
  assert (u0 = 0) as -> by lia.
  exists new. split; [exact Ht|].
  destruct (use_google_sheets env); simpl in Hr, Hc; auto.
Qed.

End FullCycle.

Lemma full_cycle_statistics_witness :
  let env := example_env false "API test successful" scenario_table status_confirmed_text in
  let out := run_scraping_job example_json_loads "Crypto Conferences 2026" env example_state in
  total_conferences_processed (sched out.2)
  = total_conferences_processed (sched example_state) + 2.
Proof.
  intros env out.
  apply (full_cycle_statistics example_json_loads "Crypto Conferences 2026" env
           scenario_table
           [work_item_of Config.FIELDS_TO_SCRAPE (columns scenario_table)
              (0%nat, [PStr "Consensus"; PStr "05/14"; PStr "05/16"; PStr "Toronto";
                       PStr "TBA"; PStr "15000"; PStr ""]);
            work_item_of Config.FIELDS_TO_SCRAPE (columns scenario_table)
              (2%nat, [PStr "Token2049"; PStr "04/29"; PStr "04/30"; PStr "Dubai";
                       PStr "TBA"; PStr "10000"; PNaN])]
           example_state out.2);
    try (vm_compute; reflexivity).
  discriminate.
Defined.

Lemma not_found_cycle_updates_nothing_witness :
  let env := example_env true "API test successful" scenario_table " False " in
  let out := run_scraping_job example_json_loads "Crypto Conferences 2026" env example_state in
  total_updates_made (sched out.2) = total_updates_made (sched example_state).
Proof.
  intros env out.
  apply (not_found_cycle_updates_nothing example_json_loads "Crypto Conferences 2026" env
           scenario_table
           [work_item_of Config.FIELDS_TO_SCRAPE (columns scenario_table)
              (0%nat, [PStr "Consensus"; PStr "05/14"; PStr "05/16"; PStr "Toronto";
                       PStr "TBA"; PStr "15000"; PStr ""]);
            work_item_of Config.FIELDS_TO_SCRAPE (columns scenario_table)
              (2%nat, [PStr "Token2049"; PStr "04/29"; PStr "04/30"; PStr "Dubai";
                       PStr "TBA"; PStr "10000"; PNaN])]
           example_state out.2);
    try (vm_compute; reflexivity).
  - discriminate.
  - intros w. exists " False ". split; reflexivity.
Defined.

(** ** The pauses of the batch runner *)
Section BatchPacing.

Variable search : WorkItem -> M scraped.

(** The search returns and leaves the clock alone, as
    [search_conference_info] does. *)
Hypothesis search_returns :
  forall c st, (exists d, (search c st).1 = Ok d) /\ now (search c st).2 = now st.

Lemma scrape_conference_clock (results : list BatchResult) (c : WorkItem) (st : State) :
  exists rs st',
    scrape_conference search results c st = (Ok rs, st') /\ now st' = now st + 2.
Proof.
  unfold scrape_conference, try_except, bind, time, sleep, log, emit, ret.
  destruct (search_returns c st) as [[d Hd] Hnow].
  destruct (search c st) as [[d'|e] s1]; simpl in *; [|discriminate].
  eexists _, _. split; [reflexivity|]. simpl. lia.
Qed.

Lemma scrape_conferences_clock (batch : list WorkItem) (results : list BatchResult)
    (st : State) :
  exists rs st',
    scrape_conferences search batch results st = (Ok rs, st') /\
    now st' = now st + 2 * Z.of_nat (length batch).
Proof.
  revert results st. induction batch as [|c batch IH]; intros results st.
  - exists results, st. split; [reflexivity|]. simpl. lia.
  - cbn [scrape_conferences].
    destruct (scrape_conference_clock results c st) as (rs1 & s1 & H1 & Hn1).
    unfold bind at 1. rewrite H1.
    destruct (IH rs1 s1) as (rs & s2 & H2 & Hn2).
    exists rs, s2. split; [exact H2|]. cbn [length]. lia.
Qed.

Lemma scrape_batches_clock (conferences : list WorkItem) (batch_size : Z)
    (starts : list Z) (results : list BatchResult) (st : State) :
  exists rs st',
    scrape_batches search conferences batch_size starts results st = (Ok rs, st') /\
    now st'
    = now st
      + 2 * Z.of_nat (length (concat (map (fun i => py_slice conferences i (i + batch_size))
                                          starts)))
      + 10 * Z.of_nat (length (List.filter
                                 (fun i => i + batch_size <? Z.of_nat (length conferences))
                                 starts)).
Proof.
  revert results st. induction starts as [|i starts IH]; intros results st.
  - exists results, st. split; [reflexivity|]. simpl. lia.
  - cbn [scrape_batches map concat List.filter].
    unfold bind at 1. unfold log at 1, emit at 1. cbv beta iota.
    unfold bind at 1.
    match goal with |- context [scrape_conferences search ?b results ?s] =>
      destruct (scrape_conferences_clock b results s) as (rs1 & s1 & H1 & Hn1)
    end.
    rewrite H1. unfold bind at 1.
    destruct (i + batch_size <? Z.of_nat (length conferences)) eqn:Emore.
    + unfold bind at 1. unfold log at 1, emit at 1, sleep at 1. cbv beta iota.
      match goal with |- context [scrape_batches search conferences batch_size starts rs1 ?s] =>
        destruct (IH rs1 s) as (rs & s2 & H2 & Hn2)
      end.
      exists rs, s2. split; [exact H2|]. rewrite Hn2. simpl in Hn1 |- *.
      rewrite length_app, Nat2Z.inj_add. cbn [length]. lia.
    + unfold ret at 1. cbv beta iota.
      destruct (IH rs1 s1) as (rs & s2 & H2 & Hn2).
      exists rs, s2. split; [exact H2|]. rewrite Hn2. simpl in Hn1 |- *.
      rewrite length_app, Nat2Z.inj_add. lia.
Qed.

End BatchPacing.

Lemma length_filter_seq_but_last (g : nat -> bool) (c : nat) :
  (forall k, (k < c)%nat -> (g k = true <-> (k + 1 < c)%nat)) ->
  length (List.filter g (seq 0 c)) = (c - 1)%nat.
Proof.
  destruct c as [|c]; [reflexivity|]. intros Hg.
  rewrite seq_S, List.filter_app, length_app. simpl.
  rewrite forallb_filter_id.
  - destruct (g c) eqn:E.
    + apply Hg in E; lia.
    + rewrite length_seq. simpl. lia.
  - apply forallb_forall. intros k Hk. apply in_seq in Hk. apply Hg; lia.
Qed.

Lemma length_filter_map {A B : Type} (p : B -> bool) (f : A -> B) (l : list A) :
  length (List.filter p (map f l)) = length (List.filter (fun a => p (f a)) l).
Proof.
  induction l as [|a l IH]; simpl; [reflexivity|].
  destruct (p (f a)); simpl; congruence.
Qed.

(** With a batch size of at least 1 and a search that returns without
    sleeping, the batch runner sleeps 2 seconds after every item and 10
    seconds between two batches and nowhere else: for [n] items in
    [c] batches, [2 n + 10 (c - 1)] seconds in all. *)
Theorem batch_runner_pauses (search : WorkItem -> M scraped)
    (conferences : list WorkItem) (batch_size : Z) (st : State) :
  (forall c st, (exists d, (search c st).1 = Ok d) /\ now (search c st).2 = now st) ->
  0 < batch_size ->
  let n := Z.of_nat (length conferences) in
  let batches := (n + batch_size - 1) / batch_size in
  now (scrape_batch search conferences batch_size st).2
  = now st + 2 * n + 10 * Z.max 0 (batches - 1).
Proof.
  intros Hsearch Hpos n batches.
  destruct (py_range_slices conferences batch_size Hpos) as (starts & Hrange & Hcat).
  unfold scrape_batch, bind, lift. rewrite Hrange.
  destruct (scrape_batches_clock search Hsearch conferences batch_size starts [] st)
    as (rs & st' & Hrun & Hnow).
  rewrite Hrun. simpl. rewrite Hnow, Hcat. fold n.
  assert (Z.of_nat (length (List.filter (fun i => i + batch_size <? n) starts))
          = Z.max 0 (batches - 1)) as ->; [|lia].
  unfold py_range in Hrange.
  destruct (batch_size =? 0) eqn:E0; [lia|].
  destruct (0 <? batch_size) eqn:E1; [|lia].
  injection Hrange as <-.
  replace (Z.of_nat (length conferences) - 0 + batch_size - 1)
    with (n + batch_size - 1) by (subst n; lia).
  fold batches.
  assert (0 <= batches) as Hb by (subst batches; apply Z.div_pos; lia).
  pose proof (Z.mul_div_le (n + batch_size - 1) batch_size Hpos) as Hlow.
  pose proof (Z.mod_pos_bound (n + batch_size - 1) batch_size Hpos) as Hmod.
  pose proof (Z.div_mod (n + batch_size - 1) batch_size ltac:(lia)) as Hdm.
  fold batches in Hlow, Hdm.
  rewrite length_filter_map.
  rewrite (length_filter_seq_but_last _ (Z.to_nat batches)); [lia|].
  intros k Hk. rewrite Z.ltb_lt. split; intros H; nia.
Qed.

Lemma batch_runner_pauses_witness :
  now (scrape_batch (search_conference_info example_json_loads (fun _ => ApiText "false"))
         [numbered_item 0; numbered_item 1; numbered_item 2; numbered_item 3] 3
         example_state).2
  = now example_state + 2 * 4 + 10 * Z.max 0 ((4 + 3 - 1) / 3 - 1).
Proof.
  apply (batch_runner_pauses
           (search_conference_info example_json_loads (fun _ => ApiText "false"))
           [numbered_item 0; numbered_item 1; numbered_item 2; numbered_item 3] 3
           example_state).
  - intros c st.
    destruct (search_total example_json_loads (fun _ => ApiText "false") c st)
      as (Hok & _ & Hnow & _).
    split; assumption.
  - lia.
Defined.

(** ** The 2026 template *)
Section TemplateProofs.
Import Template.

Lemma set_column_columns (d : DataFrame) (f : string) (v : pyval) :
  columns (set_column d f v) = columns d.
Proof. unfold set_column. now destruct (column_index f (columns d)). Qed.

Lemma set_column_labels (d : DataFrame) (f : string) (v : pyval) :
  map fst (rows (set_column d f v)) = map fst (rows d).
Proof.
  unfold set_column. destruct (column_index f (columns d)); [|reflexivity].
  cbn [rows]. rewrite map_map. reflexivity.
Qed.

Lemma set_column_cell_other (d : DataFrame) (f g : string) (v : pyval) (pos : nat) :
  g <> f -> cell (set_column d f v) pos g = cell d pos g.
Proof.
  intros Hne. unfold cell. rewrite set_column_columns. unfold set_column.
  destruct (column_index f (columns d)) as [j|] eqn:Hj; [|reflexivity].
  cbn [rows]. rewrite list_lookup_fmap.
  destruct (rows d !! pos) as [[l vals]|]; [|reflexivity]. simpl.
  unfold row_getitem. destruct (column_index g (columns d)) as [j'|] eqn:Hg; [|reflexivity].
  f_equal. rewrite !nth_lookup, list_lookup_insert_ne; [reflexivity|].
  intros ->. apply column_index_lookup in Hj, Hg. congruence.
Qed.

Lemma blank_after_insert (vals : list pyval) (j j' : nat) :
  j = j' \/ is_blank (nth j vals PNaN) = true ->
  is_blank (nth j (<[j' := PStr ""]> vals) PNaN) = true.
Proof.
  intros H. rewrite nth_lookup.
  destruct (decide (j' = j)) as [->|Hne].
  - destruct (decide (j < length vals)%nat) as [Hlt|Hge].
    + rewrite list_lookup_insert_eq by exact Hlt. reflexivity.
    + rewrite list_insert_ge by lia. rewrite lookup_ge_None_2 by lia. reflexivity.
  - rewrite list_lookup_insert_ne by exact Hne. rewrite <- nth_lookup.
    destruct H as [->|H]; [congruence|exact H].
Qed.

Lemma set_column_blank (d : DataFrame) (f g : string) :
  (g = f /\ in_columns f (columns d) = true) \/ blank_column d g ->
  blank_column (set_column d f (PStr "")) g.
Proof.
  intros H. unfold blank_column. rewrite set_column_columns. unfold set_column.
  destruct (column_index f (columns d)) as [j|] eqn:Hj.
  - cbn [rows]. apply Forall_map. apply Forall_forall. intros [l vals] Hr. simpl.
    unfold row_get, row_getitem.
    destruct (column_index g (columns d)) as [j'|] eqn:Hg; [|reflexivity].
    apply blank_after_insert. destruct H as [[-> _]|H].
    + left. congruence.
    + right. unfold blank_column in H. rewrite Forall_forall in H.
      specialize (H _ Hr). unfold row_get, row_getitem in H. simpl in H.
      now rewrite Hg in H.
  - destruct H as [[-> Hin]|H]; [|exact H].
    apply in_columns_index in Hin as [j Hj']. congruence.
Qed.

Lemma clear_fields_columns (l : list string) (d : DataFrame) :
  columns (clear_fields l d) = columns d.
Proof.
  unfold clear_fields. revert d. induction l as [|f l IH]; intros d; simpl; [reflexivity|].
  rewrite IH. destruct (in_columns f (columns d)); [apply set_column_columns|reflexivity].
Qed.

Lemma clear_fields_labels (l : list string) (d : DataFrame) :
  map fst (rows (clear_fields l d)) = map fst (rows d).
Proof.
  unfold clear_fields. revert d. induction l as [|f l IH]; intros d; simpl; [reflexivity|].
  rewrite IH. destruct (in_columns f (columns d)); [apply set_column_labels|reflexivity].
Qed.

Lemma clear_fields_cell_frame (l : list string) (d : DataFrame) (pos : nat) (g : string) :
  g ∉ l -> cell (clear_fields l d) pos g = cell d pos g.
Proof.
  unfold clear_fields. revert d. induction l as [|f l IH]; intros d Hg; simpl; [reflexivity|].
  apply not_elem_of_cons in Hg as [Hne Hg]. rewrite IH by exact Hg.
  destruct (in_columns f (columns d)); [now apply set_column_cell_other|reflexivity].
Qed.

Lemma clear_fields_blank (l : list string) (d : DataFrame) (g : string) :
  (g ∈ l /\ in_columns g (columns d) = true) \/ blank_column d g ->
  blank_column (clear_fields l d) g.
Proof.
  revert d. induction l as [|f l IH]; intros d H.
  - destruct H as [[H _]|H]; [now apply elem_of_nil in H|exact H].
  - change (clear_fields (f :: l) d)
      with (clear_fields l (if in_columns f (columns d)
                            then set_column d f (PStr "") else d)).
    destruct (in_columns f (columns d)) eqn:Hf.
    + apply IH. destruct H as [[Hin Hcol]|H].
      * apply elem_of_cons in Hin as [->|Hin].
        -- right. apply set_column_blank. left. auto.
        -- left. rewrite set_column_columns. auto.
      * right. apply set_column_blank. right. exact H.
    + apply IH. destruct H as [[Hin Hcol]|H]; [|right; exact H].
      apply elem_of_cons in Hin as [->|Hin]; [congruence|left; auto].
Qed.

Lemma filter_all {A : Type} (p : A -> bool) (l : list A) :
  Forall (fun a => p a = true) l -> List.filter p l = l.
Proof.
  induction 1 as [|a l Ha _ IH]; simpl; [reflexivity|]. now rewrite Ha, IH.
Qed.

Lemma existsb_ext_in {A : Type} (f g : A -> bool) (l : list A) :
  (forall a, In a l -> f a = g a) -> existsb f l = existsb g l.
Proof.
  induction l as [|a l IH]; intros H; simpl; [reflexivity|].
  rewrite (H a) by (now left). rewrite IH; [reflexivity|].
  intros b Hb. apply H. now right.
Qed.

Lemma filter_none {A : Type} (p : A -> bool) (l : list A) :
  Forall (fun a => p a = false) l -> List.filter p l = [].
Proof.
  induction 1 as [|a l Ha _ IH]; simpl; [reflexivity|]. now rewrite Ha.
Qed.

(** [create_2026_template] raises a [KeyError] on a frame without the
    column [Quarter]. On the other frames it returns a frame with the
    same columns and row labels, in which the columns that are no field to
    scrape are as they were; when the frame has the column
    [Conference Name] and at least one field to scrape, the analyzer
    returns every row of the template, with every field to scrape that is
    a column as missing. *)
Theorem template_rows_are_all_incomplete (df : DataFrame) (st : State) :
  let out := create_2026_template df st in
  (in_columns "Quarter" (columns df) = false ->
   out.1 = Raise "KeyError: 'Quarter'") /\
  (in_columns "Quarter" (columns df) = true ->
   exists t,
     out.1 = Ok t /\
     columns t = columns df /\
     map fst (rows t) = map fst (rows df) /\
     (forall g pos, g ∉ Config.FIELDS_TO_SCRAPE -> cell t pos g = cell df pos g) /\
     (in_columns "Conference Name" (columns df) = true ->
      existsb (fun f => in_columns f (columns df)) Config.FIELDS_TO_SCRAPE = true ->
      exists items,
        get_incomplete_conferences t = Ok items /\
        map index items = map fst (rows df) /\
        Forall (fun item =>
                  missing_fields item
                  = List.filter (fun f => in_columns f (columns df)) Config.FIELDS_TO_SCRAPE)
               items)).
Proof.
  intros out. remember out as o eqn:Ho. subst out.
  unfold create_2026_template, try_except in Ho.
  rewrite clear_fields_columns in Ho.
  destruct (in_columns "Quarter" (columns df)) eqn:Hq.
  - unfold bind, log, emit, ret in Ho. simpl in Ho. subst o. simpl.
    split; [discriminate|]. intros _.
    set (t := clear_fields Config.FIELDS_TO_SCRAPE df).
    exists t. split; [reflexivity|].
    split; [apply clear_fields_columns|]. split; [apply clear_fields_labels|].
    split; [intros g pos Hg; now apply clear_fields_cell_frame|].
    intros Hname Hsome.
    assert (columns t = columns df) as Hcols by apply clear_fields_columns.
    assert (forall r f, r ∈ rows t -> f ∈ Config.FIELDS_TO_SCRAPE ->
                        missing_in (columns t) r.2 f = in_columns f (columns df)) as Hmiss.
    { intros r f Hr Hf. unfold missing_in. rewrite Hcols.
      destruct (in_columns f (columns df)) eqn:Hin; [|reflexivity]. simpl.
      pose proof (clear_fields_blank Config.FIELDS_TO_SCRAPE df f (or_introl (conj Hf Hin)))
        as Hblank.
      unfold blank_column in Hblank. rewrite Forall_forall in Hblank.
      fold t in Hblank. rewrite Hcols in Hblank. exact (Hblank r Hr). }
    assert (forall r, r ∈ rows t ->
                      List.filter (missing_in (columns t) r.2) Config.FIELDS_TO_SCRAPE
                      = List.filter (fun f => in_columns f (columns df))
                                    Config.FIELDS_TO_SCRAPE) as Hfilter.
    { intros r Hr. apply filter_ext_in. intros f Hf. apply Hmiss; [exact Hr|].
      now apply list_elem_of_In. }
    assert (List.filter (incomplete_row Config.FIELDS_TO_SCRAPE (columns t)) (rows t)
            = rows t) as Hall.
    { apply filter_all. apply Forall_forall. intros r Hr. unfold incomplete_row.
      rewrite <- Hsome.
      apply (existsb_ext_in _ (fun f => in_columns f (columns df)) Config.FIELDS_TO_SCRAPE).
      intros f Hf. apply Hmiss; [exact Hr|now apply list_elem_of_In]. }
    eexists. split.
    + unfold get_incomplete_conferences, Analyzer.get_incomplete_conferences_for.
      rewrite iterrows_spec by (rewrite Hcols; exact Hname). simpl. rewrite Hall.
      reflexivity.
    + split.
      * rewrite map_map. simpl. apply clear_fields_labels.
      * apply Forall_map. apply Forall_forall. intros r Hr. simpl. now apply Hfilter.
  - unfold bind, log, emit, raise in Ho. simpl in Ho. subst o. simpl.
    split; [reflexivity|discriminate].
Qed.

End TemplateProofs.

Lemma template_rows_are_all_incomplete_witness :
  (Template.create_2026_template complete_table example_state).1
  = Raise "KeyError: 'Quarter'".
Proof.
  apply (template_rows_are_all_incomplete complete_table example_state).
  reflexivity.
Defined.

(** ** The operations on demand *)
Section OnDemandProofs.

Variable json_loads : string -> option json_doc.
Variable spreadsheet_name : string.

Lemma inv_processor_get_incomplete (P : event -> bool) (st0 : State) (df : DataFrame) :
  (forall lvl msg, P (Log lvl msg) = true) ->
  inv P st0 (processor_get_incomplete_conferences df).
Proof. intros P_log. unfold processor_get_incomplete_conferences. inv_auto. Qed.

Lemma inv_preview (st0 : State) (env : CycleEnv) (limit : Z) :
  inv no_table_write st0 (preview_next_scraping_batch spreadsheet_name env limit).
Proof.
  unfold preview_next_scraping_batch.
  apply inv_try_except; [|intros e; inv_auto].
  apply inv_bind; [apply inv_ensure_sheets|intros _].
  apply inv_bind; [apply inv_lift|intros df].
  destruct (df_empty df); [apply inv_ret|].
  apply inv_bind; [|intros items; apply inv_ret].
  apply inv_processor_get_incomplete, no_table_write_log.
Qed.

Lemma py_prefix_is_prefix {A : Type} (l : list A) (limit : Z) :
  exists rest, l = (py_prefix l limit ++ rest)%list.
Proof.
  unfold py_prefix. destruct (0 <=? limit); eexists; symmetry; apply take_drop.
Qed.

Lemma py_prefix_length {A : Type} (l : list A) (limit : Z) :
  Z.of_nat (length (py_prefix l limit))
  = if 0 <=? limit then Z.min limit (Z.of_nat (length l))
    else Z.max 0 (Z.of_nat (length l) + limit).
Proof.
  unfold py_prefix. destruct (0 <=? limit) eqn:E; rewrite length_take;
    [apply Z.leb_le in E|apply Z.leb_gt in E]; lia.
Qed.

(** [preview_next_scraping_batch] never raises, changes no statistic and
    writes no conference record. When the table is loaded, is not empty
    and is analyzed, it returns the first work items of the analyzer, in
    their order: [limit] of them, or all when there are fewer, for a
    [limit] that is not negative, and all but the last [- limit] for a
    negative [limit]. *)
Theorem preview_returns_first_items (env : CycleEnv) (limit : Z) (st : State) :
  let out := preview_next_scraping_batch spreadsheet_name env limit st in
  (exists l, out.1 = Ok l) /\
  stats (sched out.2) = stats (sched st) /\
  (exists new, trace out.2 = (trace st ++ new)%list /\
               forallb no_table_write new = true) /\
  (forall df items,
     (ensure_sheets_initialized spreadsheet_name env st).1 = Ok tt ->
     load_2026_data env = Ok df ->
     df_empty df = false ->
     get_incomplete_conferences df = Ok items ->
     out.1 = Ok (py_prefix items limit) /\
     (exists rest, items = (py_prefix items limit ++ rest)%list) /\
     Z.of_nat (length (py_prefix items limit))
     = if 0 <=? limit then Z.min limit (Z.of_nat (length items))
       else Z.max 0 (Z.of_nat (length items) + limit)).
Proof.
  intros out.
  pose proof (inv_preview st env limit st (appends_refl _ st)) as (Hstats & _ & Hnew).
  fold out in Hstats, Hnew.
  split; [|split; [exact Hstats|split; [exact Hnew|]]].
  - subst out. unfold preview_next_scraping_batch, try_except.
    match goal with |- context [match ?c st with _ => _ end] =>
      destruct (c st) as [[l|e] s1]
    end; [eauto|].
    unfold bind, log, emit, ret. simpl. eauto.
  - intros df items Hens Hload Hempty Hitems.
    split; [|split; [apply py_prefix_is_prefix|apply py_prefix_length]].
    subst out. unfold preview_next_scraping_batch, try_except.
    unfold bind at 1.
    destruct (ensure_sheets_initialized spreadsheet_name env st) as [[[]|e] s1];
      simpl in Hens; [|discriminate].
    unfold bind, lift, processor_get_incomplete_conferences.
    rewrite Hload, Hempty. unfold bind, lift. rewrite Hitems.
    unfold log, emit, ret. reflexivity.
Qed.

(** [get_incomplete_conferences_count] never raises; it returns 0 when
    the table cannot be loaded or analyzed or is empty, and the number of
    work items of the analyzer otherwise. *)
Theorem count_of_incomplete_conferences (env : CycleEnv) (st : State) :
  let out := get_incomplete_conferences_count spreadsheet_name env st in
  (exists n, out.1 = Ok n /\ 0 <= n) /\
  (forall e, load_2026_data env = Raise e -> out.1 = Ok 0) /\
  (forall df e, load_2026_data env = Ok df -> df_empty df = false ->
                get_incomplete_conferences df = Raise e -> out.1 = Ok 0) /\
  (forall df items,
     (ensure_sheets_initialized spreadsheet_name env st).1 = Ok tt ->
     load_2026_data env = Ok df ->
     get_incomplete_conferences df = Ok items ->
     out.1 = Ok (if df_empty df then 0 else Z.of_nat (length items))).
Proof.
  intros out. remember out as o eqn:Ho. subst out.
  unfold get_incomplete_conferences_count, try_except in Ho.
  unfold bind at 1 in Ho.
  destruct (ensure_sheets_initialized spreadsheet_name env st) as [[[]|e0] s1];
    simpl in Ho.
  - unfold bind at 1 in Ho. unfold lift at 1 in Ho.
    destruct (load_2026_data env) as [df|e1]; simpl in Ho.
    + destruct (df_empty df) eqn:Hempty.
      * unfold ret in Ho. subst o. simpl.
        split; [exists 0; split; [reflexivity|lia]|].
        split; [discriminate|]. split; [intros ? ? [= <-]; congruence|].
        intros df' items _ [= <-] _. now rewrite Hempty.
      * unfold processor_get_incomplete_conferences, bind, lift in Ho.
        destruct (get_incomplete_conferences df) as [items|e2] eqn:Hitems; simpl in Ho;
          subst o; simpl.
        -- split; [eexists; split; [reflexivity|lia]|].
           split; [discriminate|]. split; [intros ? ? [= <-] _ ?; congruence|].
           intros df' items' _ [= <-] Hi. rewrite Hempty. congruence.
        -- split; [exists 0; split; [reflexivity|lia]|].
           split; [discriminate|]. split; [reflexivity|].
           intros df' items' _ [= <-] Hi. congruence.
    + subst o. simpl. split; [exists 0; split; [reflexivity|lia]|].
      split; [reflexivity|]. split; [discriminate|]. discriminate.
  - subst o. simpl. split; [exists 0; split; [reflexivity|lia]|].
    split; [reflexivity|]. split; [reflexivity|]. discriminate.
Qed.

(** [run_single_scraping_job] never raises: it reports a success when the
    cycle returned, and otherwise a failure with the text of the
    exception, the statistics being as they were before the run; its
    timestamp is the time at which the run started. *)
Theorem manual_run_reports_outcome (env : CycleEnv) (st : State) :
  let started :=
    {| sched := sched st; now := now st;
       trace := (trace st ++ [Log INFO "Running single scraping job manually..."])%list |} in
  let out := run_single_scraping_job json_loads spreadsheet_name env st in
  exists r,
    out.1 = Ok r /\
    SingleRun.timestamp r = now st /\
    match (run_scraping_job json_loads spreadsheet_name env started).1 with
    | Ok _ => SingleRun.success r = true /\ SingleRun.error r = None
    | Raise e =>
        SingleRun.success r = false /\ SingleRun.error r = Some e /\
        stats (sched out.2) = stats (sched st)
    end.
Proof.
  intros started out. remember out as o eqn:Ho. subst out.
  unfold run_single_scraping_job in Ho.
  unfold bind at 1 in Ho. unfold log at 1, emit at 1 in Ho. cbv beta iota in Ho.
  fold started in Ho.
  unfold bind at 1 in Ho. unfold time at 1 in Ho. cbv beta iota in Ho.
  unfold try_except in Ho. unfold bind at 1 in Ho.
  destruct (run_scraping_job json_loads spreadsheet_name env started) as [[[]|e] s1] eqn:Hjob.
  - unfold bind, time, ret in Ho. simpl in Ho. subst o. simpl.
    eexists. split; [reflexivity|]. simpl. auto.
  - unfold ret in Ho. simpl in Ho. subst o. simpl.
    eexists. split; [reflexivity|]. simpl.
    split; [reflexivity|]. split; [reflexivity|]. split; [reflexivity|].
    destruct (raising_cycle_stats json_loads spreadsheet_name started env e s1 Hjob)
      as (H1 & H2 & H3 & _).
    unfold stats. simpl in H1, H2, H3. congruence.
Qed.

End OnDemandProofs.

Lemma preview_returns_first_items_witness :
  (preview_next_scraping_batch "Crypto Conferences 2026"
     (example_env false "API test successful" scenario_table "false") 1 example_state).1
  = Ok (py_prefix
          [work_item_of Config.FIELDS_TO_SCRAPE (columns scenario_table)
             (0%nat, [PStr "Consensus"; PStr "05/14"; PStr "05/16"; PStr "Toronto";
                      PStr "TBA"; PStr "15000"; PStr ""]);
           work_item_of Config.FIELDS_TO_SCRAPE (columns scenario_table)
             (2%nat, [PStr "Token2049"; PStr "04/29"; PStr "04/30"; PStr "Dubai";
                      PStr "TBA"; PStr "10000"; PNaN])] 1).
Proof.
  destruct (preview_returns_first_items "Crypto Conferences 2026"
              (example_env false "API test successful" scenario_table "false") 1
              example_state) as (_ & _ & _ & H).
  apply (H scenario_table); reflexivity.
Defined.

Lemma count_of_incomplete_conferences_witness :
  (get_incomplete_conferences_count "Crypto Conferences 2026" failing_env example_state).1
  = Ok 0.
Proof.
  destruct (count_of_incomplete_conferences "Crypto Conferences 2026" failing_env
              example_state) as (_ & H & _).
  apply (H "Error loading 2026 CSV"). reflexivity.
Defined.

(** ** The request sent to the oracle *)
Section Prompt.

Lemma prefix_append (p b : string) : String.prefix p (p +:+ b) = true.
Proof.
  induction p as [|c p IH]; simpl; [now destruct b|].
  destruct (ascii_dec c c); [exact IH|congruence].
Qed.

Lemma contains_unfold (p s : string) :
  PyStr.contains p s
  = String.prefix p s
    || match s with
       | EmptyString => false
       | String _ r => PyStr.contains p r
       end.
Proof. destruct s; reflexivity. Qed.

Lemma contains_here (p b : string) : PyStr.contains p (p +:+ b) = true.
Proof. rewrite contains_unfold, prefix_append. reflexivity. Qed.

Lemma contains_skip (p a s : string) :
  PyStr.contains p s = true -> PyStr.contains p (a +:+ s) = true.
Proof.
  intros H. induction a as [|c a IH]; [exact H|].
  change (String c a +:+ s) with (String c (a +:+ s)).
  rewrite contains_unfold, IH. apply orb_true_r.
Qed.

Lemma append_assoc3 (a b c : string) : (a +:+ b) +:+ c = a +:+ b +:+ c.
Proof.
  induction a as [|x a IH]; [reflexivity|].
  change (String x ((a +:+ b) +:+ c) = String x (a +:+ b +:+ c)). now rewrite IH.
Qed.

Lemma contains_here3 (a b c rest : string) :
  PyStr.contains (a +:+ b +:+ c) (a +:+ b +:+ c +:+ rest) = true.
Proof.
  rewrite <- (append_assoc3 b c rest), <- (append_assoc3 a (b +:+ c) rest).
  apply contains_here.
Qed.

(** The request built for a work item holds the lines that name the
    conference, its category and its region, and the line that lists its
    missing fields, separated by a comma and a space. *)
Theorem prompt_names_the_work_item (item : WorkItem) :
  let prompt := create_search_prompt item in
  PyStr.contains ("- Name: " +:+ py_str (conference_name item) +:+ newline) prompt = true /\
  PyStr.contains ("- Category: " +:+ py_str (category item) +:+ newline) prompt = true /\
  PyStr.contains ("- Region: " +:+ py_str (region item) +:+ newline) prompt = true /\
  PyStr.contains (newline +:+ join ", " (missing_fields item) +:+ newline) prompt = true.
Proof.
  unfold create_search_prompt. cbv zeta.
  repeat split;
    repeat first [ apply contains_here3 | apply contains_skip ].
Qed.

End Prompt.

(** ** The schedule *)
Section ScheduleProofs.

Variable valid_time : string -> bool.

Lemma schedule_times_all_valid (ts : list string) (jobs : list scheduled_job)
    (logs : list event) :
  forallb valid_time ts = true ->
  exists logs',
    schedule_times valid_time ts jobs logs = (Ok tt, (jobs ++ map DailyAt ts)%list, logs').
Proof.
  revert jobs logs. induction ts as [|t ts IH]; intros jobs logs H; simpl.
  - exists logs. now rewrite app_nil_r.
  - simpl in H. apply andb_prop in H as [Ht Hts]. rewrite Ht.
    destruct (IH (jobs ++ [DailyAt t])%list
                 (logs ++ [Log INFO ("Set custom schedule: daily at " +:+ t)])%list Hts)
      as (logs' & ->).
    exists logs'. now rewrite <- app_assoc.
Qed.

Lemma schedule_times_first_invalid (pre post : list string) (t : string)
    (jobs : list scheduled_job) (logs : list event) :
  forallb valid_time pre = true -> valid_time t = false ->
  exists logs',
    schedule_times valid_time (pre ++ t :: post) jobs logs
    = (Raise "ScheduleValueError: Invalid time format",
       (jobs ++ map DailyAt pre)%list, logs').
Proof.
  revert jobs logs. induction pre as [|p pre IH]; intros jobs logs H Ht; simpl.
  - rewrite Ht. exists logs. now rewrite app_nil_r.
  - simpl in H. apply andb_prop in H as [Hp Hpre]. rewrite Hp.
    destruct (IH (jobs ++ [DailyAt p])%list
                 (logs ++ [Log INFO ("Set custom schedule: daily at " +:+ p)])%list Hpre Ht)
      as (logs' & ->).
    exists logs'. now rewrite <- app_assoc.
Qed.

(** [set_custom_schedule] forgets the jobs that were scheduled. When all
    the times of day are valid it returns, and the schedule then holds
    the jobs asked for, in the order hours first, or the default job of
    every 12 hours when none was asked for (a [hours] of 0 asks for
    none): it is never empty. When a time of day is not valid it raises,
    and the schedule holds only the jobs set before that time. *)
Theorem custom_schedule_replaces_the_jobs (hours : option Z)
    (specific_times : option (list string)) (jobs : list scheduled_job) :
  let out := set_custom_schedule valid_time hours specific_times jobs in
  out = set_custom_schedule valid_time hours specific_times [] /\
  (forallb valid_time (default [] specific_times) = true ->
   out.1.1 = Ok tt /\ out.1.2 <> [] /\
   out.1.2 = match requested_jobs hours specific_times with
             | [] => [EveryHours Config.SCRAPING_INTERVAL_HOURS]
             | requested => requested
             end) /\
  (forall pre t post,
     default [] specific_times = (pre ++ t :: post)%list ->
     forallb valid_time pre = true -> valid_time t = false ->
     out.1.1 = Raise "ScheduleValueError: Invalid time format" /\
     out.1.2 = requested_jobs hours (Some pre)).
Proof.
  intros out. split; [reflexivity|]. split.
  - intros Hvalid. subst out. unfold set_custom_schedule, requested_jobs.
    destruct (hours_given hours) eqn:Hh; destruct specific_times as [[|t ts]|];
      cbn [times_given default negb andb schedule_jobs map];
      try (simpl; repeat split; discriminate).
    all: match goal with
         | |- context [schedule_times valid_time ?l ?J ?L] =>
             destruct (schedule_times_all_valid l J L Hvalid) as (logs' & ->)
         end; simpl; repeat split; discriminate.
  - intros pre t post Hsplit Hpre Ht. subst out.
    unfold set_custom_schedule, requested_jobs.
    destruct specific_times as [l|]; simpl in Hsplit;
      [subst l|destruct pre; discriminate].
    assert (times_given (Some (pre ++ t :: post)%list) = true) as ->
      by (destruct pre; reflexivity).
    cbn [default from_option id].
    destruct (hours_given hours);
      match goal with
      | |- context [schedule_times valid_time _ ?J ?L] =>
          destruct (schedule_times_first_invalid pre post t J L Hpre Ht) as (logs' & ->)
      end; split; reflexivity.
Qed.

End ScheduleProofs.

Lemma custom_schedule_replaces_the_jobs_witness :
  (set_custom_schedule (fun t => String.eqb t "09:00") (Some 0) (Some []) [DailyAt "21:00"]).1.2
  = [EveryHours 12].
Proof.
  destruct (custom_schedule_replaces_the_jobs (fun t => String.eqb t "09:00") (Some 0)
              (Some []) [DailyAt "21:00"]) as (_ & H & _).
  destruct (H eq_refl) as (_ & _ & Hjobs). exact Hjobs.
Defined.

(** ** How the scheduler stops *)
Section LoopStops.

Variable json_loads : string -> option json_doc.
Variable spreadsheet_name : string.

Lemma scheduler_loop_app (pre rest : list tick) (passes : nat) (st : State) :
  forallb not_interrupt pre = true ->
  scheduler_loop json_loads spreadsheet_name (pre ++ rest) passes st
  = scheduler_loop json_loads spreadsheet_name rest
      (scheduler_loop json_loads spreadsheet_name pre passes st).1.2
      (scheduler_loop json_loads spreadsheet_name pre passes st).2.
Proof.
  revert passes st. induction pre as [|t pre IH]; intros passes st H; [reflexivity|].
  simpl in H. apply andb_prop in H as [Ht Hpre].
  cbn [app scheduler_loop].
  pose proof (loop_iteration_polls json_loads spreadsheet_name t st Ht) as Hpoll.
  destruct (loop_iteration json_loads spreadsheet_name t st) as [status st1].
  simpl in Hpoll. subst status. now apply IH.
Qed.

(** The user's interrupt ends the loop: the ticks that come after it are
    not looked at, and nothing is done but to log the stop. *)
Theorem interrupt_stops_the_loop (pre post : list tick) (passes : nat) (st : State) :
  forallb not_interrupt pre = true ->
  let before := scheduler_loop json_loads spreadsheet_name pre passes st in
  scheduler_loop json_loads spreadsheet_name (pre ++ Interrupt :: post) passes st
  = (Stopped, S (passes + length pre), after_interrupt before.2).
Proof.
  intros Hpre before. rewrite scheduler_loop_app by exact Hpre. fold before.
  destruct (scheduler_loop_polls json_loads spreadsheet_name pre passes st Hpre)
    as [_ Hcount].
  fold before in Hcount. cbn [scheduler_loop loop_iteration].
  unfold log, emit. simpl. rewrite Hcount. reflexivity.
Qed.

(** [run_scheduler] runs the job once before it enters the loop, outside
    the loop's handlers: an exception of that first run leaves
    [run_scheduler], whatever the ticks are, and no pass of the loop is
    made; when the first run returns, the loop starts from the state it
    left. *)
Theorem first_run_is_not_guarded (first : CycleEnv) (ticks : list tick) (st : State) :
  let out := run_scheduler json_loads spreadsheet_name first ticks st in
  let job := run_scraping_job json_loads spreadsheet_name first (scheduler_started st) in
  (forall e, job.1 = Raise e -> out = (Raise e, job.2)) /\
  (job.1 = Ok tt ->
   let r := scheduler_loop json_loads spreadsheet_name ticks 0 job.2 in
   out = (Ok (r.1.1, r.1.2), r.2)).
Proof.
  intros out job. remember out as o eqn:Ho. subst out.
  unfold run_scheduler in Ho.
  unfold bind at 1 in Ho. unfold log at 1, emit at 1 in Ho. cbv beta iota in Ho.
  unfold bind at 1 in Ho. unfold log at 1, emit at 1 in Ho. cbv beta iota in Ho.
  unfold bind at 1 in Ho. unfold log at 1, emit at 1 in Ho. cbv beta iota in Ho.
  simpl in Ho.
  assert ({| sched := sched st; now := now st;
             trace := ((trace st ++ [Log INFO "Starting conference scraper scheduler..."])
                       ++ [Log INFO ("Scheduled scraping job to run every "
                                     +:+ str_int Config.SCRAPING_INTERVAL_HOURS
                                     +:+ " hours")])
                      ++ [Log INFO "Running initial scraping job..."] |}
          = scheduler_started st) as Hst.
  { unfold scheduler_started. f_equal. now rewrite <- !app_assoc. }
  simpl in Hst. rewrite Hst in Ho. fold job in Ho.
  destruct job as [[[]|e] s1]; subst o; simpl.
  - split; [discriminate|]. reflexivity.
  - split; [|discriminate]. intros e' [= <-]. reflexivity.
Qed.

End LoopStops.

Lemma interrupt_stops_the_loop_witness :
  scheduler_loop example_json_loads "Crypto Conferences 2026"
    ([Idle; Pending failing_env] ++ Interrupt :: [Idle]) 0 example_state
  = (Stopped, 3%nat,
     after_interrupt (scheduler_loop example_json_loads "Crypto Conferences 2026"
                        [Idle; Pending failing_env] 0 example_state).2).
Proof.
  apply (interrupt_stops_the_loop example_json_loads "Crypto Conferences 2026"
           [Idle; Pending failing_env] [Idle] 0 example_state).
  reflexivity.
Defined.

Lemma first_run_is_not_guarded_witness :
  (run_scheduler example_json_loads "Crypto Conferences 2026" failing_env
     [Idle; Idle] example_state).1
  = Raise "Error loading 2026 CSV".
Proof.
  destruct (first_run_is_not_guarded example_json_loads "Crypto Conferences 2026"
              failing_env [Idle; Idle] example_state) as [H _].
  rewrite (H "Error loading 2026 CSV"); [reflexivity|].
  vm_compute. reflexivity.
Defined.

(** ** The connectivity check, whatever the service does *)

(** [test_api_connection] never raises and adds log records only; it
    returns [false] when the request raises, and its answer depends on
    the reply only up to the case of its letters. *)
Theorem connectivity_check_never_raises (canary : api_reply) (st : State) :
  let out := test_api_connection canary st in
  (exists b, out.1 = Ok b) /\
  sched out.2 = sched st /\
  (exists new, trace out.2 = (trace st ++ new)%list /\ forallb is_log new = true) /\
  (forall msg, canary = ApiRaises msg -> out.1 = Ok false) /\
  (forall text text', canary = ApiText text -> PyStr.lower text' = PyStr.lower text ->
                      (test_api_connection (ApiText text') st).1 = out.1).
Proof.
  intros out. remember out as o eqn:Ho. subst out.
  unfold test_api_connection, try_except, bind, log, emit, ret, raise in Ho.
  destruct canary as [msg|text]; simpl in Ho.
  - subst o. simpl. split; [eauto|]. split; [reflexivity|].
    split; [eexists; split; reflexivity|]. split; [reflexivity|]. discriminate.
  - destruct (PyStr.contains "successful" (PyStr.lower text)) eqn:E;
      simpl in Ho; subst o; simpl.
    all: split; [eauto|]; split; [reflexivity|];
      split; [eexists; split; reflexivity|]; split; [discriminate|].
    all: intros t t' [= <-] Hlow;
      unfold test_api_connection, try_except, bind, log, emit, ret;
      rewrite Hlow, E; reflexivity.
Qed.

Lemma connectivity_check_never_raises_witness :
  (test_api_connection (ApiText "API TEST SUCCESSFUL") example_state).1
  = (test_api_connection (ApiText "api test successful") example_state).1.
Proof.
  destruct (connectivity_check_never_raises (ApiText "api test successful") example_state)
    as (_ & _ & _ & _ & H).
  apply (H "api test successful" "API TEST SUCCESSFUL"); reflexivity.
Defined.

Lemma search_never_raises_witness :
  (search_conference_info example_json_loads (fun _ => ApiRaises "timeout") example_item
     example_state).1
  = Ok PyFalse.
Proof.
  destruct (search_never_raises example_json_loads (fun _ => ApiRaises "timeout")
              example_item example_state) as (_ & _ & _ & _ & H).
  apply (H "timeout"). reflexivity.
Defined.

(** ** The spreadsheet is opened once *)

(** [_ensure_sheets_initialized] opens the spreadsheet at most once. On
    the CSV backend, or once the spreadsheet is initialized, it does
    nothing at all. Otherwise it keeps the run statistics and either
    raises what opening the spreadsheet raised, leaving the flag unset so
    that the next call tries again, or returns with the flag set, after
    which a further call does nothing; and a spreadsheet that is found
    with its three worksheets is only logged about, not written to. *)
Theorem spreadsheet_is_opened_once (spreadsheet_name : string) (env : CycleEnv)
    (st : State) :
  let out := ensure_sheets_initialized spreadsheet_name env st in
  (use_google_sheets env = false \/ sheets_initialized (sched st) = true ->
   out = (Ok tt, st)) /\
  (use_google_sheets env = true -> sheets_initialized (sched st) = false ->
   stats (sched out.2) = stats (sched st) /\
   match GoogleSheets.open_error (remote env) with
   | Some msg =>
       out.1 = Raise msg /\ sheets_initialized (sched out.2) = false /\
       Log ERROR ("Failed to initialize Google Sheets: " +:+ msg) ∈ trace out.2
   | None =>
       out.1 = Ok tt /\ sheets_initialized (sched out.2) = true /\
       (forall env', ensure_sheets_initialized spreadsheet_name env' out.2
                     = (Ok tt, out.2)) /\
       (GoogleSheets.spreadsheet_found (remote env) = true ->
        GoogleSheets.sheet_2025_found (remote env) = true ->
        GoogleSheets.sheet_2026_found (remote env) = true ->
        GoogleSheets.dashboard_found (remote env) = true ->
        exists new, trace out.2 = (trace st ++ new)%list /\ forallb is_log new = true)
   end).
Proof.
  intros out. remember out as o eqn:Ho. subst out.
  unfold ensure_sheets_initialized, bind, get_sched in Ho. simpl in Ho.
  split.
  - intros [Hcsv | Hinit].
    + rewrite Hcsv in Ho. simpl in Ho. subst o. reflexivity.
    + rewrite Hinit, andb_false_r in Ho. subst o. reflexivity.
  - intros Hsheets Hinit. rewrite Hsheets, Hinit in Ho. simpl in Ho.
    destruct env as [ugs [oe sf s25 s26 df] cn ld orc]. simpl in *.
    unfold GoogleSheets.create_or_open_spreadsheet, try_except, bind in Ho.
    simpl in Ho.
    destruct oe as [msg|].
    + unfold raise, log, emit, bind in Ho. simpl in Ho. subst o. simpl.
      split; [reflexivity|]. split; [reflexivity|]. split; [exact Hinit|].
      rewrite elem_of_app. right. apply list_elem_of_here.
    + destruct sf, s25, s26, df.
      1: { unfold GoogleSheets.setup_worksheets, set_sched, log, emit, bind, ret in Ho.
           cbn -[append] in Ho. subst o.
           cbn [fst snd sched now trace sheets_initialized stats last_run
                total_conferences_processed total_updates_made].
           split; [reflexivity|]. split; [reflexivity|]. split; [reflexivity|].
           split; [intros env'; unfold ensure_sheets_initialized, bind, get_sched;
                   cbn [fst snd sched sheets_initialized];
                   rewrite andb_false_r; reflexivity|].
           intros _ _ _ _. rewrite <- !app_assoc. eexists. split; reflexivity. }
      all: vm_compute in Ho; subst o; cbn [fst snd sched sheets_initialized stats last_run
                total_conferences_processed total_updates_made].
      all: split; [reflexivity|]; split; [reflexivity|]; split; [reflexivity|].
      all: split; [intros env'; unfold ensure_sheets_initialized, bind, get_sched;
                   cbn [fst snd sched sheets_initialized];
                   rewrite andb_false_r; reflexivity|].
      all: intros; discriminate.
Qed.

Lemma spreadsheet_is_opened_once_witness :
  (ensure_sheets_initialized "Crypto Conferences 2026"
     (example_env true "successful" scenario_table "false") example_state).1 = Ok tt.
Proof.
  destruct (spreadsheet_is_opened_once "Crypto Conferences 2026"
              (example_env true "successful" scenario_table "false") example_state)
    as [_ H].
  destruct (H eq_refl eq_refl) as [_ [H2 _]]. exact H2.
Defined.
